(** * Batch orchestration scripts of e-dream-ai/engines

    A shallow embedding of the three batch scripts
    [scripts/run_wan_i2v_batch.py], [scripts/run_uprez_batch.py] and
    [scripts/run_qwen_image_batch.py], and the properties of their job
    orchestration core: the listing of the images, identifier derivation,
    dedup against the remote playlist, paginated listing, the submission
    loops and what they ask of the service, and the polling loops.

    Conventions of the embedding.
    - A Python [str] is a [string] whose characters are the code points
      0..255 (one [ascii] per code point); [lower], [isspace] and the UTF-8
      encoder below are Python's, restricted to that range.
    - A path is the text [str] makes of it; [PyPath] has the parsing and
      the joining of [pathlib]'s POSIX paths.
    - JSON objects returned by the remote service are association lists with
      scalar fields ([dict]); a playlist item may nest one such object.
    - Remote calls, [time.sleep], [time.time] and [print] act on a [world]:
      the state of the remote service, a clock and the trace of what was
      done, every call with its answer. A call takes the time its answer
      says; reading the clock and printing take none.
    - Python exceptions are the [Raise] outcome of a computation, [sys.exit]
      is the [Exit] outcome; [except Exception] catches the first only.
    - Loops over a list are structural; the [while] loops take a number of
      rounds after which they are cut (fuel), and the statements give the
      fuel that suffices. *)

From Stdlib Require Import ZArith QArith Lqa Ascii String List Bool Lia.
From Stdlib Require Import Sorted Permutation.
From stdpp Require Import base list strings gmap.
Import ListNotations.

#[local] Open Scope Z_scope.

(** ** Python strings *)
Module PyStr.

(** [ord(c)] *)
Definition ord (c : ascii) : Z := Z.of_N (N_of_ascii c).

(** [chr(n)] for [0 <= n < 256]. *)
Definition chr (n : Z) : ascii := ascii_of_N (Z.to_N n).

(** [c.isspace()]: the code points below 256 that [str.split()] and
    [str.strip()] treat as white space. *)
Definition isspace (c : ascii) : bool :=
  let n := ord c in
  ((9 <=? n) && (n <=? 13)) || ((28 <=? n) && (n <=? 32))
  || (n =? 133) || (n =? 160).

(** [c.lower()]: A-Z and the capital letters of Latin-1 (all of
    0xC0..0xDE but the multiplication sign 0xD7) move up by 32. *)
Definition lower_char (c : ascii) : ascii :=
  let n := ord c in
  if ((65 <=? n) && (n <=? 90))
     || ((192 <=? n) && (n <=? 222) && negb (n =? 215))
  then chr (n + 32) else c.

(** [s.lower()] *)
Fixpoint lower (s : string) : string :=
  match s with
  | EmptyString => EmptyString
  | String c t => String (lower_char c) (lower t)
  end.

(** [s.startswith(p)] *)
Fixpoint startswith (s p : string) {struct p} : bool :=
  match p, s with
  | EmptyString, _ => true
  | String a p', String b s' => if Ascii.eqb a b then startswith s' p' else false
  | String _ _, EmptyString => false
  end.

(** [needle in hay] on strings: substring search. *)
Fixpoint contains (needle hay : string) : bool :=
  startswith hay needle ||
  match hay with
  | EmptyString => false
  | String _ t => contains needle t
  end.

(** [s[:n]] for [n >= 0]. *)
Fixpoint take (n : nat) (s : string) : string :=
  match n, s with
  | S k, String c t => String c (take k t)
  | _, _ => EmptyString
  end.

Definition rev_string (l : list ascii) : string := string_of_list_ascii (rev l).

(** [s.split(sep)] for a non-empty [sep]: a left-to-right scan for
    non-overlapping occurrences. [skip] counts the characters of a matched
    occurrence that are still to be passed, [cur] is the piece being read,
    last character first. *)
Fixpoint split_from (sep : string) (skip : nat) (cur : list ascii) (s : string)
  : list string :=
  match s with
  | EmptyString => [rev_string cur]
  | String c t =>
      match skip with
      | S k => split_from sep k cur t
      | O =>
          if startswith s sep
          then rev_string cur :: split_from sep (String.length sep - 1) [] t
          else split_from sep 0 (c :: cur) t
      end
  end.

Definition split (s sep : string) : list string := split_from sep 0 [] s.

(** [s.split()]: the maximal runs of characters that are not white space. *)
Fixpoint split_ws_from (cur : list ascii) (s : string) : list string :=
  match s with
  | EmptyString => match cur with [] => [] | _ => [rev_string cur] end
  | String c t =>
      if isspace c
      then match cur with
           | [] => split_ws_from [] t
           | _ => rev_string cur :: split_ws_from [] t
           end
      else split_ws_from (c :: cur) t
  end.

Definition split_ws (s : string) : list string := split_ws_from [] s.

(** [s.strip()] *)
Fixpoint lstrip (s : string) : string :=
  match s with
  | String c t => if isspace c then lstrip t else s
  | EmptyString => EmptyString
  end.

Definition rstrip (s : string) : string :=
  rev_string (list_ascii_of_string (lstrip (rev_string (list_ascii_of_string s)))).

Definition strip (s : string) : string := rstrip (lstrip s).

(** [s.encode()]: UTF-8, one byte below 128 and two bytes from 128 to 255. *)
Fixpoint encode (s : string) : list Z :=
  match s with
  | EmptyString => []
  | String c t =>
      let n := ord c in
      if n <? 128 then n :: encode t
      else Z.lor 192 (Z.shiftr n 6) :: Z.lor 128 (Z.land n 63) :: encode t
  end.

(** [str(n)] for a natural number: its decimal digits. *)
Definition digit (n : nat) : ascii := chr (48 + Z.of_nat (n mod 10)).

Fixpoint digits_from (fuel n : nat) (acc : string) : string :=
  match fuel with
  | O => acc
  | S f =>
      let acc' := String (digit n) acc in
      match (n / 10)%nat with
      | O => acc'
      | q => digits_from f q acc'
      end
  end.

Definition of_nat (n : nat) : string := digits_from (S n) n EmptyString.

(** [str(z)] for an integer. *)
Definition of_Z (z : Z) : string :=
  if z <? 0 then String "-" (of_nat (Z.to_nat (- z))) else of_nat (Z.to_nat z).

(** [s[n:]] for [n >= 0]. *)
Fixpoint drop (n : nat) (s : string) : string :=
  match n, s with
  | S k, String _ t => drop k t
  | _, _ => s
  end.

End PyStr.

(** ** pathlib: pure POSIX paths *)
Module PyPath.

(** A [PurePosixPath]: its root, which is "", "/" or "//", and its
    components. *)
Record pure_path := mk_pure_path { root : string; parts : list string }.

(** [s.lstrip("/")] *)
Fixpoint lstrip_slashes (s : string) : string :=
  match s with
  | String c t => if Ascii.eqb c "/" then lstrip_slashes t else s
  | EmptyString => EmptyString
  end.

(** [Path(s)]: two leading slashes make the root "//" and any other
    number of them the root "/"; of the pieces between slashes the empty
    ones and "." are dropped, ".." is kept. *)
Definition parse_path (s : string) : pure_path :=
  let rel := lstrip_slashes s in
  let root :=
    match (String.length s - String.length rel)%nat with
    | 0%nat => ""
    | 2%nat => "//"
    | _ => "/"
    end in
  mk_pure_path root
    (List.filter (fun x => negb (String.eqb x "") && negb (String.eqb x "."))
                 (PyStr.split rel "/")).

(** [base / s]: a path with a root replaces [base]. *)
Definition joinpath (base : pure_path) (s : string) : pure_path :=
  let p := parse_path s in
  match root p with
  | EmptyString => mk_pure_path (root base) (parts base ++ parts p)
  | _ => p
  end.

(** ["/".join(l)] *)
Fixpoint join_slash (l : list string) : string :=
  match l with
  | [] => ""
  | [x] => x
  | x :: t => x +:+ "/" +:+ join_slash t
  end.

(** [str(p)] *)
Definition pure_str (p : pure_path) : string :=
  match root p, parts p with
  | EmptyString, [] => "."
  | r, l => r +:+ join_slash l
  end.

End PyPath.

(** ** [hashlib.md5] (RFC 1321) on a list of bytes *)
Module MD5.

Definition K : list Z :=
  [ 0xd76aa478; 0xe8c7b756; 0x242070db; 0xc1bdceee;
    0xf57c0faf; 0x4787c62a; 0xa8304613; 0xfd469501;
    0x698098d8; 0x8b44f7af; 0xffff5bb1; 0x895cd7be;
    0x6b901122; 0xfd987193; 0xa679438e; 0x49b40821;
    0xf61e2562; 0xc040b340; 0x265e5a51; 0xe9b6c7aa;
    0xd62f105d; 0x02441453; 0xd8a1e681; 0xe7d3fbc8;
    0x21e1cde6; 0xc33707d6; 0xf4d50d87; 0x455a14ed;
    0xa9e3e905; 0xfcefa3f8; 0x676f02d9; 0x8d2a4c8a;
    0xfffa3942; 0x8771f681; 0x6d9d6122; 0xfde5380c;
    0xa4beea44; 0x4bdecfa9; 0xf6bb4b60; 0xbebfbc70;
    0x289b7ec6; 0xeaa127fa; 0xd4ef3085; 0x04881d05;
    0xd9d4d039; 0xe6db99e5; 0x1fa27cf8; 0xc4ac5665;
    0xf4292244; 0x432aff97; 0xab9423a7; 0xfc93a039;
    0x655b59c3; 0x8f0ccc92; 0xffeff47d; 0x85845dd1;
    0x6fa87e4f; 0xfe2ce6e0; 0xa3014314; 0x4e0811a1;
    0xf7537e82; 0xbd3af235; 0x2ad7d2bb; 0xeb86d391 ].

Definition shifts : list Z :=
  [ 7; 12; 17; 22; 7; 12; 17; 22; 7; 12; 17; 22; 7; 12; 17; 22;
    5; 9; 14; 20; 5; 9; 14; 20; 5; 9; 14; 20; 5; 9; 14; 20;
    4; 11; 16; 23; 4; 11; 16; 23; 4; 11; 16; 23; 4; 11; 16; 23;
    6; 10; 15; 21; 6; 10; 15; 21; 6; 10; 15; 21; 6; 10; 15; 21 ].

Definition wrap32 (x : Z) : Z := x mod 2 ^ 32.
Definition not32 (x : Z) : Z := Z.lxor x 0xffffffff.
Definition rotl32 (x c : Z) : Z :=
  wrap32 (Z.lor (Z.shiftl x c) (Z.shiftr x (32 - c))).

(** The [n] low bytes of [x], least significant first. *)
Fixpoint le_bytes (n : nat) (x : Z) : list Z :=
  match n with
  | O => []
  | S k => x mod 256 :: le_bytes k (x / 256)
  end.

Definition pad (msg : list Z) : list Z :=
  let len := Z.of_nat (length msg) in
  msg ++ [128] ++ repeat 0 (Z.to_nat ((55 - len) mod 64))
      ++ le_bytes 8 ((8 * len) mod 2 ^ 64).

(** The 32-bit little-endian word number [g] of a 64-byte block. *)
Definition word (block : list Z) (g : nat) : Z :=
  nth (4 * g) block 0 + 2 ^ 8 * nth (4 * g + 1) block 0
  + 2 ^ 16 * nth (4 * g + 2) block 0 + 2 ^ 24 * nth (4 * g + 3) block 0.

Record state := mk_state { sa : Z; sb : Z; sc : Z; sd : Z }.

Definition init : state :=
  mk_state 0x67452301 0xefcdab89 0x98badcfe 0x10325476.

Definition step (block : list Z) (st : state) (i : nat) : state :=
  let '(mk_state a b c d) := st in
  let '(f, g) :=
    if (i <? 16)%nat then (Z.lor (Z.land b c) (Z.land (not32 b) d), i)
    else if (i <? 32)%nat then
      (Z.lor (Z.land d b) (Z.land (not32 d) c), ((5 * i + 1) mod 16)%nat)
    else if (i <? 48)%nat then
      (Z.lxor (Z.lxor b c) d, ((3 * i + 5) mod 16)%nat)
    else (Z.lxor c (Z.lor b (not32 d)), ((7 * i) mod 16)%nat) in
  let f' := wrap32 (f + a + nth i K 0 + word block g) in
  mk_state d (wrap32 (b + rotl32 f' (nth i shifts 0))) b c.

Definition compress (st : state) (block : list Z) : state :=
  let '(mk_state a b c d) := fold_left (step block) (seq 0 64) st in
  mk_state (wrap32 (sa st + a)) (wrap32 (sb st + b))
           (wrap32 (sc st + c)) (wrap32 (sd st + d)).

Fixpoint blocks (fuel : nat) (bytes : list Z) : list (list Z) :=
  match fuel, bytes with
  | S f, _ :: _ => firstn 64 bytes :: blocks f (skipn 64 bytes)
  | _, _ => []
  end.

Definition digest (msg : list Z) : list Z :=
  let padded := pad msg in
  let st := fold_left compress (blocks (length padded) padded) init in
  le_bytes 4 (sa st) ++ le_bytes 4 (sb st) ++ le_bytes 4 (sc st)
    ++ le_bytes 4 (sd st).

Definition hex_digit (n : Z) : ascii :=
  if n <? 10 then PyStr.chr (48 + n) else PyStr.chr (87 + n).

Fixpoint hex (bytes : list Z) : string :=
  match bytes with
  | [] => EmptyString
  | b :: t => String (hex_digit (b / 16 mod 16)) (String (hex_digit (b mod 16)) (hex t))
  end.

(** [hashlib.md5(msg).hexdigest()] *)
Definition hexdigest (msg : list Z) : string := hex (digest msg).

End MD5.

(** ** Python values *)
Module Py.

(** The scalar values of a JSON document (floats are left out). *)
Inductive scalar :=
| VNone
| VBool (b : bool)
| VInt (z : Z)
| VStr (s : string).

(** A JSON object with scalar fields: a dream, a request payload, the
    settings of a job file. Keys are looked up first match first. *)
Definition dict := list (string * scalar).

(** The value of a key of a playlist item: a scalar or a nested object. *)
Inductive value :=
| Sc (v : scalar)
| Obj (d : dict).

Definition item := list (string * value).

Inductive exn :=
| KeyError (key : string)
| AttributeError (msg : string)
| TypeError (msg : string)
| RemoteError (msg : string).

(** What a call gives back to Python code: a value or an exception. *)
Inductive answer (A : Type) :=
| Returns (a : A)
| Raises (e : exn).
Arguments Returns {A} a.
Arguments Raises {A} e.

#[global] Instance scalar_eq_dec : EqDecision scalar.
Proof. solve_decision. Defined.

(** [d.get(k)] is [get k d] with [None] for a missing key. *)
Fixpoint get {A : Type} (k : string) (d : list (string * A)) : option A :=
  match d with
  | [] => None
  | (k', v) :: t => if String.eqb k k' then Some v else get k t
  end.

(** [d.get(k)] and [d.get(k, default)] on a flat object. *)
Definition get_or (k : string) (default : scalar) (d : dict) : scalar :=
  match get k d with Some v => v | None => default end.

Definition get_none (k : string) (d : dict) : scalar := get_or k VNone d.

(** [d[k]] *)
Definition index {A : Type} (k : string) (d : list (string * A)) : answer A :=
  match get k d with Some v => Returns v | None => Raises (KeyError k) end.

(** [d[k] = v]: replaces the value of an existing key in place, appends a
    new key at the end. *)
Fixpoint set {A : Type} (k : string) (v : A) (d : list (string * A))
  : list (string * A) :=
  match d with
  | [] => [(k, v)]
  | (k', v') :: t => if String.eqb k k' then (k, v) :: t else (k', v') :: set k v t
  end.

(** [bool(v)] *)
Definition truthy (v : scalar) : bool :=
  match v with
  | VNone => false
  | VBool b => b
  | VInt z => negb (z =? 0)
  | VStr s => negb (String.eqb s "")
  end.

Definition truthy_value (v : option value) : bool :=
  match v with
  | None => false
  | Some (Sc s) => truthy s
  | Some (Obj d) => match d with [] => false | _ => true end
  end.

(** [str(v)], which is what an f-string field prints. *)
Definition str (v : scalar) : string :=
  match v with
  | VNone => "None"
  | VBool true => "True"
  | VBool false => "False"
  | VInt z => PyStr.of_Z z
  | VStr s => s
  end.

(** [type(v).__name__] *)
Definition type_name (v : scalar) : string :=
  match v with
  | VNone => "NoneType"
  | VBool _ => "bool"
  | VInt _ => "int"
  | VStr _ => "str"
  end.

Definition as_int (v : scalar) : option Z :=
  match v with
  | VBool b => Some (if b then 1 else 0)
  | VInt z => Some z
  | _ => None
  end.

(** [a == b] *)
Definition eq (a b : scalar) : bool :=
  match a, b with
  | VNone, VNone => true
  | VStr s, VStr t => String.eqb s t
  | _, _ => match as_int a, as_int b with
            | Some x, Some y => x =? y
            | _, _ => false
            end
  end.

(** [v == s] for a string literal [s]. *)
Definition eq_str (v : scalar) (s : string) : bool := eq v (VStr s).

(** [x in l] on a list (and on a set, held as the list of its members). *)
Definition mem (x : scalar) (l : list scalar) : bool := existsb (eq x) l.

(** [set(l)]: one member per class of equal values, first come first. The
    order in which Python iterates over a set is not specified; the
    polling loops below are stated for any list of pending ids. *)
Fixpoint to_set (l : list scalar) : list scalar :=
  match l with
  | [] => []
  | x :: t => x :: List.filter (fun y => negb (eq x y)) (to_set t)
  end.

(** [str(e)] for an exception. *)
Definition exn_str (e : exn) : string :=
  match e with
  | KeyError k => "'" +:+ k +:+ "'"
  | AttributeError m | TypeError m | RemoteError m => m
  end.

Definition no_attribute (ty attr : string) : exn :=
  AttributeError ("'" +:+ ty +:+ "' object has no attribute '" +:+ attr +:+ "'").

End Py.
Export Py.

(** ** Effects: the remote service, the clock and the console *)
Module Eff.

(** What the service answers to the calls the scripts make. *)
Record playlist := mk_playlist {
  pl_fields : dict;                 (* uuid, name, ... *)
  pl_items : option (list item)     (* the key "items", when present *)
}.

Record response := mk_response {
  items : option (list item);       (* the key "items", when present *)
  totalCount : option scalar        (* the key "totalCount", when present *)
}.

(** The argument of [create_dream_from_prompt]. [req_prompt] is the object
    that [json.dumps] serialises into the request's "prompt". *)
Record request := mk_request {
  req_name : string;
  req_description : string;
  req_prompt : dict
}.

(** An answer and the wall-clock time the call took. *)
Definition reply (A : Type) : Type := answer A * Q.

(** The capabilities the scripts use: the methods of the SDK client, and
    the HTTP download of [download_image]. [R] is the state of whatever
    stands behind them. [get_dream] may return [None]. *)
Record Client (R : Type) := mk_client {
  get_playlist : scalar -> option bool -> R -> reply playlist * R;
  create_playlist : dict -> R -> reply dict * R;
  get_playlist_items : scalar -> nat -> nat -> R -> reply response * R;
  get_dream : scalar -> R -> reply (option dict) * R;
  update_dream : scalar -> dict -> R -> reply unit * R;
  upload_file : string -> R -> reply dict * R;
  create_dream_from_prompt : request -> R -> reply dict * R;
  add_item_to_playlist : scalar -> scalar -> R -> reply unit * R;
  http_download : scalar -> string -> R -> reply unit * R
}.
Arguments get_playlist {R}.
Arguments create_playlist {R}.
Arguments get_playlist_items {R}.
Arguments get_dream {R}.
Arguments update_dream {R}.
Arguments upload_file {R}.
Arguments create_dream_from_prompt {R}.
Arguments add_item_to_playlist {R}.
Arguments http_download {R}.

Inductive call :=
| GetPlaylist (uuid : scalar) (auto_populate : option bool)
| CreatePlaylist (data : dict)
| GetPlaylistItems (uuid : scalar) (take skip : nat)
| GetDream (uuid : scalar)
| UpdateDream (uuid : scalar) (data : dict)
| UploadFile (path : string)
| CreateDream (req : request)
| AddItemToPlaylist (playlist_uuid item_uuid : scalar)
| HttpDownload (url : scalar) (path : string).

(** What a call returned, whatever its type. *)
Inductive returned :=
| GotPlaylist (p : playlist)
| GotObject (d : dict)
| GotPage (r : response)
| GotDream (d : option dict)
| GotNothing (u : unit).

Definition seen {A : Type} (wrap : A -> returned) (a : answer A) : answer returned :=
  match a with Returns x => Returns (wrap x) | Raises e => Raises e end.

(** The trace keeps every call with its answer. *)
Inductive event :=
| Called (c : call) (a : answer returned)
| Slept (seconds : Q)
| Stdout (text : string)
| Stderr (text : string).

Record world (R : Type) := mk_world {
  remote : R;
  clock : Q;               (* what [time.time()] reads *)
  trace : list event       (* oldest first *)
}.
Arguments mk_world {R}.
Arguments remote {R}.
Arguments clock {R}.
Arguments trace {R}.

(** How a piece of script ends: with a value, with an exception on its way
    up, or in [sys.exit]. *)
Inductive result (A : Type) :=
| Ok (a : A)
| Raise (e : exn)
| Exit (code : Z).
Arguments Ok {A} a.
Arguments Raise {A} e.
Arguments Exit {A} code.

Definition M (R A : Type) : Type := world R -> result A * world R.

Section Monad.
Context {R : Type}.

Definition ret {A} (a : A) : M R A := fun w => (Ok a, w).

Definition bind {A B} (m : M R A) (k : A -> M R B) : M R B :=
  fun w =>
    match m w with
    | (Ok a, w') => k a w'
    | (Raise e, w') => (Raise e, w')
    | (Exit n, w') => (Exit n, w')
    end.

Definition raise {A} (e : exn) : M R A := fun w => (Raise e, w).

Definition exit {A} (code : Z) : M R A := fun w => (Exit code, w).

(** [try: body  except Exception as e: handler(e)]; [sys.exit] passes
    through. *)
Definition try_except {A} (body : M R A) (handler : exn -> M R A) : M R A :=
  fun w =>
    match body w with
    | (Raise e, w') => handler e w'
    | other => other
    end.

Definition lift {A} (a : answer A) : M R A :=
  match a with Returns x => ret x | Raises e => raise e end.

Definition log (e : event) : M R unit :=
  fun w => (Ok tt, mk_world (remote w) (clock w) (trace w ++ [e])).

Definition print (text : string) : M R unit := log (Stdout text).
Definition eprint (text : string) : M R unit := log (Stderr text).

(** [time.time()] *)
Definition time : M R Q := fun w => (Ok (clock w), w).

(** [time.sleep(d)] *)
Definition sleep (d : Q) : M R unit :=
  fun w => (Ok tt, mk_world (remote w) (clock w + d)%Q (trace w ++ [Slept d])).

(** A call of a client method: it is recorded, the remote state moves,
    the clock advances by the time the call took. *)
Definition invoke {A} (c : call) (wrap : A -> returned) (op : R -> reply A * R)
  : M R A :=
  fun w =>
    let '((a, dt), r') := op (remote w) in
    let w' := mk_world r' (clock w + dt)%Q (trace w ++ [Called c (seen wrap a)]) in
    match a with
    | Returns x => (Ok x, w')
    | Raises e => (Raise e, w')
    end.

(** [if cond: body] *)
Definition when (cond : bool) (body : M R unit) : M R unit :=
  if cond then body else ret tt.

End Monad.

End Eff.
Export Eff.

Declare Scope py_scope.
Delimit Scope py_scope with py.
Notation "x <- m ;; k" := (bind m (fun x => k))
  (at level 100, m at next level, right associativity) : py_scope.
Notation "m ;; k" := (bind m (fun _ => k))
  (at level 100, right associativity) : py_scope.
#[local] Open Scope string_scope.
#[local] Open Scope list_scope.
#[local] Open Scope Z_scope.
#[local] Open Scope py_scope.

(** A line feed, for the ["\n"] of the messages. *)
Definition nl : string := String (PyStr.chr 10) "".

(** [fetched.get(...)] when [fetched] may be [None]. *)
Definition as_dict (d : option dict) : answer dict :=
  match d with
  | Some d => Returns d
  | None => Raises (no_attribute "NoneType" "get")
  end.

(** ** scripts/run_wan_i2v_batch.py *)
Module Wan.

(** A [pathlib.Path] as the scripts use it: [parent] is [str(p.parent)],
    the directory the path was listed from, and [name] is [p.name], its
    final component. *)
Record Path := mk_path { parent : string; name : string }.

(** [str(p)]: the name alone in the directory ".", the name straight after
    the root "/" or "//", and the name after a slash elsewhere. *)
Definition path_str (p : Path) : string :=
  if String.eqb (parent p) "." then name p
  else if String.eqb (parent p) "/" || String.eqb (parent p) "//"
       then parent p +:+ name p
       else parent p +:+ "/" +:+ name p.

Fixpoint rfind_from (c : ascii) (s : string) (i : nat) (last : option nat)
  : option nat :=
  match s with
  | EmptyString => last
  | String a t => rfind_from c t (S i) (if Ascii.eqb a c then Some i else last)
  end.

(** [p.stem]: the name without its last suffix; a leading or a trailing
    dot starts no suffix. *)
Definition stem (p : Path) : string :=
  match rfind_from "." (name p) 0 None with
  | Some i =>
      if (0 <? i)%nat && (i <? String.length (name p) - 1)%nat
      then PyStr.take i (name p) else name p
  | None => name p
  end.

Definition create_job_identifier (image_path : Path) (combo_prompt : string)
  : string :=
  let image_name := name image_path in
  let combo_hash := PyStr.take 8 (MD5.hexdigest (PyStr.encode combo_prompt)) in
  image_name +:+ ":" +:+ combo_hash.

(** The body of the loop of [get_existing_dream_identifiers]: the
    identifier one playlist item carries, if any. It raises where Python
    does, on a "dreamItem" that is no object. *)
Definition item_identifier (it : item) : answer (option string) :=
  let is_dream :=
    match get "type" it with Some (Sc v) => eq_str v "dream" | _ => false end in
  if is_dream && truthy_value (get "dreamItem" it) then
    match get "dreamItem" it with
    | Some (Obj dream) =>
        let description := get_or "description" (VStr "") dream in
        let name := get_or "name" (VStr "") dream in
        let text_to_check := str description +:+ " " +:+ str name in
        if PyStr.contains "BATCH_IDENTIFIER:" text_to_check then
          let parts := PyStr.split text_to_check "BATCH_IDENTIFIER:" in
          if (1 <? length parts)%nat then
            let identifier :=
              match PyStr.split_ws (nth 1 parts "") with
              | tok :: _ => tok
              | [] => ""
              end in
            Returns (if String.eqb identifier "" then None else Some identifier)
          else Returns None
        else Returns None
    | Some (Sc v) => Raises (no_attribute (type_name v) "get")
    | None => Returns None
    end
  else Returns None.

(** The [for item in items] loop: it stops at the first item that raises
    and hands back the identifiers gathered so far with the exception. *)
Fixpoint scan_items (its : list item) (existing_identifiers : gset string)
  : gset string * option exn :=
  match its with
  | [] => (existing_identifiers, None)
  | it :: rest =>
      match item_identifier it with
      | Returns (Some identifier) =>
          scan_items rest ({[identifier]} ∪ existing_identifiers)
      | Returns None => scan_items rest existing_identifiers
      | Raises e => (existing_identifiers, Some e)
      end
  end.

Definition max_retries : nat := 10.
Definition url_fields : list string := ["original_video"; "video"; "thumbnail"].
Definition poll_interval : Q := 10.
Definition max_wait : Q := 7200.

(** [url and isinstance(url, str) and url.startswith('http')] *)
Definition usable_url (url : scalar) : option string :=
  match url with
  | VStr u => if truthy url && PyStr.startswith u "http" then Some u else None
  | _ => None
  end.

(** [for field in [...]]: the first field that holds a usable URL. *)
Fixpoint first_url (fields : list string) (fetched_dream : dict)
  : option (string * string) :=
  match fields with
  | [] => None
  | field :: rest =>
      match usable_url (get_none field fetched_dream) with
      | Some url => Some (field, url)
      | None => first_url rest fetched_dream
      end
  end.

(** [combos.index(combo)] *)
Fixpoint index_of (combo : string) (combos : list string) : nat :=
  match combos with
  | [] => 0
  | c :: rest => if String.eqb combo c then 0%nat else S (index_of combo rest)
  end.

(** job.json: its scalar settings, its "combos" and its "playlist", when
    it has one. The combos are strings, as [create_job_identifier] asks of
    them: a combo that is no string makes line 63 raise an AttributeError,
    which is left out here. *)
Record job_config := mk_job_config {
  settings : dict;
  combos_of : list string;
  playlist_of : option value
}.

Definition algo_param_names : list string :=
  ["size"; "duration"; "num_inference_steps"; "guidance"; "seed";
   "negative_prompt"; "flow_shift"; "enable_prompt_optimization";
   "enable_safety_checker"].

(** The variables of [main] that the submission loop updates. *)
Record tally := mk_tally {
  uploaded_image_map : gmap string scalar;
  active_dreams : list scalar;
  job_count : nat;
  skipped_count : nat;
  failed_count : nat
}.

Definition tally0 : tally := mk_tally ∅ [] 0 0 0.

Section WithClient.
Context {R : Type} (client : Client R).

Definition get_existing_dream_identifiers (playlist_uuid : scalar)
  : M R (gset string) :=
  try_except
    (playlist <- invoke (GetPlaylist playlist_uuid (Some true))
                        GotPlaylist (get_playlist client playlist_uuid (Some true)) ;;
     let its := match pl_items playlist with Some l => l | None => [] end in
     match scan_items its ∅ with
     | (existing_identifiers, None) => ret existing_identifiers
     | (existing_identifiers, Some e) =>
         eprint ("Warning: Error getting existing dreams from playlist: "
                   +:+ exn_str e) ;;
         ret existing_identifiers
     end)
    (fun e =>
       eprint ("Warning: Error getting existing dreams from playlist: "
                 +:+ exn_str e) ;;
       ret ∅).

(** One turn of [for attempt in range(max_retries)]; [Some url] is the
    [break] with [image_url] set. *)
Definition resolve_attempt (dream_uuid : scalar) (attempt : nat)
  : M R (option string) :=
  try_except
    (fetched <- invoke (GetDream dream_uuid) GotDream (get_dream client dream_uuid) ;;
     fetched_dream <- lift (as_dict fetched) ;;
     match first_url url_fields fetched_dream with
     | Some (field, url) =>
         print ("  Got presigned URL from '" +:+ field +:+ "'") ;;
         ret (Some url)
     | None =>
         when (attempt <? max_retries - 1)%nat (sleep (1 # 2)) ;;
         ret None
     end)
    (fun e =>
       print ("  Retry " +:+ PyStr.of_nat (attempt + 1) +:+ "/"
                +:+ PyStr.of_nat max_retries +:+ ": " +:+ exn_str e) ;;
       when (attempt <? max_retries - 1)%nat (sleep (1 # 2)) ;;
       ret None).

Fixpoint resolve_url (dream_uuid : scalar) (attempts : list nat)
  : M R (option string) :=
  match attempts with
  | [] => ret None
  | attempt :: rest =>
      image_url <- resolve_attempt dream_uuid attempt ;;
      match image_url with
      | Some url => ret (Some url)
      | None => resolve_url dream_uuid rest
      end
  end.

(** The body of the [try] of lines 191-232: upload, then look for a
    presigned URL, and fall back to the uuid. *)
Definition upload_image (image_path : Path) : M R scalar :=
  uploaded_dream <- invoke (UploadFile (path_str image_path))
                           GotObject (upload_file client (path_str image_path)) ;;
  dream_uuid <- lift (index "uuid" uploaded_dream) ;;
  print ("  Uploaded as dream: " +:+ str dream_uuid) ;;
  image_url <- resolve_url dream_uuid (seq 0 max_retries) ;;
  match image_url with
  | Some url => ret (VStr url)
  | None =>
      print ("  Warning: No presigned URL after " +:+ PyStr.of_nat max_retries
               +:+ " attempts. Using UUID (may fail).") ;;
      ret dream_uuid
  end.

Section Batch.
Variable job_config : job_config.
Variable combos : list string.
Variable existing_identifiers : gset string.
Variable playlist_uuid : scalar.
Variable total_jobs : nat.

Definition algo_params (combined_prompt : string) (source_dream_uuid : scalar)
  : dict :=
  fold_left
    (fun acc param =>
       match get param (settings job_config) with
       | Some v => set param v acc
       | None => acc
       end)
    algo_param_names
    [("infinidream_algorithm", VStr "wan-i2v");
     ("prompt", VStr combined_prompt);
     ("image", source_dream_uuid)].

(** The body of [for combo in combos] (lines 238-286). *)
Definition submit_combo (image_path : Path) (source_dream_uuid : scalar)
  (st : tally) (combo : string) : M R tally :=
  let job_count := S (job_count st) in
  let st := mk_tally (uploaded_image_map st) (active_dreams st) job_count
                     (skipped_count st) (failed_count st) in
  let combo_idx := (index_of combo combos + 1)%nat in
  let identifier := create_job_identifier image_path combo in
  let progress :=
    "[" +:+ PyStr.of_nat job_count +:+ "/" +:+ PyStr.of_nat total_jobs +:+ "]" in
  if bool_decide (identifier ∈ existing_identifiers) then
    print (progress +:+ " Skipping existing: " +:+ identifier) ;;
    ret (mk_tally (uploaded_image_map st) (active_dreams st) job_count
                  (S (skipped_count st)) (failed_count st))
  else
    let main_prompt := get_or "prompt" (VStr "") (settings job_config) in
    let combined_prompt := PyStr.strip (str main_prompt +:+ " " +:+ combo) in
    print (progress +:+ " creating dream for " +:+ name image_path
             +:+ " + combo " +:+ PyStr.of_nat combo_idx) ;;
    try_except
      (let dream_name := stem image_path +:+ "_combo-" +:+ PyStr.of_nat combo_idx in
       let desc_identifier := "BATCH_IDENTIFIER:" +:+ identifier in
       let req := mk_request dream_name
                    ("Batch generation. " +:+ desc_identifier)
                    (algo_params combined_prompt source_dream_uuid) in
       new_dream <- invoke (CreateDream req) GotObject (create_dream_from_prompt client req) ;;
       uuid <- lift (index "uuid" new_dream) ;;
       print ("  -> Job started: " +:+ str uuid) ;;
       invoke (AddItemToPlaylist playlist_uuid uuid)
              GotNothing (add_item_to_playlist client playlist_uuid uuid) ;;
       ret (mk_tally (uploaded_image_map st) (active_dreams st ++ [uuid])
                     job_count (skipped_count st) (failed_count st)))
      (fun e =>
         print ("  -> Failed to start job: " +:+ exn_str e) ;;
         ret (mk_tally (uploaded_image_map st) (active_dreams st) job_count
                       (skipped_count st) (S (failed_count st)))).

Fixpoint submit_combos (image_path : Path) (source_dream_uuid : scalar)
  (st : tally) (todo : list string) : M R tally :=
  match todo with
  | [] => ret st
  | combo :: rest =>
      st' <- submit_combo image_path source_dream_uuid st combo ;;
      submit_combos image_path source_dream_uuid st' rest
  end.

(** The body of [for image_idx, image_path in enumerate(images, 1)]
    (lines 175-286). *)
Definition process_image (st : tally) (image_path : Path) : M R tally :=
  let source_dream_uuid :=
    match uploaded_image_map st !! path_str image_path with
    | Some v => v
    | None => VNone
    end in
  let needs_upload :=
    existsb (fun combo =>
               negb (bool_decide (create_job_identifier image_path combo
                                    ∈ existing_identifiers)))
            combos in
  if negb needs_upload then
    print ("Skipping image " +:+ name image_path +:+ " (all combos exist)") ;;
    ret (mk_tally (uploaded_image_map st) (active_dreams st) (job_count st)
                  (skipped_count st + length combos) (failed_count st))
  else if negb (truthy source_dream_uuid) then
    print (nl +:+ "Uploading " +:+ name image_path +:+ "...") ;;
    uploaded <-
      try_except
        (source <- upload_image image_path ;; ret (Some source))
        (fun e =>
           print ("  Failed to upload image: " +:+ exn_str e) ;;
           ret None) ;;
    match uploaded with
    | None =>
        ret (mk_tally (uploaded_image_map st) (active_dreams st) (job_count st)
                      (skipped_count st) (failed_count st + length combos))
    | Some source =>
        submit_combos image_path source
          (mk_tally (<[path_str image_path := source]> (uploaded_image_map st))
                    (active_dreams st) (job_count st) (skipped_count st)
                    (failed_count st))
          combos
    end
  else submit_combos image_path source_dream_uuid st combos.

Fixpoint process_images (st : tally) (images : list Path) : M R tally :=
  match images with
  | [] => ret st
  | image_path :: rest =>
      st' <- process_image st image_path ;;
      process_images st' rest
  end.

End Batch.

(** The body of the [try] of the polling loop (lines 309-321) for one
    id: does it go into [completed]? *)
Definition check_status (dream_uuid : scalar) : M R bool :=
  try_except
    (fetched <- invoke (GetDream dream_uuid) GotDream (get_dream client dream_uuid) ;;
     dream <- lift (as_dict fetched) ;;
     let status := get_none "status" dream in
     if eq_str status "processed" then
       print ("Job finished: " +:+ str dream_uuid) ;;
       ret true
     else if eq_str status "failed" then
       print ("Job failed: " +:+ str dream_uuid +:+ " (Error: "
                +:+ str (get_none "error" dream) +:+ ")") ;;
       ret true
     else ret false)
    (fun e =>
       print ("Error checking status for " +:+ str dream_uuid +:+ ": "
                +:+ exn_str e) ;;
       ret false).

(** [for dream_uuid in pending]: the set [completed] of one round. *)
Fixpoint poll_round (pending : list scalar) : M R (list scalar) :=
  match pending with
  | [] => ret []
  | dream_uuid :: rest =>
      done <- check_status dream_uuid ;;
      completed <- poll_round rest ;;
      ret (if done then dream_uuid :: completed else completed)
  end.

(** [pending -= completed] *)
Definition remove_completed (pending completed : list scalar) : list scalar :=
  List.filter (fun u => negb (mem u completed)) pending.

(** [while pending and (time.time() - start_time) < max_wait]. The loop
    is cut after [fuel] rounds, with [None] for "still looping". *)
Fixpoint poll_loop (fuel : nat) (start_time : Q) (pending : list scalar)
  : M R (option (list scalar)) :=
  match fuel with
  | O => ret None
  | S fuel' =>
      match pending with
      | [] => ret (Some pending)
      | _ :: _ =>
          now <- time ;;
          if negb (Qle_bool max_wait (now - start_time)) then
            completed <- poll_round pending ;;
            let pending := remove_completed pending completed in
            when (match pending with [] => false | _ => true end)
                 (sleep poll_interval) ;;
            poll_loop fuel' start_time pending
          else ret (Some pending)
      end
  end.

(** Lines 298-333: the polling part of [main]. *)
Definition poll (fuel : nat) (active_dreams : list scalar) (playlist_uuid : scalar)
  : M R (option (list scalar)) :=
  print (nl +:+ "Polling " +:+ PyStr.of_nat (length active_dreams)
           +:+ " active jobs...") ;;
  let pending := to_set active_dreams in
  start_time <- time ;;
  left <- poll_loop fuel start_time pending ;;
  match left with
  | None => ret None
  | Some pending =>
      match pending with
      | _ :: _ => print (nl +:+ "Timeout waiting for "
                           +:+ PyStr.of_nat (length pending) +:+ " jobs.")
      | [] => print (nl +:+ "All jobs accounted for.")
      end ;;
      print (nl +:+ "Batch process finished. Playlist: " +:+ str playlist_uuid) ;;
      ret (Some pending)
  end.

Definition rule : string :=
  "============================================================".

(** [main] from line 126 on, for a job file that was read and a
    directory that was listed. It hands back what its variables hold
    when it returns: the tally of the submission loop and the ids still
    pending ([None] when the polling loop was cut by [fuel]). *)
Definition main (fuel : nat) (job_config : job_config) (images : list Path)
  : M R (option (tally * list scalar)) :=
  combos <- match combos_of job_config with
            | [] => print (nl +:+ "No 'combos' found in job.json, using empty combo") ;;
                    ret [""]
            | l => ret l
            end ;;
  let total_jobs := (length images * length combos)%nat in
  let playlist_uuid := get_none "playlist_uuid" (settings job_config) in
  checked <-
    (if truthy playlist_uuid then
       print (nl +:+ "Checking existing playlist: " +:+ str playlist_uuid) ;;
       try_except
         (playlist <- invoke (GetPlaylist playlist_uuid None)
                             GotPlaylist (get_playlist client playlist_uuid None) ;;
          print ("Found playlist: "
                   +:+ str (get_or "name" (VStr "Unnamed") (pl_fields playlist))) ;;
          existing_identifiers <- get_existing_dream_identifiers playlist_uuid ;;
          print ("Found " +:+ PyStr.of_nat (size existing_identifiers)
                   +:+ " existing dream(s) in playlist") ;;
          ret (playlist_uuid, existing_identifiers))
         (fun e =>
            print ("Error accessing playlist: " +:+ exn_str e) ;;
            ret (VNone, ∅))
     else ret (playlist_uuid, ∅)) ;;
  let existing_identifiers : gset string := snd checked in
  playlist_uuid <-
    (if negb (truthy (fst checked)) then
       match playlist_of job_config with
       | Some (Obj ((_ :: _) as playlist_config)) =>
           print (nl +:+ "Creating new playlist: "
                    +:+ str (get_none "name" playlist_config)) ;;
           let playlist_data :=
             [("name", get_or "name" (VStr "Batch Output") playlist_config);
              ("description", get_or "description" (VStr "") playlist_config);
              ("nsfw", get_or "nsfw" (VBool false) playlist_config)] in
           playlist <- invoke (CreatePlaylist playlist_data)
                              GotObject (create_playlist client playlist_data) ;;
           uuid <- lift (index "uuid" playlist) ;;
           print ("Created playlist: " +:+ str uuid) ;;
           ret uuid
       | Some (Sc v) =>
           if truthy v then raise (no_attribute (type_name v) "get")
           else
             print "Error: No playlist_uuid and no playlist config in job.json" ;;
             exit 1
       | Some (Obj []) | None =>
           print "Error: No playlist_uuid and no playlist config in job.json" ;;
           exit 1
       end
     else ret (fst checked)) ;;
  print (nl +:+ "Starting batch processing (" +:+ PyStr.of_nat total_jobs
           +:+ " total tasks)...") ;;
  st <- process_images job_config combos existing_identifiers playlist_uuid
                       total_jobs tally0 images ;;
  print (nl +:+ rule) ;;
  print "Submission Complete" ;;
  print ("Active jobs: " +:+ PyStr.of_nat (length (active_dreams st))) ;;
  print ("Skipped: " +:+ PyStr.of_nat (skipped_count st)) ;;
  print ("Failed to start: " +:+ PyStr.of_nat (failed_count st)) ;;
  print rule ;;
  match active_dreams st with
  | [] => ret (Some (st, []))
  | _ :: _ =>
      left <- poll fuel (active_dreams st) playlist_uuid ;;
      ret (match left with Some pending => Some (st, pending) | None => None end)
  end.

End WithClient.

(** *** Finding the images (lines 36-58) *)

(** What lies at a path: a regular file, or a directory with its entries
    in the order [iterdir] yields them, each a name and what [is_file]
    says of it. *)
Inductive node :=
| RegularFile
| Directory (entries : list (string * bool)).

(** The paths that exist, as [str] spells them. *)
Definition files := list (string * node).

(** How [get_images_from_path] ends: with the images, or with an
    exception, of which the class and the message are kept. *)
Inductive listing :=
| Images (images : list Path)
| Failure (exception msg : string).

(** Lines 38-41: the directory to look into. [base_dir] is the directory
    of the script as [str] spells it. *)
Definition image_dir (image_path base_dir : string) : PyPath.pure_path :=
  if PyStr.startswith image_path "/" then PyPath.parse_path image_path
  else PyPath.joinpath (PyPath.parse_path base_dir) image_path.

(** [p.suffix]: the last dot of the name and what follows it; a leading
    or a trailing dot starts no suffix. *)
Definition suffix (p : Path) : string :=
  match rfind_from "." (name p) 0 None with
  | Some i =>
      if (0 <? i)%nat && (i <? String.length (name p) - 1)%nat
      then PyStr.drop i (name p) else ""
  | None => ""
  end.

Definition image_extensions : list string := [".png"; ".jpg"; ".jpeg"; ".webp"].

(** [img.is_file() and img.suffix.lower() in image_extensions] *)
Definition is_image (img : Path) (is_file : bool) : bool :=
  is_file && existsb (String.eqb (PyStr.lower (suffix img))) image_extensions.

(** [p < q] for two paths of one directory: their names decide, compared
    code point by code point. *)
Definition path_lt (p q : Path) : bool := String.ltb (name p) (name q).

(** [sorted(images)]: a stable sort that compares with [<]. *)
Fixpoint insert_sorted (p : Path) (l : list Path) : list Path :=
  match l with
  | [] => [p]
  | q :: t => if path_lt q p then q :: insert_sorted p t else p :: l
  end.

Definition sorted (l : list Path) : list Path := fold_right insert_sorted [] l.

(** A value of [image_path] that is no string makes [os.path.isabs]
    raise. *)
Definition get_images_from_path (disk : files) (image_path : scalar)
  (base_dir : string) : listing :=
  match image_path with
  | VStr image_path =>
      let image_dir := PyPath.pure_str (image_dir image_path base_dir) in
      match get image_dir disk with
      | None =>
          Failure "FileNotFoundError" ("Image directory not found: " +:+ image_dir)
      | Some RegularFile =>
          Failure "ValueError" ("image_path must be a directory: " +:+ image_dir)
      | Some (Directory entries) =>
          let images :=
            flat_map (fun e => let img := mk_path image_dir (fst e) in
                               if is_image img (snd e) then [img] else [])
                     entries in
          match images with
          | [] => Failure "ValueError" ("No image files found in " +:+ image_dir)
          | _ :: _ => Images (sorted images)
          end
      end
  | v =>
      Failure "TypeError"
        ("expected str, bytes or os.PathLike object, not " +:+ type_name v)
  end.

(** *** The start of [main] (lines 93-124) *)

(** What [main] finds when it starts: the directory of the script, the
    two environment variables, what [load_job_config] returns or the
    message of the exception it raises, and the file system. *)
Record launch := mk_launch {
  script_dir : string;
  backend_url : string;
  api_key : option string;
  loaded : job_config + string;
  disk : files
}.

Section Script.
Context {R : Type} (client : Client R).

(** [main] as a whole. [create_edream_client] builds the client and is
    taken to make no call. *)
Definition script (fuel : nat) (l : launch) : M R (option (tally * list scalar)) :=
  print ("Script directory: " +:+ script_dir l) ;;
  match api_key l with
  | None | Some EmptyString =>
      eprint "Error: API_KEY not found in environment variables or .env file" ;;
      exit 1
  | Some _ =>
      print ("Connected to " +:+ backend_url l) ;;
      print (nl +:+ "Loading job.json...") ;;
      match loaded l with
      | inr msg => eprint ("Error loading job.json: " +:+ msg) ;; exit 1
      | inl job_config =>
          print "Loaded job.json" ;;
          let image_path_str := get_none "image_path" (settings job_config) in
          if negb (truthy image_path_str) then
            eprint "'image_path' not found in job.json" ;; exit 1
          else
            print (nl +:+ "Scanning images from: " +:+ str image_path_str) ;;
            match get_images_from_path (disk l) image_path_str (script_dir l) with
            | Images images =>
                print ("Found " +:+ PyStr.of_nat (length images) +:+ " image(s)") ;;
                main client fuel job_config images
            | Failure _ msg =>
                eprint ("Error getting images: " +:+ msg) ;; exit 1
            end
      end
  end.

End Script.

End Wan.

(** ** scripts/run_uprez_batch.py *)
Module Uprez.

(** An element of [all_dreams]: [{"dream": ..., "playlist_item_id": ...}]. *)
Record entry := mk_entry { dream : value; playlist_item_id : option value }.

(** The [for item in items] loop of [get_all_playlist_dreams]: what one
    page adds to [all_dreams]. *)
Definition page_dreams (its : list item) : list entry :=
  flat_map
    (fun it =>
       let is_dream :=
         match get "type" it with Some (Sc v) => eq_str v "dream" | _ => false end in
       if is_dream && truthy_value (get "dreamItem" it) then
         match get "dreamItem" it with
         | Some d => [mk_entry d (get "id" it)]
         | None => []
         end
       else [])
    its.

(** [n >= total_count] for [n = len(all_dreams)]. *)
Definition reached (n : nat) (total_count : scalar) : answer bool :=
  match as_int total_count with
  | Some z => Returns (z <=? Z.of_nat n)
  | None =>
      Raises (TypeError ("'>=' not supported between instances of 'int' and '"
                           +:+ type_name total_count +:+ "'"))
  end.

(** [v.lower()] *)
Definition lower_of (v : scalar) : answer string :=
  match v with
  | VStr s => Returns (PyStr.lower s)
  | _ => Raises (no_attribute (type_name v) "lower")
  end.

(** [v or ""] *)
Definition or_empty (v : scalar) : scalar := if truthy v then v else VStr "".

(** [f"{current_description} {marker}"], or the marker alone. *)
Definition new_description (current_description marker : string) : string :=
  if truthy (VStr current_description)
  then current_description +:+ " " +:+ marker
  else marker.

(** uprez-config.json, as lines 121-129 read it: "playlist_uuid", the
    values of "uprez_config" and "output_playlist" (an empty object when
    the key is missing), and the marker and the output playlist of
    "tracking". *)
Record config := mk_config {
  playlist_uuid : scalar;
  uprez_config : value;
  marker : string;
  existing_playlist_uuid : scalar;
  output_playlist_of : value
}.

Section WithClient.
Context {R : Type} (client : Client R).

(** The [while True] loop of [get_all_playlist_dreams], cut after [fuel]
    pages ([None] then). [take] is the page size. *)
Fixpoint fetch_pages (fuel : nat) (playlist_uuid : scalar) (take skip : nat)
  (all_dreams : list entry) : M R (option (list entry)) :=
  match fuel with
  | O => ret None
  | S fuel' =>
      turn <-
        try_except
          (response <- invoke (GetPlaylistItems playlist_uuid take skip)
                              GotPage (get_playlist_items client playlist_uuid take skip) ;;
           let its := match items response with Some l => l | None => [] end in
           match its with
           | [] => ret (all_dreams, false)
           | _ :: _ =>
               let all_dreams := all_dreams ++ page_dreams its in
               let total_count :=
                 match totalCount response with Some v => v | None => VInt 0 end in
               match reached (length all_dreams) total_count with
               | Returns enough =>
                   ret (all_dreams,
                        negb (enough || (length its <? take)%nat))
               | Raises e =>
                   eprint ("Error fetching playlist items: " +:+ exn_str e) ;;
                   ret (all_dreams, false)
               end
           end)
          (fun e =>
             eprint ("Error fetching playlist items: " +:+ exn_str e) ;;
             ret (all_dreams, false)) ;;
      if snd turn
      then fetch_pages fuel' playlist_uuid take (skip + take) (fst turn)
      else ret (Some (fst turn))
  end.

Definition get_all_playlist_dreams (fuel : nat) (playlist_uuid : scalar)
  : M R (option (list entry)) :=
  fetch_pages fuel playlist_uuid 100 0 [].

Definition is_dream_already_uprezed (original_dream_uuid : scalar)
  (marker : string) : M R bool :=
  try_except
    (fetched <- invoke (GetDream original_dream_uuid)
                       GotDream (get_dream client original_dream_uuid) ;;
     match fetched with
     | None | Some [] => ret false
     | Some dream =>
         let description := or_empty (get_or "description" (VStr "") dream) in
         lowered <- lift (lower_of description) ;;
         ret (PyStr.contains (PyStr.lower marker) lowered)
     end)
    (fun _ => ret false).

Definition update_dream_description (dream_uuid : scalar) (marker : string)
  : M R bool :=
  try_except
    (fetched <- invoke (GetDream dream_uuid) GotDream (get_dream client dream_uuid) ;;
     match fetched with
     | None | Some [] => ret false
     | Some dream =>
         let current_description := or_empty (get_none "description" dream) in
         lowered <- lift (lower_of current_description) ;;
         if PyStr.contains (PyStr.lower marker) lowered then ret true
         else
           let update_data :=
             [("description",
               VStr (new_description (str current_description) marker))] in
           invoke (UpdateDream dream_uuid update_data)
                  GotNothing (update_dream client dream_uuid update_data) ;;
           ret true
     end)
    (fun e =>
       eprint ("Error updating dream description: " +:+ exn_str e) ;;
       ret false).

(** [dream.get("uuid")] and the like on an element of [all_dreams]. *)
Definition entry_get (key : string) (d : value) : answer scalar :=
  match d with
  | Obj fields => Returns (get_none key fields)
  | Sc v => Raises (no_attribute (type_name v) "get")
  end.

(** Lines 166-171: the entries that do not carry the marker yet. *)
Fixpoint scan (marker : string) (all_dreams : list entry)
  : M R (list entry) :=
  match all_dreams with
  | [] => ret []
  | dream_data :: rest =>
      uuid <- lift (entry_get "uuid" (dream dream_data)) ;;
      already <- is_dream_already_uprezed uuid marker ;;
      dreams_to_process <- scan marker rest ;;
      ret (if already then dreams_to_process else dream_data :: dreams_to_process)
  end.

(** Lines 187-196. An "uprez_config" that is no object has no [get]. *)
Definition algo_params (uprez_config : value) (dream_uuid : scalar) : answer dict :=
  match uprez_config with
  | Obj uprez_config =>
      Returns
        [("infinidream_algorithm", VStr "uprez");
         ("video_uuid", dream_uuid);
         ("upscale_factor", get_or "upscale_factor" (VInt 2) uprez_config);
         ("interpolation_factor", get_or "interpolation_factor" (VInt 2) uprez_config);
         ("output_format", get_or "output_format" (VStr "mp4") uprez_config);
         ("tile_size", get_or "tile_size" (VInt 1024) uprez_config);
         ("tile_padding", get_or "tile_padding" (VInt 10) uprez_config);
         ("quality", get_or "quality" (VStr "high") uprez_config)]
  | Sc v => Raises (no_attribute (type_name v) "get")
  end.

(** The body of [for idx, dream_data in enumerate(dreams_to_process, 1)]
    (lines 181-221). *)
Definition submit_one (cfg : config) (output_playlist_uuid : scalar)
  (total idx : nat) (active_jobs : list scalar) (dream_data : entry)
  : M R (list scalar) :=
  dream_uuid <- lift (entry_get "uuid" (dream dream_data)) ;;
  name <- lift (entry_get "name" (dream dream_data)) ;;
  let dream_name := if truthy name then name else VStr "Untitled" in
  print ("[" +:+ PyStr.of_nat idx +:+ "/" +:+ PyStr.of_nat total +:+ "] Processing: "
           +:+ str dream_name +:+ " (" +:+ str dream_uuid +:+ ")") ;;
  algo_params <- lift (algo_params (uprez_config cfg) dream_uuid) ;;
  try_except
    (let req := mk_request (str dream_name +:+ " (Uprez)")
                  ("Uprez of " +:+ str dream_uuid)
                  algo_params in
     new_dream <- invoke (CreateDream req) GotObject (create_dream_from_prompt client req) ;;
     uuid <- lift (index "uuid" new_dream) ;;
     print ("  -> Uprez job started: " +:+ str uuid) ;;
     try_except
       (invoke (AddItemToPlaylist output_playlist_uuid uuid)
               GotNothing (add_item_to_playlist client output_playlist_uuid uuid))
       (fun e => print ("  -> Failed to add to playlist: " +:+ exn_str e)) ;;
     update_dream_description dream_uuid (marker cfg) ;;
     ret (active_jobs ++ [uuid]))
    (fun e =>
       print ("  -> Failed to start uprez: " +:+ exn_str e) ;;
       ret active_jobs).

Fixpoint submit_from (cfg : config) (output_playlist_uuid : scalar)
  (total idx : nat) (active_jobs : list scalar) (todo : list entry)
  : M R (list scalar) :=
  match todo with
  | [] => ret active_jobs
  | dream_data :: rest =>
      active_jobs' <- submit_one cfg output_playlist_uuid total idx
                                 active_jobs dream_data ;;
      submit_from cfg output_playlist_uuid total (S idx) active_jobs' rest
  end.

(** [main] from line 131 to line 221, for a configuration that was read:
    the output playlist, the listing, the scan for the marker and the
    submission loop. It hands back [active_jobs], the ids that the
    polling loop of lines 223-251 then waits for ([None] when the
    listing was cut by [fuel]). *)
Definition main (fuel : nat) (cfg : config) : M R (option (list scalar)) :=
  found <-
    (if truthy (existing_playlist_uuid cfg) then
       try_except
         (output_playlist <- invoke (GetPlaylist (existing_playlist_uuid cfg) None)
                               GotPlaylist (get_playlist client (existing_playlist_uuid cfg) None) ;;
          print ("Using output playlist: "
                   +:+ str (get_none "name" (pl_fields output_playlist))) ;;
          ret (Some output_playlist))
         (fun _ => print "Could not access existing output playlist" ;; ret None)
     else ret None) ;;
  output_playlist <-
    match found with
    | Some (mk_playlist ((_ :: _) as fields) _) => ret fields
    | Some (mk_playlist [] (Some _)) => ret []
    | _ =>
        output_playlist_config <-
          match output_playlist_of cfg with
          | Obj ((_ :: _) as l) => ret l
          | Obj [] => ret [("name", VStr "Uprez Output")]
          | Sc v =>
              if truthy v then raise (no_attribute (type_name v) "get")
              else ret [("name", VStr "Uprez Output")]
          end ;;
        print ("Creating new output playlist: "
                 +:+ str (get_none "name" output_playlist_config)) ;;
        let playlist_data :=
          [("name", get_or "name" (VStr "Uprezed Playlist") output_playlist_config);
           ("description", get_none "description" output_playlist_config);
           ("nsfw", get_or "nsfw" (VBool false) output_playlist_config)] in
        created <- invoke (CreatePlaylist playlist_data)
                          GotObject (create_playlist client playlist_data) ;;
        uuid <- lift (index "uuid" created) ;;
        print ("Created playlist: " +:+ str uuid) ;;
        ret created
    end ;;
  output_playlist_uuid <- lift (index "uuid" output_playlist) ;;
  print (nl +:+ "Fetching dreams from source playlist "
           +:+ str (playlist_uuid cfg) +:+ "...") ;;
  listed <-
    try_except
      (all_dreams <- get_all_playlist_dreams fuel (playlist_uuid cfg) ;;
       match all_dreams with
       | Some l => print ("Found " +:+ PyStr.of_nat (length l) +:+ " dream(s)")
       | None => ret tt
       end ;;
       ret all_dreams)
      (fun e => eprint ("Error fetching dreams: " +:+ exn_str e) ;; exit 1) ;;
  match listed with
  | None => ret None
  | Some all_dreams =>
      print (nl +:+ "Scanning for already processed dreams (marker: '"
               +:+ marker cfg +:+ "')...") ;;
      dreams_to_process <- scan (marker cfg) all_dreams ;;
      print ("Dreams to process: " +:+ PyStr.of_nat (length dreams_to_process)) ;;
      match dreams_to_process with
      | [] => print "Nothing to do." ;; ret (Some [])
      | _ :: _ =>
          active_jobs <- submit_from cfg output_playlist_uuid
                           (length dreams_to_process) 1 [] dreams_to_process ;;
          ret (Some active_jobs)
      end
  end.

End WithClient.

(** *** The polling part of [main] (lines 223-251) *)

Definition poll_interval : Q := 10.
Definition max_wait : Q := 7200.

Section Polling.
Context {R : Type} (client : Client R).

(** The body of [for uuid in pending] (lines 232-242): does the id go
    into [completed]? An exception is passed over in silence. *)
Definition check_status (uuid : scalar) : M R bool :=
  try_except
    (fetched <- invoke (GetDream uuid) GotDream (get_dream client uuid) ;;
     d <- lift (as_dict fetched) ;;
     let status := get_none "status" d in
     if eq_str status "processed" then
       print ("Job finished: " +:+ str uuid) ;;
       ret true
     else if eq_str status "failed" then
       print ("Job failed: " +:+ str uuid) ;;
       ret true
     else ret false)
    (fun _ => ret false).

Fixpoint poll_round (pending : list scalar) : M R (list scalar) :=
  match pending with
  | [] => ret []
  | uuid :: rest =>
      done <- check_status uuid ;;
      completed <- poll_round rest ;;
      ret (if done then uuid :: completed else completed)
  end.

(** [while pending and (time.time() - start_time) < max_wait], cut
    after [fuel] rounds. *)
Fixpoint poll_loop (fuel : nat) (start_time : Q) (pending : list scalar)
  : M R (option (list scalar)) :=
  match fuel with
  | O => ret None
  | S fuel' =>
      match pending with
      | [] => ret (Some pending)
      | _ :: _ =>
          now <- time ;;
          if negb (Qle_bool max_wait (now - start_time)) then
            completed <- poll_round pending ;;
            let pending := Wan.remove_completed pending completed in
            when (match pending with [] => false | _ => true end)
                 (sleep poll_interval) ;;
            poll_loop fuel' start_time pending
          else ret (Some pending)
      end
  end.

Definition poll (fuel : nat) (active_jobs : list scalar)
  : M R (option (list scalar)) :=
  print (nl +:+ "Polling " +:+ PyStr.of_nat (length active_jobs)
           +:+ " active jobs...") ;;
  let pending := to_set active_jobs in
  start_time <- time ;;
  left <- poll_loop fuel start_time pending ;;
  match left with
  | None => ret None
  | Some pending =>
      match pending with
      | _ :: _ => print "Timeout waiting for jobs."
      | [] => print "All jobs finished."
      end ;;
      ret (Some pending)
  end.

End Polling.

End Uprez.

(** ** scripts/run_qwen_image_batch.py *)
Module Qwen.

Definition poll_interval : Q := 10.
Definition max_wait : Q := 3600.

(** [f"{idx:04d}"] *)
Definition pad4 (idx : nat) : string :=
  let digits := PyStr.of_nat idx in
  string_of_list_ascii (repeat "0"%char (4 - String.length digits)) +:+ digits.

(** What the polling loop reads from the configuration. *)
Record config := mk_config {
  output_filename : scalar;        (* config.get("output_filename", "qwen-image") *)
  num_generations : nat;
  output_dir : string              (* str(output_dir), lines 80-85 *)
}.

Section WithClient.
Context {R : Type} (client : Client R).

Definition download_image (url : scalar) (output_path : string) : M R bool :=
  try_except
    (invoke (HttpDownload url output_path) GotNothing (http_download client url output_path) ;;
     ret true)
    (fun e =>
       eprint ("Error downloading image from " +:+ str url +:+ ": " +:+ exn_str e) ;;
       ret false).

(** The body of [for uuid, idx in pending] (lines 138-175): is the job
    appended to [remaining], and the new [downloaded_count]. *)
Definition check_job (cfg : config) (job : scalar * nat) (downloaded_count : nat)
  : M R (bool * nat) :=
  let '(uuid, idx) := job in
  try_except
    (fetched <- invoke (GetDream uuid) GotDream (get_dream client uuid) ;;
     dream <- lift (as_dict fetched) ;;
     let status := get_none "status" dream in
     if eq_str status "processed" then
       print ("Job finished: " +:+ str uuid +:+ " (Gen " +:+ PyStr.of_nat idx +:+ ")") ;;
       let thumbnail := get_none "thumbnail" dream in
       let image_url := if truthy thumbnail then thumbnail else get_none "video" dream in
       if truthy image_url then
         let base_filename := str (output_filename cfg) in
         let filename :=
           if (1 <? num_generations cfg)%nat
           then base_filename +:+ "_" +:+ pad4 idx +:+ ".png"
           else base_filename +:+ ".png" in
         let output_path :=
           PyPath.pure_str (PyPath.joinpath (PyPath.parse_path (output_dir cfg)) filename) in
         print ("  Downloading to " +:+ output_path +:+ "...") ;;
         ok <- download_image image_url output_path ;;
         if ok then print "  Success!" ;; ret (false, S downloaded_count)
         else print "  Download failed." ;; ret (false, downloaded_count)
       else
         print "  Warning: No image URL found in dream object." ;;
         ret (false, downloaded_count)
     else if eq_str status "failed" then
       print ("Job failed: " +:+ str uuid) ;;
       ret (false, downloaded_count)
     else ret (true, downloaded_count))
    (fun e =>
       print ("Error checking status for " +:+ str uuid +:+ ": " +:+ exn_str e) ;;
       ret (true, downloaded_count)).

(** One round: the list [remaining] and the new [downloaded_count]. *)
Fixpoint poll_round (cfg : config) (pending : list (scalar * nat))
  (downloaded_count : nat) : M R (list (scalar * nat) * nat) :=
  match pending with
  | [] => ret ([], downloaded_count)
  | job :: rest =>
      r <- check_job cfg job downloaded_count ;;
      r' <- poll_round cfg rest (snd r) ;;
      ret (if fst r then job :: fst r' else fst r', snd r')
  end.

(** Lines 134-179, cut after [fuel] rounds. *)
Fixpoint poll_loop (fuel : nat) (cfg : config) (start_time : Q)
  (pending : list (scalar * nat)) (downloaded_count : nat)
  : M R (option (list (scalar * nat) * nat)) :=
  match fuel with
  | O => ret None
  | S fuel' =>
      match pending with
      | [] => ret (Some (pending, downloaded_count))
      | _ :: _ =>
          now <- time ;;
          if negb (Qle_bool max_wait (now - start_time)) then
            r <- poll_round cfg pending downloaded_count ;;
            when (match fst r with [] => false | _ => true end)
                 (sleep poll_interval) ;;
            poll_loop fuel' cfg start_time (fst r) (snd r)
          else ret (Some (pending, downloaded_count))
      end
  end.

End WithClient.

(** *** Submitting the generations (lines 68-128 and 181-184) *)

Definition is_none (v : scalar) : bool :=
  match v with VNone => true | _ => false end.

(** Lines 93-95: the seed of generation [idx]. *)
Definition seed_of (settings : dict) (idx : nat) : scalar :=
  let seed := get_none "seed" settings in
  if is_none seed || eq seed (VInt (-1))
  then (if (idx =? 1)%nat then VInt (-1) else VNone)
  else seed.

Definition copied_params : list string :=
  ["size"; "negative_prompt"; "enable_safety_checker"].

(** Lines 99-109: the object that goes into the request's "prompt". *)
Definition algo_params (settings : dict) (prompt seed : scalar) : dict :=
  let algo_params :=
    [("infinidream_algorithm", VStr "qwen-image"); ("prompt", prompt)] in
  let algo_params :=
    if negb (is_none seed) && negb (eq seed (VInt (-1)))
    then set "seed" seed algo_params else algo_params in
  fold_left
    (fun acc param =>
       match get param settings with
       | Some v => set param v acc
       | None => acc
       end)
    copied_params algo_params.

Section Submission.
Context {R : Type} (client : Client R).

(** The body of [for idx in range(1, num_generations + 1)]. *)
Definition submit_one (settings : dict) (prompt num_generations : scalar)
  (active_jobs : list (scalar * nat)) (idx : nat) : M R (list (scalar * nat)) :=
  let seed := seed_of settings idx in
  print ("[" +:+ PyStr.of_nat idx +:+ "/" +:+ str num_generations
           +:+ "] Submitting job...") ;;
  let req := mk_request ("Qwen Image " +:+ PyStr.of_nat idx)
               ("Generated image " +:+ PyStr.of_nat idx)
               (algo_params settings prompt seed) in
  try_except
    (new_dream <- invoke (CreateDream req) GotObject (create_dream_from_prompt client req) ;;
     uuid <- lift (index "uuid" new_dream) ;;
     print ("  -> Job started: " +:+ str uuid) ;;
     ret (active_jobs ++ [(uuid, idx)]))
    (fun e =>
       print ("  -> Failed to start job: " +:+ exn_str e) ;;
       ret active_jobs).

Fixpoint submit_from (settings : dict) (prompt num_generations : scalar)
  (active_jobs : list (scalar * nat)) (todo : list nat)
  : M R (list (scalar * nat)) :=
  match todo with
  | [] => ret active_jobs
  | idx :: rest =>
      active_jobs' <- submit_one settings prompt num_generations active_jobs idx ;;
      submit_from settings prompt num_generations active_jobs' rest
  end.

(** [main] from line 68 on, for a configuration that was read and an
    output directory that was resolved and created (lines 78-85). It
    hands back the jobs still pending and [downloaded_count] ([None]
    when the polling loop was cut by [fuel]). *)
Definition main (fuel : nat) (settings : dict) (output_dir : string)
  : M R (option (list (scalar * nat) * nat)) :=
  let prompt := get_none "prompt" settings in
  if negb (truthy prompt) then
    eprint "'prompt' not found in qwen-image-config.json" ;; exit 1
  else
    let num_generations := get_or "num_generations" (VInt 1) settings in
    match as_int num_generations with
    | None =>
        raise (TypeError ("'<' not supported between instances of '"
                            +:+ type_name num_generations +:+ "' and 'int'"))
    | Some n =>
        if n <? 1 then
          eprint "'num_generations' must be at least 1" ;; exit 1
        else
          print (nl +:+ "Output directory: " +:+ output_dir) ;;
          print (nl +:+ "Prompt: " +:+ str prompt) ;;
          print ("Number of generations: " +:+ str num_generations) ;;
          active_jobs <- submit_from settings prompt num_generations []
                                     (seq 1 (Z.to_nat n)) ;;
          match active_jobs with
          | [] => print "No jobs started." ;; ret (Some ([], 0%nat))
          | _ :: _ =>
              print (nl +:+ "Waiting for " +:+ PyStr.of_nat (length active_jobs)
                       +:+ " jobs to complete...") ;;
              let cfg := mk_config (get_or "output_filename" (VStr "qwen-image") settings)
                                   (Z.to_nat n) output_dir in
              start_time <- time ;;
              left <- poll_loop client fuel cfg start_time active_jobs 0 ;;
              match left with
              | None => ret None
              | Some (pending, downloaded_count) =>
                  when (match pending with [] => false | _ => true end)
                       (print ("Timeout waiting for " +:+ PyStr.of_nat (length pending)
                                 +:+ " jobs.")) ;;
                  print (nl +:+ "Completed. Downloaded "
                           +:+ PyStr.of_nat downloaded_count +:+ " images.") ;;
                  ret (Some (pending, downloaded_count))
              end
          end
    end.

End Submission.

End Qwen.

(** ** A remote job store *)

(** Modelled from the spec: the remote service behind the client (spec §6,
    "Remote Job Store Client"), which is not part of this repository. It
    keeps the dreams it was asked to create and the playlists they were put
    into, lists a playlist by offset and count, and can be told to fail
    some of the calls it receives. *)
Module Service.

(** What a playlist holds: a dream, by uuid, or some other item. *)
Inductive member :=
| DreamRef (uuid : string)
| Other (it : item).

Record state := mk_state {
  dreams : list (string * dict);
  playlists : list (string * list member);
  next_id : nat;
  faults : list bool;       (* one per coming call: does it fail? *)
  latency : Q;              (* how long each call takes *)
  upload_fields : dict      (* media fields an uploaded image gets *)
}.

Definition with_dreams (s : state) (d : list (string * dict)) : state :=
  mk_state d (playlists s) (next_id s) (faults s) (latency s) (upload_fields s).

(** Every call: it fails when the next entry of [faults] says so. *)
Definition serve {A : Type} (op : state -> answer A * state) (s : state)
  : reply A * state :=
  let rest := mk_state (dreams s) (playlists s) (next_id s) (tl (faults s))
                       (latency s) (upload_fields s) in
  match faults s with
  | true :: _ => ((Raises (RemoteError "service unavailable"), latency s), rest)
  | _ => let '(a, s') := op rest in ((a, latency s), s')
  end.

Definition item_of (s : state) (position : nat) (m : member) : item :=
  match m with
  | DreamRef uuid =>
      [("id", Sc (VInt (Z.of_nat position))); ("type", Sc (VStr "dream"))]
        ++ match get uuid (dreams s) with
           | Some d => [("dreamItem", Obj d)]
           | None => []
           end
  | Other it => it
  end.

Definition items_of (s : state) (members : list member) : list item :=
  imap (item_of s) members.

Definition find_playlist (s : state) (uuid : scalar) : answer (string * list member) :=
  match uuid with
  | VStr u =>
      match get u (playlists s) with
      | Some members => Returns (u, members)
      | None => Raises (RemoteError "playlist not found")
      end
  | _ => Raises (RemoteError "playlist not found")
  end.

Definition find_dream (s : state) (uuid : scalar) : answer (string * dict) :=
  match uuid with
  | VStr u =>
      match get u (dreams s) with
      | Some d => Returns (u, d)
      | None => Raises (RemoteError "dream not found")
      end
  | _ => Raises (RemoteError "dream not found")
  end.

Definition fresh (prefix : string) (s : state) : string :=
  prefix +:+ PyStr.of_nat (next_id s).

Definition add_dream (uuid : string) (d : dict) (s : state) : state :=
  mk_state (dreams s ++ [(uuid, d)]) (playlists s) (S (next_id s)) (faults s)
           (latency s) (upload_fields s).

(** Modelled from the spec: the capability set of spec §6, served from
    the state above. *)
Definition client : Client state := {|
  get_playlist uuid _ :=
    serve (fun s =>
      match find_playlist s uuid with
      | Returns (u, members) =>
          (Returns (mk_playlist [("uuid", VStr u); ("name", VStr u)]
                                (Some (items_of s members))), s)
      | Raises e => (Raises e, s)
      end);
  create_playlist data :=
    serve (fun s =>
      let u := fresh "playlist-" s in
      (Returns (("uuid", VStr u) :: data),
       mk_state (dreams s) (playlists s ++ [(u, [])]) (S (next_id s)) (faults s)
                (latency s) (upload_fields s)));
  get_playlist_items uuid take skip :=
    serve (fun s =>
      match find_playlist s uuid with
      | Returns (_, members) =>
          let all := items_of s members in
          (Returns (mk_response (Some (firstn take (skipn skip all)))
                                (Some (VInt (Z.of_nat (length all))))), s)
      | Raises e => (Raises e, s)
      end);
  get_dream uuid :=
    serve (fun s =>
      match find_dream s uuid with
      | Returns (_, d) => (Returns (Some d), s)
      | Raises e => (Raises e, s)
      end);
  update_dream uuid data :=
    serve (fun s =>
      match find_dream s uuid with
      | Returns (u, d) =>
          (Returns tt,
           with_dreams s (set u (fold_left (fun acc kv => set (fst kv) (snd kv) acc) data d)
                              (dreams s)))
      | Raises e => (Raises e, s)
      end);
  upload_file path :=
    serve (fun s =>
      let u := fresh "upload-" s in
      let d := [("uuid", VStr u); ("name", VStr path); ("status", VStr "processed")]
                 ++ upload_fields s in
      (Returns d, add_dream u d s));
  create_dream_from_prompt req :=
    serve (fun s =>
      let u := fresh "dream-" s in
      let d := [("uuid", VStr u); ("name", VStr (req_name req));
                ("description", VStr (req_description req));
                ("status", VStr "queue")] in
      (Returns d, add_dream u d s));
  add_item_to_playlist playlist_uuid item_uuid :=
    serve (fun s =>
      match find_playlist s playlist_uuid, item_uuid with
      | Returns (u, members), VStr i =>
          (Returns tt,
           mk_state (dreams s) (set u (members ++ [DreamRef i]) (playlists s))
                    (next_id s) (faults s) (latency s) (upload_fields s))
      | Raises e, _ => (Raises e, s)
      | _, _ => (Raises (RemoteError "bad item"), s)
      end);
  http_download _ _ := serve (fun s => (Returns tt, s))
|}.

(** A service with nothing in it but the given playlists. *)
Definition empty (pls : list (string * list member)) : state :=
  mk_state [] pls 0 [] 0 [].

(** The world a script starts in. *)
Definition boot (s : state) : world state := mk_world s 0 [].

End Service.

(** ** Notions used in the statements *)

(** A lower-case hexadecimal digit. *)
Definition is_hex_char (c : ascii) : bool :=
  existsb (Ascii.eqb c) (list_ascii_of_string "0123456789abcdef").

Definition all_hex (s : string) : bool := forallb is_hex_char (list_ascii_of_string s).

(** The test suite of RFC 1321 (appendix A.5): each message with the first
    eight hexadecimal digits of its MD5 digest. *)
Definition rfc1321_suite : list (string * string) :=
  [("", "d41d8cd9");
   ("a", "0cc175b9");
   ("abc", "90015098");
   ("message digest", "f96b697d");
   ("abcdefghijklmnopqrstuvwxyz", "c3fcd3d7");
   ("ABCDEFGHIJKLMNOPQRSTUVWXYZabcdefghijklmnopqrstuvwxyz0123456789", "d174ab98");
   ("1234567890123456789012345678901234567890"
      +:+ "1234567890123456789012345678901234567890", "57edf4a2")].

(** Prompts with letters beyond ASCII, which UTF-8 spells in two bytes:
    U+00E9, U+00FF and "caf" U+00E9 " " U+00FF, each with the first eight
    hexadecimal digits of the MD5 digest of its encoding. *)
Definition accented_suite : list (string * string) :=
  [(String (PyStr.chr 233) "", "66ddcd97");
   (String (PyStr.chr 255) "", "f3f7437e");
   ("caf" +:+ String (PyStr.chr 233) (" " +:+ String (PyStr.chr 255) ""), "4c7b9949")].

(** The total of the three outcome counters of the submission summary. *)
Definition accounted (st : Wan.tally) : nat :=
  (length (Wan.active_dreams st) + Wan.skipped_count st + Wan.failed_count st)%nat.

(** The status of a fetched job is terminal: "processed" or "failed". *)
Definition is_terminal (dream_record : dict) : bool :=
  eq_str (get_none "status" dream_record) "processed"
  || eq_str (get_none "status" dream_record) "failed".

(** Among the events [evs], a status query for the id [u] was answered with
    a job whose status is terminal. *)
Definition observed_terminal (evs : list event) (u : scalar) : Prop :=
  exists dream_record,
    In (Called (GetDream u) (Returns (GotDream (Some dream_record)))) evs
    /\ is_terminal dream_record = true.

(** The ids whose status was asked for, in the order of the events. *)
Definition queried (evs : list event) : list scalar :=
  flat_map (fun e => match e with Called (GetDream u) _ => [u] | _ => [] end) evs.

(** A count as a number of seconds. *)
Definition seconds (n : nat) : Q := inject_Z (Z.of_nat n).

(** A service holding [n] jobs that stay queued for ever, all in one
    playlist; every call takes [dt] seconds. *)
Definition queued_id (i : nat) : string := "dream-" +:+ PyStr.of_nat i.

Definition queued_service (n : nat) (dt : Q) : Service.state :=
  Service.mk_state
    (map (fun i => (queued_id i, [("uuid", VStr (queued_id i)); ("status", VStr "queue")]))
         (seq 0 n))
    [("playlist-0", map (fun i => Service.DreamRef (queued_id i)) (seq 0 n))]
    n [] dt [].

Definition queued_ids (n : nat) : list scalar :=
  map (fun i => VStr (queued_id i)) (seq 0 n).

(** The status queries and the pauses among the events, in order. *)
Definition schedule (evs : list event) : list (scalar + Q) :=
  flat_map (fun e => match e with
                     | Called (GetDream u) _ => [inl u]
                     | Slept d => [inr d]
                     | _ => []
                     end) evs.

(** [k] queries for [u] with half a second between one and the next. *)
Fixpoint attempts (u : scalar) (k : nat) : list (scalar + Q) :=
  match k with
  | O => []
  | S k' => inl u :: match k' with
                     | O => []
                     | S _ => inr (1 # 2)%Q :: attempts u k'
                     end
  end.

(** Among the events [evs], a query for [u] was answered with the record [d]. *)
Definition answered (evs : list event) (u : scalar) (d : dict) : Prop :=
  In (Called (GetDream u) (Returns (GotDream (Some d)))) evs.

(** The value [v] is the string [url], and it starts with "http". *)
Definition http_text (v : scalar) (url : string) : Prop :=
  v = VStr url /\ PyStr.startswith url "http" = true.

(** The value [v] is no string that starts with "http". *)
Definition no_http_text (v : scalar) : Prop := forall url, ~ http_text v url.

(** [url] is what the record [d] holds under "original_video" if that is a
    string starting with "http", else under "video" if that is one, else
    under "thumbnail", which then is one. *)
Definition first_http_url (d : dict) (url : string) : Prop :=
  http_text (get_none "original_video" d) url
  \/ (no_http_text (get_none "original_video" d)
      /\ http_text (get_none "video" d) url)
  \/ (no_http_text (get_none "original_video" d)
      /\ no_http_text (get_none "video" d)
      /\ http_text (get_none "thumbnail" d) url).

(** None of "original_video", "video" and "thumbnail" holds a string
    starting with "http". *)
Definition no_http_url (d : dict) : Prop :=
  no_http_text (get_none "original_video" d)
  /\ no_http_text (get_none "video" d)
  /\ no_http_text (get_none "thumbnail" d).

(** A service that gives uploaded images a thumbnail and a video URL. *)
Definition media_service : Service.state :=
  Service.mk_state [] [] 0 [] 0
    [("thumbnail", VStr "https://cdn.example/thumb.png");
     ("video", VStr "https://cdn.example/clip.mp4")].

(** A service that gives uploaded images a thumbnail URL and will fail
    the call number [n] (from 0) of those to come. *)
Definition failing_at (n : nat) : Service.state :=
  Service.mk_state [] [("playlist-0", [])] 0 (repeat false n ++ [true]) 0
    [("thumbnail", VStr "https://cdn.example/thumb.png")].

Definition sunset : Wan.Path := Wan.mk_path "/data/in" "sunset.png".

Definition plain_job : Wan.job_config := Wan.mk_job_config [] [] None.

(** [ceil(n / k)] *)
Definition ceil_div (n k : nat) : nat := ((n + k - 1) / k)%nat.

(** Page number [j] (from 0) of a list of items cut into pages of [k]. *)
Definition page_of (k : nat) (all : list item) (j : nat) : list item :=
  firstn k (skipn (j * k) all).

(** The listing call for page [j] and the answer an honest service holding
    the items [all] gives to it. *)
Definition listing_call (uuid : string) (k : nat) (all : list item) (j : nat) : event :=
  Called (GetPlaylistItems (VStr uuid) k (j * k))
         (Returns (GotPage (mk_response (Some (page_of k all j))
                                        (Some (VInt (Z.of_nat (length all))))))).

(** The number of listing calls among the events. *)
Definition listing_calls (evs : list event) : nat :=
  length (List.filter (fun e => match e with
                                | Called (GetPlaylistItems _ _ _) _ => true
                                | _ => false
                                end) evs).

(** A playlist of [n] dreams followed by one item that is no dream. *)
Definition mixed_service (n : nat) : Service.state :=
  Service.mk_state
    (map (fun i => (queued_id i, [("uuid", VStr (queued_id i)); ("status", VStr "processed")]))
         (seq 0 n))
    [("playlist-0",
      map (fun i => Service.DreamRef (queued_id i)) (seq 0 n)
        ++ [Service.Other [("id", Sc (VInt (Z.of_nat n))); ("type", Sc (VStr "playlist"))]])]
    n [] 0 [].


(** A marker token: a word without a space in it. *)
Fixpoint no_space (s : string) : bool :=
  match s with
  | EmptyString => true
  | String c t => negb (Ascii.eqb c " ") && no_space t
  end.



(** The remote updates among the events: target and data. *)
Definition updates (evs : list event) : list (scalar * dict) :=
  flat_map (fun e => match e with
                     | Called (UpdateDream u data) _ => [(u, data)]
                     | _ => []
                     end) evs.

(** The job creations among the events. *)
Definition creations (evs : list event) : nat :=
  length (List.filter (fun e => match e with
                                | Called (CreateDream _) (Returns _) => true
                                | _ => false
                                end) evs).

(** A job file that names an existing playlist and one combo, an image whose
    file name has a space in it, and a service that holds the playlist,
    empty, and gives uploaded images a thumbnail URL. *)
Definition listed_job : Wan.job_config :=
  Wan.mk_job_config [("playlist_uuid", VStr "playlist-0")] ["zoom in"] None.

Definition photo : Wan.Path := Wan.mk_path "/data/in" "my photo.png".

Definition fresh_service : Service.state :=
  Service.mk_state [] [("playlist-0", [])] 0 [] 0
    [("thumbnail", VStr "https://cdn.example/thumb.png")].

(** The tally a run of [Wan.main] ended with. *)
Definition tally_of (r : result (option (Wan.tally * list scalar))) : option Wan.tally :=
  match r with
  | Ok (Some (st, _)) => Some st
  | _ => None
  end.

(** A first run of that job, and a second run against the service as the
    first one left it. *)
Definition first_run : result (option (Wan.tally * list scalar)) * world Service.state :=
  Wan.main Service.client 721 listed_job [photo] (Service.boot fresh_service).

Definition second_run : result (option (Wan.tally * list scalar)) * world Service.state :=
  Wan.main Service.client 721 listed_job [photo] (Service.boot (remote (snd first_run))).

(** Two job files for one playlist and one combo that differ in their other
    settings, the main prompt and the seed; a run of the first on one
    image, and a run of the second on the same image against the service
    as the first one left it. *)
Definition cat_job : Wan.job_config :=
  Wan.mk_job_config
    [("playlist_uuid", VStr "playlist-0"); ("prompt", VStr "a cat"); ("seed", VInt 1)]
    ["zoom in"] None.

Definition dog_job : Wan.job_config :=
  Wan.mk_job_config
    [("playlist_uuid", VStr "playlist-0"); ("prompt", VStr "a dog"); ("seed", VInt 2)]
    ["zoom in"] None.

Definition cat_run : result (option (Wan.tally * list scalar)) * world Service.state :=
  Wan.main Service.client 721 cat_job [sunset] (Service.boot fresh_service).

Definition dog_run : result (option (Wan.tally * list scalar)) * world Service.state :=
  Wan.main Service.client 721 dog_job [sunset] (Service.boot (remote (snd cat_run))).

(** The job file of the first run with the word "zoom" moved from the
    combo to the main prompt, and its run after the first one. *)
Definition cat_zoom_job : Wan.job_config :=
  Wan.mk_job_config
    [("playlist_uuid", VStr "playlist-0"); ("prompt", VStr "a cat zoom"); ("seed", VInt 1)]
    ["in"] None.

Definition cat_zoom_run : result (option (Wan.tally * list scalar)) * world Service.state :=
  Wan.main Service.client 721 cat_zoom_job [sunset] (Service.boot (remote (snd cat_run))).

(** No character of the string is white space for [str.split()]. *)
Fixpoint no_whitespace (s : string) : bool :=
  match s with
  | EmptyString => true
  | String c t => negb (PyStr.isspace c) && no_whitespace t
  end.

(** The marker that tags a job with its identifier. *)
Definition batch_marker : string := "BATCH_IDENTIFIER:".

(** The directory [get_images_from_path] looks into, as [str] spells it:
    "image_path" taken from the directory of the script, as [pathlib] joins
    the two. An absolute "image_path" stands for itself. *)
Definition image_dir_of (image_path base_dir : string) : string :=
  PyPath.pure_str (PyPath.joinpath (PyPath.parse_path base_dir) image_path).

(** [p] comes no later than [q] in the order of the names. *)
Definition name_le (p q : Wan.Path) : Prop := String.leb (Wan.name p) (Wan.name q) = true.

(** A file name that ends in .png, .jpg, .jpeg or .webp, whatever the case
    of the letters, after at least one other character. *)
Definition image_name (n : string) : Prop :=
  exists stem ext,
    n = stem +:+ ext
    /\ stem <> ""
    /\ In (PyStr.lower ext) [".png"; ".jpg"; ".jpeg"; ".webp"].

(** The path in [image_dir] of a regular file among [entries] that has the
    name of an image. *)
Definition image_file (image_dir : string) (entries : list (string * bool)) (p : Wan.Path) : Prop :=
  Wan.parent p = image_dir
  /\ In (Wan.name p, true) entries
  /\ image_name (Wan.name p).

(** Values of "image_path", the directory of the script, and the directory
    that is looked into: a path that is not absolute is taken from the
    directory of the script; a trailing slash, a doubled slash and a
    component "." are dropped, ".." is kept as it is. *)
Definition directory_examples : list (string * string * string) :=
  [("in", "/work", "/work/in");
   ("in/", "/work", "/work/in");
   ("./in", "/work", "/work/in");
   ("a//b/.", "/work", "/work/a/b");
   (".", "/work", "/work");
   ("a/../b", "/work", "/work/a/../b");
   ("/abs//x/", "/work", "/abs/x");
   ("//srv/in", "/work", "//srv/in");
   ("///srv", "/work", "/srv");
   ("/", "/work", "/");
   ("in", "/", "/in")].

(** The remote calls among the events, in order. *)
Definition calls (evs : list event) : list call :=
  flat_map (fun e => match e with Called c _ => [c] | _ => [] end) evs.

(** The requests of the job creations that were asked for, answered or not. *)
Definition requests (evs : list event) : list request :=
  flat_map (fun e => match e with Called (CreateDream req) _ => [req] | _ => [] end) evs.

(** The paths of the files that were sent for upload. *)
Definition uploads (evs : list event) : list string :=
  flat_map (fun e => match e with Called (UploadFile path) _ => [path] | _ => [] end) evs.

(** The additions to a playlist that the service accepted: playlist and item. *)
Definition attached (evs : list event) : list (scalar * scalar) :=
  flat_map (fun e => match e with
                     | Called (AddItemToPlaylist p i) (Returns _) => [(p, i)]
                     | _ => []
                     end) evs.

(** Some combo of the image has an identifier that the index does not hold. *)
Definition needs_upload (combos : list string) (existing : gset string)
  (image_path : Wan.Path) : bool :=
  existsb (fun combo => negb (bool_decide (Wan.create_job_identifier image_path combo
                                             ∈ existing))) combos.

(** [req] is named and tagged as the job of the image and the combo. *)
Definition request_for (combos : list string) (image_path : Wan.Path) (combo : string)
  (req : request) : Prop :=
  req_name req
  = Wan.stem image_path +:+ "_combo-" +:+ PyStr.of_nat (Wan.index_of combo combos + 1)
  /\ req_description req
     = "Batch generation. " +:+ batch_marker
         +:+ Wan.create_job_identifier image_path combo.

(** The playlists that were asked to be created. *)
Definition playlists_made (evs : list event) : list dict :=
  flat_map (fun e => match e with Called (CreatePlaylist data) _ => [data] | _ => [] end) evs.

(** The job file has no settings for a new playlist: no "playlist", or one
    that counts as false, such as an empty object. *)
Definition no_playlist_settings (job_config : Wan.job_config) : Prop :=
  truthy_value (Wan.playlist_of job_config) = false.

(** The playlist the job file names cannot be used at the start of [main]
    in the world [w]: the file names none, or looking it up raises. *)
Definition no_usable_playlist {R : Type} (client : Client R)
  (job_config : Wan.job_config) (w : world R) : Prop :=
  truthy (get_none "playlist_uuid" (Wan.settings job_config)) = false
  \/ exists e,
       fst (fst (get_playlist client (get_none "playlist_uuid" (Wan.settings job_config))
                   None (remote w)))
       = Raises e.

(** The combos [main] works with: those of the job file, or the empty one. *)
Definition combos_in_use (job_config : Wan.job_config) : list string :=
  match Wan.combos_of job_config with [] => [""] | l => l end.

(** What keeps [main] from starting the batch: no API key, a job file that
    could not be read, no "image_path" in it, or no image to be found. *)
Definition bad_launch (l : Wan.launch) : Prop :=
  Wan.api_key l = None
  \/ Wan.api_key l = Some ""
  \/ (exists msg, Wan.loaded l = inr msg)
  \/ (exists job_config,
        Wan.loaded l = inl job_config
        /\ (truthy (get_none "image_path" (Wan.settings job_config)) = false
            \/ exists exception msg,
                 Wan.get_images_from_path (Wan.disk l)
                   (get_none "image_path" (Wan.settings job_config)) (Wan.script_dir l)
                 = Wan.Failure exception msg)).

(** The playlist item of a job that the batch tagged with [identifier]. *)
Definition tagged_item (identifier : string) (it : item) : Prop :=
  get "type" it = Some (Sc (VStr "dream"))
  /\ exists dream_record name,
       get "dreamItem" it = Some (Obj dream_record)
       /\ get_or "description" (VStr "") dream_record
          = VStr ("Batch generation. " +:+ batch_marker +:+ identifier)
       /\ get_or "name" (VStr "") dream_record = VStr name.

(** An identifier that the index builder reads back as it was written:
    not empty, without white space, and without the marker in it. *)
Definition readable (identifier : string) : bool :=
  negb (String.eqb identifier "") && no_whitespace identifier
  && negb (PyStr.contains batch_marker identifier).

(** The ids of the jobs that the service created and reported, in order. *)
Definition created_ids (evs : list event) : list scalar :=
  flat_map (fun e => match e with
                     | Called (CreateDream _) (Returns (GotObject d)) =>
                         match get "uuid" d with Some u => [u] | None => [] end
                     | _ => []
                     end) evs.

(** Among the events, an uprez job was created for the dream [u]. *)
Definition job_created_for (evs : list event) (u : scalar) : Prop :=
  exists req d new_uuid,
    In (Called (CreateDream req) (Returns (GotObject d))) evs
    /\ get "video_uuid" (req_prompt req) = Some u
    /\ get "uuid" d = Some new_uuid.

(** Every update of a description among the events goes to a dream for
    which a job was created. *)
Definition marks_have_jobs (evs : list event) : Prop :=
  forall u data, In (u, data) (updates evs) -> job_created_for evs u.

(** Among the events, a lookup of the dream [u] was answered with a record
    whose description holds the marker, whatever the case of the letters. *)
Definition marker_seen (marker : string) (evs : list event) (u : scalar) : Prop :=
  exists d description,
    In (Called (GetDream u) (Returns (GotDream (Some d)))) evs
    /\ Uprez.or_empty (get_or "description" (VStr "") d) = VStr description
    /\ PyStr.contains (PyStr.lower marker) (PyStr.lower description) = true.

(** The seed of the configuration when it is one to pass on: neither
    missing, nor [None], nor -1. *)
Definition fixed_seed (settings : dict) : option scalar :=
  match get "seed" settings with
  | None | Some VNone => None
  | Some seed => if eq seed (VInt (-1)) then None else Some seed
  end.

(** The jobs that the answers to job creations started, each with the
    number of its creation request: the requests among the events are
    counted from [idx] on, and a request that was answered with a record
    that has a uuid gives that uuid and its number. *)
Fixpoint started_jobs (idx : nat) (evs : list event) : list (scalar * nat) :=
  match evs with
  | [] => []
  | Called (CreateDream _) a :: rest =>
      match a with
      | Returns (GotObject d) =>
          match get "uuid" d with
          | Some uuid => [(uuid, idx)]
          | None => []
          end
      | _ => []
      end ++ started_jobs (S idx) rest
  | _ :: rest => started_jobs idx rest
  end.

(** [req] is named as the request of generation [idx]. *)
Definition generation_request (idx : nat) (c : call) : Prop :=
  exists req,
    c = CreateDream req
    /\ req_name req = "Qwen Image " +:+ PyStr.of_nat idx
    /\ req_description req = "Generated image " +:+ PyStr.of_nat idx.

(** The downloads that were asked for: URL and path. *)
Definition downloads (evs : list event) : list (scalar * string) :=
  flat_map (fun e => match e with
                     | Called (HttpDownload url path) _ => [(url, path)]
                     | _ => []
                     end) evs.

(** The number of downloads that succeeded. *)
Definition downloaded (evs : list event) : nat :=
  length (List.filter (fun e => match e with
                                | Called (HttpDownload _ _) (Returns _) => true
                                | _ => false
                                end) evs).

(** The name of the file of generation [idx]: the configured base name,
    with the index on four digits when there is more than one generation. *)
Definition output_name (cfg : Qwen.config) (idx : nat) : string :=
  str (Qwen.output_filename cfg)
    +:+ (if (1 <? Qwen.num_generations cfg)%nat
         then "_" +:+ Qwen.pad4 idx +:+ ".png" else ".png").

(** The file that generation [idx] is saved to: the path of that name
    from the output directory, as [pathlib] joins the two. *)
Definition output_path (cfg : Qwen.config) (idx : nat) : string :=
  PyPath.pure_str
    (PyPath.joinpath (PyPath.parse_path (Qwen.output_dir cfg)) (output_name cfg idx)).

(** The URL the image of a fetched job is taken from. *)
Definition image_url (d : dict) : scalar :=
  if truthy (get_none "thumbnail" d) then get_none "thumbnail" d
  else get_none "video" d.

(** The number that a string of decimal digits spells, read after [a]. *)
Fixpoint decimal_from (a : nat) (s : string) : nat :=
  match s with
  | EmptyString => a
  | String c t => decimal_from (10 * a + (Z.to_nat (PyStr.ord c) - 48)) t
  end.

(** The lines that were printed, on either stream. *)
Definition printed (evs : list event) : list string :=
  flat_map (fun e => match e with Stdout s | Stderr s => [s] | _ => [] end) evs.

(** A call that the uprez batch may make once its output playlist [out]
    is chosen: no playlist is looked up or created any more, and what is
    added to a playlist is added to [out]. *)
Definition later_call (out : scalar) (c : call) : Prop :=
  match c with
  | GetPlaylistItems _ _ _ | GetDream _ | UpdateDream _ _ | CreateDream _ => True
  | AddItemToPlaylist p _ => p = out
  | _ => False
  end.

(** A call that only reads: a page of a playlist or a dream. *)
Definition query_call (c : call) : Prop :=
  match c with
  | GetPlaylistItems _ _ _ | GetDream _ => True
  | _ => False
  end.

(** * Properties *)

(** ** The identity deriver *)

Lemma hex_digits_below_16 :
  forallb (fun k => is_hex_char (MD5.hex_digit (Z.of_nat k))) (seq 0 16) = true.
Proof. reflexivity. Qed.

Lemma hex_digit_is_hex (n : Z) : 0 <= n < 16 -> is_hex_char (MD5.hex_digit n) = true.
Proof.
  intros Hn. rewrite <- (Z2Nat.id n) by lia.
  apply (proj1 (forallb_forall _ _) hex_digits_below_16).
  apply in_seq. lia.
Qed.

Lemma hex_all_hex (bytes : list Z) : all_hex (MD5.hex bytes) = true.
Proof.
  unfold all_hex. induction bytes as [| b t IH]; [reflexivity |].
  cbn [MD5.hex list_ascii_of_string forallb].
  rewrite !hex_digit_is_hex by (apply Z.mod_pos_bound; lia).
  exact IH.
Qed.

Lemma hex_length (bytes : list Z) :
  String.length (MD5.hex bytes) = (2 * length bytes)%nat.
Proof.
  induction bytes as [| b t IH]; [reflexivity |].
  cbn [MD5.hex String.length length]. rewrite IH. lia.
Qed.

(** The first eight characters of a digest are the hexadecimal spelling of
    the four bytes of its first word. *)
Lemma fingerprint_word (msg : list Z) :
  exists a : Z, PyStr.take 8 (MD5.hexdigest msg) = MD5.hex (MD5.le_bytes 4 a).
Proof.
  unfold MD5.hexdigest, MD5.digest.
  set (st := fold_left MD5.compress _ MD5.init).
  exists (MD5.sa st). reflexivity.
Qed.

Lemma known_fingerprints :
  forallb (fun t => String.eqb
                      (Wan.create_job_identifier (Wan.mk_path "/data/in" "sunset.png") (fst t))
                      ("sunset.png:" +:+ snd t))
          (rfc1321_suite ++ accented_suite)
  = true.
Proof. vm_compute. reflexivity. Qed.

(** C1. The identifier derived for a work unit is the file name of the
    image (the work-unit key), a colon, and a fingerprint of exactly eight
    lower-case hexadecimal digits. The fingerprint is a function of the
    combo prompt alone: neither the directory nor the name of the image
    enters it, and no other setting of the job file is an argument of the
    deriver. It is the head of the MD5 digest of the UTF-8 encoded prompt:
    on the test suite of RFC 1321 and on prompts with letters that UTF-8
    spells in two bytes, the identifier ends in the first eight digits of
    the digest. *)
Theorem C1_identifier_form :
  (forall directory image_name combo_prompt : string,
     exists fingerprint : string,
       Wan.create_job_identifier (Wan.mk_path directory image_name) combo_prompt
       = image_name +:+ ":" +:+ fingerprint
       /\ String.length fingerprint = 8%nat
       /\ all_hex fingerprint = true
       /\ forall directory' image_name' : string,
            Wan.create_job_identifier (Wan.mk_path directory' image_name') combo_prompt
            = image_name' +:+ ":" +:+ fingerprint)
  /\ Forall (fun t => Wan.create_job_identifier (Wan.mk_path "/data/in" "sunset.png") (fst t)
                      = "sunset.png:" +:+ snd t)
            (rfc1321_suite ++ accented_suite).
Proof.
  split.
  - intros directory image_name combo_prompt.
    destruct (fingerprint_word (PyStr.encode combo_prompt)) as [a Ha].
    exists (PyStr.take 8 (MD5.hexdigest (PyStr.encode combo_prompt))).
    split; [reflexivity |]. rewrite Ha.
    split; [now rewrite hex_length |]. split; [apply hex_all_hex |].
    intros directory' image_name'. unfold Wan.create_job_identifier.
    cbn [Wan.name]. now rewrite Ha.
  - apply List.Forall_forall. intros t Ht. apply String.eqb_eq.
    exact (proj1 (forallb_forall _ _) known_fingerprints t Ht).
Qed.

(** The fingerprint is no function of the parameters of a job, and does
    not tell the settings apart. A first run sends the job of the image
    "sunset.png" with the main prompt "a cat" and the combo "zoom in" and
    tags it "sunset.png:5d1dc086". Under a job file with the main prompt
    "a dog" and another seed the same image and combo would be sent with
    other parameters, yet the same identifier is derived and found in the
    index, and nothing is sent. Under a job file with the main prompt
    "a cat zoom" and the combo "in" the parameters are those of the first
    run to the letter, yet the identifier is another one, "sunset.png:13b5bfe9",
    and the job is sent again. *)
Lemma C1_settings_counterexample :
  map req_prompt (requests (trace (snd cat_run)))
  = [[("infinidream_algorithm", VStr "wan-i2v"); ("prompt", VStr "a cat zoom in");
      ("image", VStr "https://cdn.example/thumb.png"); ("seed", VInt 1)]]
  /\ map req_description (requests (trace (snd cat_run)))
     = ["Batch generation. BATCH_IDENTIFIER:sunset.png:5d1dc086"]
  /\ Wan.algo_params dog_job "a dog zoom in" (VStr "https://cdn.example/thumb.png")
     = [("infinidream_algorithm", VStr "wan-i2v"); ("prompt", VStr "a dog zoom in");
        ("image", VStr "https://cdn.example/thumb.png"); ("seed", VInt 2)]
  /\ Wan.create_job_identifier sunset "zoom in" = "sunset.png:5d1dc086"
  /\ requests (trace (snd dog_run)) = []
  /\ option_map Wan.skipped_count (tally_of (fst dog_run)) = Some 1%nat
  /\ map req_prompt (requests (trace (snd cat_zoom_run)))
     = [[("infinidream_algorithm", VStr "wan-i2v"); ("prompt", VStr "a cat zoom in");
         ("image", VStr "https://cdn.example/thumb.png"); ("seed", VInt 1)]]
  /\ map req_description (requests (trace (snd cat_zoom_run)))
     = ["Batch generation. BATCH_IDENTIFIER:sunset.png:13b5bfe9"].
Proof.
  do 7 (split; [vm_compute; reflexivity |]). vm_compute. reflexivity.
Qed.

Example identifier_of_empty_combo :
  Wan.create_job_identifier (Wan.mk_path "/data/in" "sunset.png") ""
  = "sunset.png:d41d8cd9".
Proof. vm_compute. reflexivity. Qed.

(** ** Stepping through a script *)

Ltac unfold_monad :=
  unfold when, lift, print, eprint, log, sleep, time, invoke, bind, try_except,
    ret, raise, exit in *.

Ltac reduce := cbv beta iota zeta; cbn [fst snd remote clock trace].

(** The innermost scrutinee of a term, and a case analysis on the one of
    the goal. *)
Ltac scrutinee t :=
  lazymatch t with
  | context [match ?x with _ => _ end] => scrutinee x
  | _ => t
  end.

Ltac case_step :=
  lazymatch goal with
  | |- context [match ?x with _ => _ end] =>
      let y := scrutinee x in destruct y eqn:?
  end.

Ltac run := repeat (reduce; case_step); reduce.

(** ** The submission loop of the wan-i2v batch *)
Section WanSubmission.
Context {R : Type} (client : Client R).
Variable job_config : Wan.job_config.
Variable combos : list string.
Variable existing : gset string.
Variable playlist_uuid : scalar.
Variable total_jobs : nat.

Lemma resolve_attempt_returns (dream_uuid : scalar) (attempt : nat) (w : world R) :
  exists r w', Wan.resolve_attempt client dream_uuid attempt w = (Ok r, w').
Proof.
  unfold Wan.resolve_attempt, as_dict. unfold_monad.
  run; eexists _, _; reflexivity.
Qed.

Lemma resolve_url_returns (dream_uuid : scalar) (attempts : list nat) (w : world R) :
  exists r w', Wan.resolve_url client dream_uuid attempts w = (Ok r, w').
Proof.
  revert w. induction attempts as [| attempt rest IH]; intros w.
  - eexists _, _. reflexivity.
  - cbn [Wan.resolve_url]. unfold bind.
    destruct (resolve_attempt_returns dream_uuid attempt w) as (r & w1 & ->).
    destruct r as [url |].
    + eexists _, _. reflexivity.
    + apply IH.
Qed.

(** An upload ends with a source or with an exception, never in an exit. *)
Lemma upload_image_no_exit (image_path : Wan.Path) (w : world R) :
  exists w', (exists source, Wan.upload_image client image_path w = (Ok source, w'))
             \/ (exists e, Wan.upload_image client image_path w = (Raise e, w')).
Proof.
  unfold Wan.upload_image, index. unfold_monad. reduce.
  destruct (upload_file client _ _) as [[[uploaded_dream | e] dt] r']; reduce;
    [| eexists; right; eexists; reflexivity].
  destruct (get "uuid" uploaded_dream) as [dream_uuid |]; reduce;
    [| eexists; right; eexists; reflexivity].
  match goal with
  | |- context [Wan.resolve_url client ?u ?l ?w0] =>
      destruct (resolve_url_returns u l w0) as ([url |] & w1 & ->)
  end; reduce; eexists; left; eexists; reflexivity.
Qed.

Lemma submit_combo_accounted image_path source st combo (w : world R) :
  exists st' w',
    Wan.submit_combo client job_config combos existing playlist_uuid total_jobs
      image_path source st combo w = (Ok st', w')
    /\ accounted st' = S (accounted st)
    /\ (existing = ∅ -> Wan.skipped_count st' = Wan.skipped_count st).
Proof.
  unfold Wan.submit_combo. unfold_monad.
  repeat (reduce; case_step); reduce; eexists _, _; (split; [reflexivity |]);
    unfold accounted;
    cbn [Wan.active_dreams Wan.skipped_count Wan.failed_count];
    rewrite ?length_app; cbn [length]; (split; [lia |]); intros Hempty;
    try reflexivity.
  subst existing.
  match goal with H : bool_decide _ = true |- _ => apply bool_decide_eq_true in H end.
  set_solver.
Qed.

Lemma submit_combos_accounted image_path source (todo : list string) :
  forall st (w : world R),
  exists st' w',
    Wan.submit_combos client job_config combos existing playlist_uuid total_jobs
      image_path source st todo w = (Ok st', w')
    /\ accounted st' = (accounted st + length todo)%nat
    /\ (existing = ∅ -> Wan.skipped_count st' = Wan.skipped_count st).
Proof.
  induction todo as [| combo rest IH]; intros st w.
  - eexists _, _. split; [reflexivity |]. split; [cbn [length]; lia | reflexivity].
  - cbn [Wan.submit_combos]. unfold bind.
    destruct (submit_combo_accounted image_path source st combo w)
      as (st1 & w1 & -> & Hacc & Hskip).
    destruct (IH st1 w1) as (st2 & w2 & -> & Hacc2 & Hskip2).
    eexists _, _. split; [reflexivity |]. split.
    + cbn [length]. lia.
    + intros He. rewrite Hskip2, Hskip by exact He. reflexivity.
Qed.

Lemma process_image_accounted st image_path (w : world R) :
  exists st' w',
    Wan.process_image client job_config combos existing playlist_uuid total_jobs
      st image_path w = (Ok st', w')
    /\ accounted st' = (accounted st + length combos)%nat
    /\ (existing = ∅ -> Wan.skipped_count st' = Wan.skipped_count st).
Proof.
  unfold Wan.process_image.
  destruct (negb (existsb _ combos)) eqn:Hneeds.
  - unfold_monad. reduce. eexists _, _. split; [reflexivity |].
    unfold accounted. cbn [Wan.active_dreams Wan.skipped_count Wan.failed_count].
    split; [lia |]. intros ->.
    destruct combos as [| combo rest]; [cbn [length]; lia |].
    cbn [existsb] in Hneeds. rewrite bool_decide_eq_false_2 in Hneeds by set_solver.
    discriminate Hneeds.
  - match goal with |- context [negb (truthy ?v)] => destruct (negb (truthy v)) end.
    + unfold_monad. reduce.
      match goal with
      | |- context [Wan.upload_image client ?p ?w0] =>
          destruct (upload_image_no_exit p w0) as (w1 & [(source & ->) | (e & ->)])
      end; reduce.
      * match goal with
        | |- context [Wan.submit_combos _ _ _ _ _ _ _ ?src ?st0 ?todo ?w0] =>
            destruct (submit_combos_accounted image_path src todo st0 w0)
              as (st2 & w2 & -> & Hacc & Hskip)
        end.
        eexists _, _. split; [reflexivity |]. split; [exact Hacc | exact Hskip].
      * eexists _, _. split; [reflexivity |].
        unfold accounted. cbn [Wan.active_dreams Wan.skipped_count Wan.failed_count].
        split; [lia | reflexivity].
    + apply submit_combos_accounted.
Qed.

Lemma process_images_accounted (images : list Wan.Path) :
  forall st (w : world R),
  exists st' w',
    Wan.process_images client job_config combos existing playlist_uuid total_jobs
      st images w = (Ok st', w')
    /\ accounted st' = (accounted st + length images * length combos)%nat
    /\ (existing = ∅ -> Wan.skipped_count st' = Wan.skipped_count st).
Proof.
  induction images as [| image_path rest IH]; intros st w.
  - eexists _, _. split; [reflexivity |]. split; [cbn [length]; lia | reflexivity].
  - cbn [Wan.process_images]. unfold bind.
    destruct (process_image_accounted st image_path w)
      as (st1 & w1 & -> & Hacc & Hskip).
    destruct (IH st1 w1) as (st2 & w2 & -> & Hacc2 & Hskip2).
    eexists _, _. split; [reflexivity |]. split.
    + cbn [length]. lia.
    + intros He. rewrite Hskip2, Hskip by exact He. reflexivity.
Qed.

End WanSubmission.

(** C10. Whatever the remote service answers, the submission loop of the
    wan-i2v batch runs to its end, and there the three outcome counters add
    up to the number of tasks: len(active_dreams) + skipped_count +
    failed_count = len(images) * len(combos). *)
Theorem C10_summary_counts_partition {R : Type} (client : Client R)
  (job_config : Wan.job_config) (combos : list string) (existing : gset string)
  (playlist_uuid : scalar) (total_jobs : nat) (images : list Wan.Path)
  (w : world R) :
  exists st w',
    Wan.process_images client job_config combos existing playlist_uuid total_jobs
      Wan.tally0 images w = (Ok st, w')
    /\ (length (Wan.active_dreams st) + Wan.skipped_count st + Wan.failed_count st
        = length images * length combos)%nat.
Proof.
  destruct (process_images_accounted client job_config combos existing playlist_uuid
              total_jobs images Wan.tally0 w) as (st & w' & Hrun & Hacc & _).
  exists st, w'. split; [exact Hrun |]. exact Hacc.
Qed.

(** ** One round of the polling loops *)

Lemma observed_terminal_app (evs1 evs2 : list event) (u : scalar) :
  observed_terminal (evs1 ++ evs2) u
  <-> observed_terminal evs1 u \/ observed_terminal evs2 u.
Proof.
  unfold observed_terminal. split.
  - intros (d & Hin & Ht). apply in_app_or in Hin as [Hin | Hin];
      [left | right]; exists d; auto.
  - intros [(d & Hin & Ht) | (d & Hin & Ht)]; exists d; split; auto;
      apply in_or_app; auto.
Qed.

Lemma queried_app (evs1 evs2 : list event) :
  queried (evs1 ++ evs2) = queried evs1 ++ queried evs2.
Proof. unfold queried. now rewrite !flat_map_app. Qed.

(** Closes [trace w' = trace w ++ ?evs] once the script was run. *)
Ltac trace_eq := rewrite <- ?app_assoc; reflexivity.

(** Closes [~ observed_terminal evs u] for a short, explicit [evs]. *)
Ltac not_observed :=
  let d := fresh "d" in
  let Hin := fresh "Hin" in
  let Ht := fresh "Ht" in
  intros (d & Hin & Ht); cbn [In app] in Hin;
  repeat (destruct Hin as [Hin | Hin]; [try discriminate Hin |]);
  try contradiction;
  try (injection Hin as <-; unfold is_terminal in Ht; rewrite orb_true_iff in Ht;
       destruct Ht as [Ht | Ht]; congruence).

Section PollRound.
Context {R : Type} (client : Client R).

Lemma wan_check_status_spec (u : scalar) (w : world R) :
  exists done evs w',
    Wan.check_status client u w = (Ok done, w')
    /\ trace w' = trace w ++ evs
    /\ queried evs = [u]
    /\ (done = true -> observed_terminal evs u)
    /\ (done = false -> ~ observed_terminal evs u).
Proof.
  unfold Wan.check_status, as_dict. unfold_monad. run;
    eexists _, _, _; (split; [reflexivity |]); (split; [trace_eq |]);
    (split; [reflexivity |]); (split; [intros Hd; try discriminate Hd
                                      | intros Hd; try discriminate Hd]).
  all: try not_observed.
  all: unfold seen; eexists; (split; [left; reflexivity |]);
    unfold is_terminal; rewrite orb_true_iff; auto.
Qed.

Lemma wan_poll_round_spec (pending : list scalar) :
  forall w : world R,
  exists completed evs w',
    Wan.poll_round client pending w = (Ok completed, w')
    /\ trace w' = trace w ++ evs
    /\ queried evs = pending
    /\ (forall u, In u completed -> In u pending /\ observed_terminal evs u).
Proof.
  induction pending as [| u rest IH]; intros w.
  - exists [], [], w. repeat split; try (now rewrite app_nil_r); contradiction.
  - cbn [Wan.poll_round]. unfold bind.
    destruct (wan_check_status_spec u w) as (done & evs1 & w1 & -> & Ht1 & Hq1 & Hyes & _).
    destruct (IH w1) as (completed & evs2 & w2 & -> & Ht2 & Hq2 & Hin).
    exists (if done then u :: completed else completed), (evs1 ++ evs2), w2.
    split; [reflexivity |]. split; [now rewrite Ht2, Ht1, app_assoc |].
    split; [now rewrite queried_app, Hq1, Hq2 |].
    intros u' Hu'. rewrite observed_terminal_app.
    destruct done.
    + destruct Hu' as [<- | Hu']; [split; [now left | left; now apply Hyes] |].
      destruct (Hin u' Hu'). split; [now right | now right].
    + destruct (Hin u' Hu'). split; [now right | now right].
Qed.

Lemma qwen_check_job_spec (cfg : Qwen.config) (job : scalar * nat) (n : nat)
  (w : world R) :
  exists keep n' evs w',
    Qwen.check_job client cfg job n w = (Ok (keep, n'), w')
    /\ trace w' = trace w ++ evs
    /\ queried evs = [fst job]
    /\ (keep = false -> observed_terminal evs (fst job))
    /\ (keep = true -> ~ observed_terminal evs (fst job)).
Proof.
  destruct job as [u idx].
  unfold Qwen.check_job, Qwen.download_image, as_dict. unfold_monad. run;
    eexists _, _, _, _; (split; [reflexivity |]); (split; [trace_eq |]);
    (split; [reflexivity |]); (split; [intros Hd; try discriminate Hd
                                      | intros Hd; try discriminate Hd]).
  all: try not_observed.
  all: unfold seen; eexists; (split; [left; reflexivity |]);
    unfold is_terminal; rewrite orb_true_iff; auto.
Qed.

Lemma qwen_poll_round_spec (cfg : Qwen.config) (pending : list (scalar * nat)) :
  forall (n : nat) (w : world R),
  exists remaining n' evs w',
    Qwen.poll_round client cfg pending n w = (Ok (remaining, n'), w')
    /\ trace w' = trace w ++ evs
    /\ queried evs = map fst pending
    /\ (forall job, In job remaining -> In job pending)
    /\ (forall job, In job pending -> ~ In job remaining ->
                    observed_terminal evs (fst job))
    /\ (forall job, In job pending -> ~ observed_terminal evs (fst job) ->
                    In job remaining).
Proof.
  induction pending as [| job rest IH]; intros n w.
  - exists [], n, [], w. repeat split; try (now rewrite app_nil_r); contradiction.
  - cbn [Qwen.poll_round]. unfold bind.
    destruct (qwen_check_job_spec cfg job n w)
      as (keep & n1 & evs1 & w1 & -> & Ht1 & Hq1 & Hno & Hyes).
    cbn [fst snd].
    destruct (IH n1 w1) as (remaining & n2 & evs2 & w2 & -> & Ht2 & Hq2 & Hsub & Hout & Hkeep).
    exists (if keep then job :: remaining else remaining), n2, (evs1 ++ evs2), w2.
    cbn [fst snd].
    split; [reflexivity |]. split; [now rewrite Ht2, Ht1, app_assoc |].
    split; [now rewrite queried_app, Hq1, Hq2 |].
    split; [| split].
    + intros j Hj. destruct keep; [destruct Hj as [<- | Hj]; [now left |] |];
        right; auto.
    + intros j Hj Hnot. rewrite observed_terminal_app.
      destruct Hj as [<- | Hj].
      * destruct keep; [exfalso; apply Hnot; now left | left; now apply Hno].
      * right. apply Hout; [exact Hj |]. intros Hr. apply Hnot.
        destruct keep; [now right | exact Hr].
    + intros j Hj Hnot. rewrite observed_terminal_app in Hnot.
      destruct Hj as [<- | Hj].
      * destruct keep; [now left |]. exfalso. apply Hnot. left. now apply Hno.
      * assert (In j remaining) by (apply Hkeep; [exact Hj | tauto]).
        destruct keep; [now right | assumption].
Qed.

End PollRound.

Lemma remove_completed_spec (pending completed : list scalar) (u : scalar) :
  In u (Wan.remove_completed pending completed)
  <-> In u pending /\ mem u completed = false.
Proof.
  unfold Wan.remove_completed. rewrite filter_In, negb_true_iff. tauto.
Qed.

(** C5. In a round of the polling loop, whatever the remote service answers,
    every pending id is asked for once, and an id leaves the pending set only
    when a status query of that same round was answered with a terminal
    status ("processed" or "failed"): a query that raises, returns nothing,
    or returns any other status leaves the id pending. This holds for the
    set-based loop of the wan-i2v batch (membership by Python equality) and
    for the list-based loop of the qwen-image batch. *)
Theorem C5_removed_only_if_terminal {R : Type} (client : Client R) :
  (forall (pending : list scalar) (w : world R),
    exists completed evs w',
      Wan.poll_round client pending w = (Ok completed, w')
      /\ trace w' = trace w ++ evs
      /\ queried evs = pending
      /\ (forall u, In u (Wan.remove_completed pending completed) -> In u pending)
      /\ (forall u, In u pending ->
                    ~ In u (Wan.remove_completed pending completed) ->
                    exists u', In u' pending /\ eq u u' = true
                               /\ observed_terminal evs u')
      /\ (forall u, In u pending ->
                    (forall u', eq u u' = true -> ~ observed_terminal evs u') ->
                    In u (Wan.remove_completed pending completed)))
  /\ (forall (cfg : Qwen.config) (pending : list (scalar * nat)) (n : nat)
             (w : world R),
    exists remaining n' evs w',
      Qwen.poll_round client cfg pending n w = (Ok (remaining, n'), w')
      /\ trace w' = trace w ++ evs
      /\ queried evs = map fst pending
      /\ (forall job, In job remaining -> In job pending)
      /\ (forall job, In job pending -> ~ In job remaining ->
                      observed_terminal evs (fst job))
      /\ (forall job, In job pending -> ~ observed_terminal evs (fst job) ->
                      In job remaining)).
Proof.
  split.
  - intros pending w.
    destruct (wan_poll_round_spec client pending w)
      as (completed & evs & w' & Hrun & Htrace & Hq & Hin).
    exists completed, evs, w'.
    split; [exact Hrun |]. split; [exact Htrace |]. split; [exact Hq |].
    assert (Hmem : forall u, mem u completed = true ->
                     exists u', In u' pending /\ eq u u' = true
                                /\ observed_terminal evs u').
    { intros u Hu. unfold mem in Hu. apply existsb_exists in Hu as (u' & Hu' & He).
      destruct (Hin u' Hu'). exists u'. auto. }
    split; [| split].
    + intros u Hu. now apply remove_completed_spec in Hu.
    + intros u Hu Hgone. apply Hmem.
      destruct (mem u completed) eqn:Hm; [reflexivity |].
      exfalso. apply Hgone. apply remove_completed_spec. auto.
    + intros u Hu Hnone. apply remove_completed_spec. split; [exact Hu |].
      destruct (mem u completed) eqn:Hm; [| reflexivity].
      destruct (Hmem u Hm) as (u' & _ & He & Hobs). exfalso. exact (Hnone u' He Hobs).
  - intros cfg pending n w. apply qwen_poll_round_spec.
Qed.

(** ** The deadline of the polling loop *)

Lemma seconds_S (n : nat) : (seconds (S n) == seconds n + 1)%Q.
Proof.
  unfold seconds. rewrite Nat2Z.inj_succ, <- Z.add_1_r, inject_Z_plus. reflexivity.
Qed.

Lemma Qle_bool_false (x y : Q) : Qle_bool x y = false -> (y < x)%Q.
Proof.
  intros H. apply Qnot_le_lt. intros Hle. apply Qle_bool_iff in Hle. congruence.
Qed.

Lemma remove_none_completed (pending : list scalar) :
  Wan.remove_completed pending [] = pending.
Proof.
  unfold Wan.remove_completed. apply forallb_filter_id, forallb_forall.
  intros u _. reflexivity.
Qed.

Section Deadline.
Context {R : Type} (client : Client R).
(** [Inv] holds of the states the service goes through, [L] bounds the
    time of one status query. *)
Variable Inv : R -> Prop.
Variable L : Q.
Hypothesis L_nonneg : (0 <= L)%Q.
(** The ids never report a terminal status. *)
Hypothesis never_terminal :
  forall (u : scalar) (r : R),
    Inv r ->
    Inv (snd (get_dream client u r))
    /\ (0 <= snd (fst (get_dream client u r)) <= L)%Q
    /\ (forall d, fst (fst (get_dream client u r)) = Returns (Some d) ->
                  is_terminal d = false).

Lemma check_status_stuck (u : scalar) (w : world R) :
  Inv (remote w) ->
  exists w',
    Wan.check_status client u w = (Ok false, w')
    /\ Inv (remote w')
    /\ (clock w <= clock w' <= clock w + L)%Q.
Proof.
  intros Hinv. destruct (never_terminal u (remote w) Hinv) as (Hinv' & Hdt & Hterm).
  unfold Wan.check_status, as_dict. unfold_monad. reduce.
  destruct (get_dream client u (remote w)) as [[a dt] r'].
  cbn [fst snd] in *.
  assert (Hclock : (clock w <= clock w + dt <= clock w + L)%Q) by lra.
  destruct a as [[d |] | e]; reduce;
    try (eexists; split; [reflexivity |]; cbn [remote clock]; now split).
  specialize (Hterm d eq_refl). unfold is_terminal in Hterm.
  apply orb_false_iff in Hterm as [-> ->]. reduce.
  eexists; split; [reflexivity |]; cbn [remote clock]; now split.
Qed.

Lemma poll_round_stuck (pending : list scalar) :
  forall w : world R,
    Inv (remote w) ->
    exists w',
      Wan.poll_round client pending w = (Ok [], w')
      /\ Inv (remote w')
      /\ (clock w <= clock w' <= clock w + seconds (length pending) * L)%Q.
Proof.
  induction pending as [| u rest IH]; intros w Hinv.
  - exists w. split; [reflexivity |]. split; [exact Hinv |].
    cbn [length]. change (seconds 0) with 0%Q. lra.
  - cbn [Wan.poll_round]. unfold bind.
    destruct (check_status_stuck u w Hinv) as (w1 & -> & Hinv1 & Hc1).
    destruct (IH w1 Hinv1) as (w2 & -> & Hinv2 & Hc2).
    exists w2. split; [reflexivity |]. split; [exact Hinv2 |].
    cbn [length]. rewrite seconds_S. lra.
Qed.

(** With [f] rounds of fuel left beyond the one at hand, and no more than
    [10 * f] seconds to go, the loop ends with the pending set it was
    given. *)
Lemma poll_loop_stuck (start_time : Q) (u0 : scalar) (rest : list scalar) (f : nat) :
  forall w : world R,
    Inv (remote w) ->
    (clock w <= start_time + Wan.max_wait + Wan.poll_interval
                + seconds (length (u0 :: rest)) * L)%Q ->
    (Wan.max_wait - (clock w - start_time) <= Wan.poll_interval * seconds f)%Q ->
    exists w',
      Wan.poll_loop client (S f) start_time (u0 :: rest) w
      = (Ok (Some (u0 :: rest)), w')
      /\ Inv (remote w')
      /\ (clock w' <= start_time + Wan.max_wait + Wan.poll_interval
                      + seconds (length (u0 :: rest)) * L)%Q.
Proof.
  set (pending := u0 :: rest).
  induction f as [| f IH]; intros w Hinv Hbound Hfuel.
  - cbn [Wan.poll_loop]. unfold_monad. reduce.
    assert (Hover : Qle_bool Wan.max_wait (clock w - start_time) = true).
    { apply Qle_bool_iff. change (seconds 0) with 0%Q in Hfuel. lra. }
    subst pending. reduce. rewrite Hover. cbn [negb].
    exists w. split; [reflexivity |]. split; [exact Hinv | exact Hbound].
  - change (Wan.poll_loop client (S (S f)) start_time pending w)
      with ((now <- time ;;
             if negb (Qle_bool Wan.max_wait (now - start_time)) then
               completed <- Wan.poll_round client pending ;;
               when (match Wan.remove_completed pending completed with
                     | [] => false
                     | _ => true
                     end) (sleep Wan.poll_interval) ;;
               Wan.poll_loop client (S f) start_time
                 (Wan.remove_completed pending completed)
             else ret (Some pending)) w).
    unfold bind at 1. unfold time at 1. reduce.
    destruct (Qle_bool Wan.max_wait (clock w - start_time)) eqn:Hover; cbn [negb].
    + exists w. split; [reflexivity |]. split; [exact Hinv | exact Hbound].
    + apply Qle_bool_false in Hover.
      unfold bind at 1.
      destruct (poll_round_stuck pending w Hinv) as (w1 & -> & Hinv1 & Hc1).
      rewrite remove_none_completed. unfold pending at 1. reduce.
      unfold bind, when, sleep. reduce.
      apply IH; cbn [remote clock].
      * exact Hinv1.
      * unfold Wan.poll_interval in *. lra.
      * rewrite seconds_S in Hfuel. unfold Wan.poll_interval in *. lra.
Qed.

Lemma to_set_nonempty (active : list scalar) :
  active <> [] -> exists u0 rest, to_set active = u0 :: rest.
Proof. destruct active as [| u t]; [congruence |]. intros _. cbn. eauto. Qed.

Lemma poll_stuck (fuel : nat) (active : list scalar) (playlist_uuid : scalar)
  (w : world R) :
  Inv (remote w) ->
  active <> [] ->
  (721 <= fuel)%nat ->
  exists w' evs,
    Wan.poll client fuel active playlist_uuid w = (Ok (Some (to_set active)), w')
    /\ (clock w' <= clock w + Wan.max_wait + Wan.poll_interval
                    + seconds (length (to_set active)) * L)%Q
    /\ trace w'
       = evs ++ [Stdout (nl +:+ "Timeout waiting for "
                           +:+ PyStr.of_nat (length (to_set active)) +:+ " jobs.");
                 Stdout (nl +:+ "Batch process finished. Playlist: "
                           +:+ str playlist_uuid)].
Proof.
  intros Hinv Hactive Hfuel.
  destruct (to_set_nonempty active Hactive) as (u0 & rest & Hset).
  destruct fuel as [| f]; [lia |].
  unfold Wan.poll. rewrite Hset.
  unfold bind at 1. unfold print at 1, log at 1. reduce.
  unfold bind at 1. unfold time at 1. reduce.
  unfold bind at 1.
  match goal with
  | |- context [Wan.poll_loop client (S f) ?st (u0 :: rest) ?w0] =>
      destruct (poll_loop_stuck st u0 rest f w0) as (w1 & -> & Hinv1 & Hc1)
  end.
  - exact Hinv.
  - cbn [clock]. assert (0 <= seconds (length (u0 :: rest)) * L)%Q.
    { apply Qmult_le_0_compat; [| exact L_nonneg].
      unfold seconds. change 0%Q with (inject_Z 0). rewrite <- Zle_Qle. lia. }
    unfold Wan.max_wait, Wan.poll_interval. lra.
  - cbn [clock]. assert (Hf : (seconds 720 <= seconds f)%Q).
    { unfold seconds. rewrite <- Zle_Qle. lia. }
    change (seconds 720) with 720%Q in Hf.
    unfold Wan.max_wait, Wan.poll_interval. lra.
  - unfold_monad. reduce. eexists _, _. split; [reflexivity |].
    cbn [clock] in *. split; [lra |]. rewrite <- app_assoc. reflexivity.
Qed.

End Deadline.

(** C6, as the code has it. For every set of submitted ids that never report
    a terminal status, whose status queries take between 0 and [L] seconds
    each, the poller returns: it hands back the full original set as still
    pending, no later than [max_wait + poll_interval] plus the time of the
    [n] status queries of one round ([n * L]) after it started; it then
    prints the timeout message and the closing line and returns normally.
    With instantaneous queries ([L = 0]) this is the bound
    deadline + poll interval. *)
Theorem C6_deadline_plus_last_round {R : Type} (client : Client R)
  (Inv : R -> Prop) (L : Q) (fuel : nat) (active : list scalar)
  (playlist_uuid : scalar) (w : world R) :
  (0 <= L)%Q ->
  (forall (u : scalar) (r : R),
      Inv r ->
      Inv (snd (get_dream client u r))
      /\ (0 <= snd (fst (get_dream client u r)) <= L)%Q
      /\ (forall d, fst (fst (get_dream client u r)) = Returns (Some d) ->
                    is_terminal d = false)) ->
  Inv (remote w) ->
  active <> [] ->
  (721 <= fuel)%nat ->
  exists w' evs,
    Wan.poll client fuel active playlist_uuid w = (Ok (Some (to_set active)), w')
    /\ (clock w' <= clock w + Wan.max_wait + Wan.poll_interval
                    + seconds (length (to_set active)) * L)%Q
    /\ trace w'
       = evs ++ [Stdout (nl +:+ "Timeout waiting for "
                           +:+ PyStr.of_nat (length (to_set active)) +:+ " jobs.");
                 Stdout (nl +:+ "Batch process finished. Playlist: "
                           +:+ str playlist_uuid)].
Proof.
  intros HL Hstuck Hinv Hactive Hfuel.
  exact (poll_stuck client Inv L HL Hstuck fuel active playlist_uuid w
           Hinv Hactive Hfuel).
Qed.

(** Without a fault to come, a status query leaves the service as it is. *)
Lemma service_get_dream (s : Service.state) (u : scalar) :
  Service.faults s = [] ->
  get_dream Service.client u s
  = (match Service.find_dream s u with
     | Returns (_, d) => Returns (Some d)
     | Raises e => Raises e
     end, Service.latency s, s).
Proof.
  destruct s as [ds pls next fs lat up]. cbn [Service.faults]. intros ->.
  unfold get_dream, Service.client, Service.serve. cbn [Service.faults tl].
  cbn [Service.dreams Service.playlists Service.next_id Service.latency
       Service.upload_fields].
  destruct (Service.find_dream _ u) as [[u' d] | e]; reflexivity.
Defined.

Lemma queued_service_stays (u : scalar) :
  snd (get_dream Service.client u (queued_service 2 0)) = queued_service 2 0
  /\ (0 <= snd (fst (get_dream Service.client u (queued_service 2 0))) <= 0)%Q
  /\ (forall d, fst (fst (get_dream Service.client u (queued_service 2 0)))
                = Returns (Some d) -> is_terminal d = false).
Proof.
  rewrite service_get_dream by reflexivity. cbn [fst snd].
  split; [reflexivity |]. split; [vm_compute; split; discriminate |].
  intros d. destruct u as [| b | z | s]; try discriminate.
  unfold Service.find_dream.
  change (Service.dreams (queued_service 2 0))
    with [("dream-0", [("uuid", VStr "dream-0"); ("status", VStr "queue")]);
          ("dream-1", [("uuid", VStr "dream-1"); ("status", VStr "queue")])].
  cbn [get].
  destruct (String.eqb s "dream-0"); [| destruct (String.eqb s "dream-1")];
    intros Hd; try discriminate Hd; injection Hd as <-; reflexivity.
Defined.

(** Two queued jobs, instantaneous queries: the poller gives up after 7200
    seconds with both of them pending. *)
Lemma C6_deadline_witness :
  exists w' evs,
    Wan.poll Service.client 721 (queued_ids 2) (VStr "playlist-0")
             (Service.boot (queued_service 2 0))
    = (Ok (Some (to_set (queued_ids 2))), w')
    /\ (clock w' <= clock (Service.boot (queued_service 2 0)) + Wan.max_wait
                    + Wan.poll_interval
                    + seconds (length (to_set (queued_ids 2))) * 0)%Q
    /\ trace w'
       = evs ++ [Stdout (nl +:+ "Timeout waiting for "
                           +:+ PyStr.of_nat (length (to_set (queued_ids 2)))
                           +:+ " jobs.");
                 Stdout (nl +:+ "Batch process finished. Playlist: "
                           +:+ str (VStr "playlist-0"))].
Proof.
  apply (C6_deadline_plus_last_round Service.client
           (fun r => r = queued_service 2 0) 0 721 (queued_ids 2)
           (VStr "playlist-0") (Service.boot (queued_service 2 0))).
  - vm_compute. discriminate.
  - intros u r ->. apply queued_service_stays.
  - reflexivity.
  - vm_compute. discriminate.
  - lia.
Defined.

(** A hundred queued jobs whose status queries take one second each: a
    round lasts 110 seconds, the last one starts at 7150 and the poller
    returns at 7260, later than deadline + poll interval = 7210. *)
Lemma C6_deadline_counterexample :
  fst (Wan.poll Service.client 721 (queued_ids 100) (VStr "playlist-0")
                (Service.boot (queued_service 100 1)))
  = Ok (Some (queued_ids 100))
  /\ (clock (snd (Wan.poll Service.client 721 (queued_ids 100) (VStr "playlist-0")
                           (Service.boot (queued_service 100 1)))) == 7260)%Q
  /\ ~ (clock (snd (Wan.poll Service.client 721 (queued_ids 100) (VStr "playlist-0")
                             (Service.boot (queued_service 100 1))))
        <= clock (Service.boot (queued_service 100 1)) + Wan.max_wait
           + Wan.poll_interval)%Q.
Proof.
  split; [vm_compute; reflexivity |]. split; [vm_compute; reflexivity |].
  vm_compute. intros H. apply H. reflexivity.
Qed.

(** ** Resolving the URL of an uploaded image *)

Lemma schedule_app (evs1 evs2 : list event) :
  schedule (evs1 ++ evs2) = schedule evs1 ++ schedule evs2.
Proof. unfold schedule. now rewrite !flat_map_app. Qed.

Lemma usable_url_some (v : scalar) (url : string) :
  Wan.usable_url v = Some url -> v = VStr url /\ PyStr.startswith url "http" = true.
Proof.
  destruct v as [| b | z | s]; cbn [Wan.usable_url]; try discriminate.
  destruct (truthy (VStr s)); cbn [andb]; [| discriminate].
  destruct (PyStr.startswith s "http") eqn:Hs; [| discriminate].
  intros [= <-]. auto.
Qed.

Lemma usable_url_none (v : scalar) (u' : string) :
  Wan.usable_url v = None -> v = VStr u' -> PyStr.startswith u' "http" = false.
Proof.
  intros Hnone ->. cbn [Wan.usable_url] in Hnone.
  destruct (PyStr.startswith u' "http") eqn:Hs; [| reflexivity].
  destruct u' as [| c t]; [discriminate Hs |]. cbn in Hnone. discriminate Hnone.
Qed.

Lemma usable_url_http (v : scalar) :
  match Wan.usable_url v with
  | Some url => http_text v url
  | None => no_http_text v
  end.
Proof.
  destruct (Wan.usable_url v) as [url |] eqn:Hu.
  - now apply usable_url_some.
  - intros url [Hv Hs]. now rewrite (usable_url_none v url Hu Hv) in Hs.
Qed.

(** What the loop over the three fields finds on a record. *)
Lemma first_url_fields (d : dict) :
  match Wan.first_url Wan.url_fields d with
  | Some (_, url) => first_http_url d url
  | None => no_http_url d
  end.
Proof.
  unfold Wan.url_fields, first_http_url, no_http_url. cbn [Wan.first_url].
  pose proof (usable_url_http (get_none "original_video" d)) as H1.
  pose proof (usable_url_http (get_none "video" d)) as H2.
  pose proof (usable_url_http (get_none "thumbnail" d)) as H3.
  destruct (Wan.usable_url (get_none "original_video" d)); [now left |].
  destruct (Wan.usable_url (get_none "video" d)); [right; left; now split |].
  destruct (Wan.usable_url (get_none "thumbnail" d)); [right; right; now split | now split].
Qed.

Section ResolveUrl.
Context {R : Type} (client : Client R).

Lemma resolve_attempt_spec (u : scalar) (attempt : nat) (w : world R) :
  exists r evs w',
    Wan.resolve_attempt client u attempt w = (Ok r, w')
    /\ trace w' = trace w ++ evs
    /\ match r with
       | Some url =>
           schedule evs = [inl u]
           /\ exists d, answered evs u d /\ first_http_url d url
                        /\ forall d', answered evs u d' -> d' = d
       | None =>
           schedule evs
           = inl u :: (if (attempt <? Wan.max_retries - 1)%nat then [inr (1 # 2)%Q] else [])
           /\ forall d, answered evs u d -> no_http_url d
       end.
Proof.
  unfold Wan.resolve_attempt, as_dict. unfold_monad. run;
    eexists _, _, _; (split; [reflexivity |]); (split; [trace_eq |]);
    (split; [reflexivity |]); unfold answered, seen.
  all: try solve [eexists; split; [left; reflexivity |]; split;
            [ match goal with H : Wan.first_url Wan.url_fields ?d = Some _ |- _ =>
                let Hf := fresh "Hf" in
                pose proof (first_url_fields d) as Hf; rewrite H in Hf; exact Hf end
            | intros d' Hin; cbn [app In] in Hin;
              repeat (destruct Hin as [Hin | Hin]; [try discriminate Hin |]);
              try contradiction; now injection Hin as <- ]].
  all: intros d' Hin; cbn [app In] in Hin;
    repeat (destruct Hin as [Hin | Hin]; [try discriminate Hin |]);
    try contradiction; injection Hin as <-;
    match goal with H : Wan.first_url Wan.url_fields ?d = None |- _ =>
      let Hf := fresh "Hf" in
      pose proof (first_url_fields d) as Hf; rewrite H in Hf; exact Hf end.
Qed.

(** The attempts numbered [a], [a+1], ... up to the last one, number 9. *)
Lemma resolve_url_spec (u : scalar) (n : nat) :
  forall (a : nat) (w : world R),
    (a + n = Wan.max_retries)%nat ->
    exists r evs k w',
      Wan.resolve_url client u (seq a n) w = (Ok r, w')
      /\ trace w' = trace w ++ evs
      /\ schedule evs = attempts u k
      /\ (k <= n)%nat /\ (1 <= n -> 1 <= k)%nat
      /\ match r with
         | Some url =>
             exists d, answered evs u d /\ first_http_url d url
                       /\ forall d', answered evs u d' -> d' = d \/ no_http_url d'
         | None => k = n /\ forall d, answered evs u d -> no_http_url d
         end.
Proof.
  induction n as [| n IH]; intros a w Han.
  - exists None, [], 0%nat, w. cbn [seq Wan.resolve_url]. unfold ret.
    split; [reflexivity |]. split; [now rewrite app_nil_r |]. split; [reflexivity |].
    split; [lia |]. split; [lia |]. split; [reflexivity |]. intros d [].
  - cbn [seq Wan.resolve_url]. unfold bind.
    destruct (resolve_attempt_spec u a w) as (r1 & evs1 & w1 & -> & Ht1 & Hr1).
    destruct r1 as [url |].
    + destruct Hr1 as (Hs1 & d & Hd & Hurl & Hone).
      exists (Some url), evs1, 1%nat, w1. unfold ret.
      split; [reflexivity |]. split; [exact Ht1 |]. split; [exact Hs1 |].
      split; [lia |]. split; [lia |]. exists d. split; [exact Hd |].
      split; [exact Hurl |]. intros d' Hd'. left. now apply Hone.
    + destruct Hr1 as (Hs1 & Hnone1).
      destruct (IH (S a) w1) as (r & evs2 & k & w2 & -> & Ht2 & Hs2 & Hk & Hk1 & Hr);
        [lia |].
      exists r, (evs1 ++ evs2), (S k), w2.
      split; [reflexivity |]. split; [now rewrite Ht2, Ht1, app_assoc |].
      split; [| split; [lia | split; [lia |]]].
      * rewrite schedule_app, Hs1, Hs2. unfold Wan.max_retries in *.
        destruct n as [| n].
        { assert (a = 9)%nat by lia. subst a.
          assert (k = 0)%nat by lia. subst k. reflexivity. }
        { destruct (Nat.ltb_spec a (10 - 1)) as [_ | Hge]; [| lia].
          destruct k as [| k]; [lia |]. reflexivity. }
      * destruct r as [url |].
        { destruct Hr as (d & Hd & Hurl & Hrest). exists d.
          split; [unfold answered in *; apply in_or_app; now right |].
          split; [exact Hurl |]. intros d' Hd'. unfold answered in Hd'.
          apply in_app_or in Hd' as [Hd' | Hd']; [right; now apply Hnone1 | now apply Hrest]. }
        { destruct Hr as (-> & Hnone2). split; [reflexivity |].
          intros d Hd. unfold answered in Hd. apply in_app_or in Hd as [Hd | Hd]; auto. }
Qed.

End ResolveUrl.

(** C8. After an upload that returned an id, the pipeline asks for the
    uploaded item at most 10 times, with a pause of half a second between
    one attempt and the next and none after the last. It stops at the first
    answer in which "original_video", or else "video", or else "thumbnail"
    holds a string that starts with "http", and uses that string. When all
    10 attempts yield no such URL it uses the raw id of the uploaded item
    and prints a warning. Either way the upload step returns normally. *)
Theorem C8_upload_url_resolution {R : Type} (client : Client R)
  (image_path : Wan.Path) (w : world R) (uploaded_dream : dict)
  (dream_uuid : scalar) (dt : Q) (r1 : R) :
  upload_file client (Wan.path_str image_path) (remote w)
  = (Returns uploaded_dream, dt, r1) ->
  get "uuid" uploaded_dream = Some dream_uuid ->
  exists source evs k w',
    Wan.upload_image client image_path w = (Ok source, w')
    /\ trace w'
       = trace w
         ++ [Called (UploadFile (Wan.path_str image_path))
                    (Returns (GotObject uploaded_dream));
             Stdout ("  Uploaded as dream: " +:+ str dream_uuid)]
         ++ evs
    /\ schedule evs = attempts dream_uuid k
    /\ (1 <= k <= 10)%nat
    /\ ((exists url d,
            source = VStr url
            /\ answered evs dream_uuid d
            /\ first_http_url d url
            /\ forall d', answered evs dream_uuid d' -> d' = d \/ no_http_url d')
        \/ (k = 10%nat
            /\ source = dream_uuid
            /\ (forall d, answered evs dream_uuid d -> no_http_url d)
            /\ In (Stdout ("  Warning: No presigned URL after 10 attempts. "
                             +:+ "Using UUID (may fail)."))
                  evs)).
Proof.
  intros Hupload Huuid.
  unfold Wan.upload_image, index. unfold_monad. reduce.
  rewrite Hupload. reduce. rewrite Huuid. reduce.
  match goal with
  | |- context [Wan.resolve_url client ?u ?l ?w0] =>
      destruct (resolve_url_spec client u Wan.max_retries 0%nat w0 eq_refl)
        as (r & evs & k & w1 & Hrun & Ht & Hs & Hk & Hk1 & Hr)
  end.
  change Wan.max_retries with 10%nat in *.
  rewrite Hrun. cbn [trace] in Ht. destruct r as [url |]; reduce.
  - destruct Hr as (d & Hd & Hurl & Hrest).
    exists (VStr url), evs, k, w1. split; [reflexivity |].
    split; [rewrite Ht, <- !app_assoc; reflexivity |].
    split; [exact Hs |]. split; [lia |].
    left. exists url, d. auto.
  - destruct Hr as (-> & Hnone).
    eexists dream_uuid, (evs ++ [Stdout _]), 10%nat, _.
    split; [reflexivity |]. cbn [trace].
    split; [rewrite Ht, <- !app_assoc; reflexivity |].
    split; [rewrite schedule_app, Hs; cbn [schedule flat_map app]; now rewrite app_nil_r |].
    split; [lia |].
    right. split; [reflexivity |]. split; [reflexivity |]. split.
    + intros d Hd. unfold answered in Hd. apply in_app_or in Hd as [Hd | [Hd | []]];
        [now apply Hnone | discriminate Hd].
    + apply in_or_app. right. left. reflexivity.
Qed.

(** An upload to a service that gives the image a thumbnail and a video
    URL. *)
Lemma C8_upload_witness :
  exists source evs k w',
    Wan.upload_image Service.client sunset (Service.boot media_service) = (Ok source, w')
    /\ trace w'
       = trace (Service.boot media_service)
         ++ [Called (UploadFile (Wan.path_str sunset))
                    (Returns (GotObject
                                [("uuid", VStr "upload-0");
                                 ("name", VStr "/data/in/sunset.png");
                                 ("status", VStr "processed");
                                 ("thumbnail", VStr "https://cdn.example/thumb.png");
                                 ("video", VStr "https://cdn.example/clip.mp4")]));
             Stdout ("  Uploaded as dream: " +:+ str (VStr "upload-0"))]
         ++ evs
    /\ schedule evs = attempts (VStr "upload-0") k
    /\ (1 <= k <= 10)%nat
    /\ ((exists url d,
            source = VStr url
            /\ answered evs (VStr "upload-0") d
            /\ first_http_url d url
            /\ forall d', answered evs (VStr "upload-0") d' -> d' = d \/ no_http_url d')
        \/ (k = 10%nat
            /\ source = VStr "upload-0"
            /\ (forall d, answered evs (VStr "upload-0") d -> no_http_url d)
            /\ In (Stdout ("  Warning: No presigned URL after 10 attempts. "
                             +:+ "Using UUID (may fail)."))
                  evs)).
Proof.
  apply (C8_upload_url_resolution Service.client sunset (Service.boot media_service)
           [("uuid", VStr "upload-0"); ("name", VStr "/data/in/sunset.png");
            ("status", VStr "processed");
            ("thumbnail", VStr "https://cdn.example/thumb.png");
            ("video", VStr "https://cdn.example/clip.mp4")]
           (VStr "upload-0") 0
           (Service.add_dream "upload-0"
              [("uuid", VStr "upload-0"); ("name", VStr "/data/in/sunset.png");
               ("status", VStr "processed");
               ("thumbnail", VStr "https://cdn.example/thumb.png");
               ("video", VStr "https://cdn.example/clip.mp4")]
              media_service)).
  - reflexivity.
  - reflexivity.
Defined.

(** On that service the first query settles it: the video URL is taken,
    before the thumbnail, and there is no pause. *)
Example upload_takes_the_video_before_the_thumbnail :
  fst (Wan.upload_image Service.client sunset (Service.boot media_service))
  = Ok (VStr "https://cdn.example/clip.mp4")
  /\ schedule (trace (snd (Wan.upload_image Service.client sunset
                             (Service.boot media_service))))
     = attempts (VStr "upload-0") 1
  /\ In (Stdout "  Got presigned URL from 'video'")
        (trace (snd (Wan.upload_image Service.client sunset (Service.boot media_service)))).
Proof.
  split; [vm_compute; reflexivity |]. split; [vm_compute; reflexivity |].
  vm_compute. auto 10.
Qed.

(** An upload to a service that gives the image no media URL: ten queries,
    nine pauses, and the raw id as the source. *)
Example upload_falls_back_to_uuid :
  fst (Wan.upload_image Service.client (Wan.mk_path "/data/in" "sunset.png")
                        (Service.boot (Service.empty [])))
  = Ok (VStr "upload-0")
  /\ schedule (trace (snd (Wan.upload_image Service.client
                             (Wan.mk_path "/data/in" "sunset.png")
                             (Service.boot (Service.empty [])))))
     = attempts (VStr "upload-0") 10.
Proof. split; vm_compute; reflexivity. Qed.

(** ** Failures while looking for work already done *)


Section DedupFailure.
Context {R : Type} (client : Client R).



End DedupFailure.


(** ** Attaching a created job to the playlist *)

Section Attachment.
Context {R : Type} (client : Client R).

Lemma update_dream_description_returns (u : scalar) (marker : string) (w : world R) :
  exists b w', Uprez.update_dream_description client u marker w = (Ok b, w').
Proof.
  unfold Uprez.update_dream_description, Uprez.lower_of. unfold_monad.
  run; eexists _, _; reflexivity.
Qed.

(** In the uprez batch a job that was created is kept in [active_jobs]
    whatever becomes of the call that attaches it to the output playlist. *)
Lemma uprez_created_job_is_kept (cfg : Uprez.config) (output_playlist_uuid : scalar)
  (total idx : nat) (active_jobs : list scalar) (fields new_dream algo_params : dict)
  (playlist_item_id : option value) (uuid : scalar) (dt : Q) (r1 : R) (w : world R) :
  Uprez.algo_params (Uprez.uprez_config cfg) (get_none "uuid" fields)
  = Returns algo_params ->
  create_dream_from_prompt client
    (mk_request (str (if truthy (get_none "name" fields)
                      then get_none "name" fields else VStr "Untitled") +:+ " (Uprez)")
                ("Uprez of " +:+ str (get_none "uuid" fields))
                algo_params)
    (remote w) = (Returns new_dream, dt, r1) ->
  get "uuid" new_dream = Some uuid ->
  exists w',
    Uprez.submit_one client cfg output_playlist_uuid total idx active_jobs
      (Uprez.mk_entry (Obj fields) playlist_item_id) w
    = (Ok (active_jobs ++ [uuid]), w').
Proof.
  intros Hparams Hcreate Huuid.
  unfold Uprez.submit_one, Uprez.entry_get, index. cbn [Uprez.dream].
  unfold_monad. reduce. rewrite Hparams. reduce.
  rewrite Hcreate. reduce. rewrite Huuid. reduce.
  destruct (add_item_to_playlist client output_playlist_uuid uuid r1)
    as [[[[] | e] dt2] r2]; reduce.
  - match goal with
    | |- context [Uprez.update_dream_description client ?u ?m ?w0] =>
        destruct (update_dream_description_returns u m w0) as (b & w1 & ->)
    end. eexists. reflexivity.
  - match goal with
    | |- context [Uprez.update_dream_description client ?u ?m ?w0] =>
        destruct (update_dream_description_returns u m w0) as (b & w1 & ->)
    end. eexists. reflexivity.
Qed.

End Attachment.

(** C9, on the wan-i2v batch. One image and one combo, on a service that
    creates the job and then fails the call that adds it to the playlist
    (its fourth call, after the upload, the status query and the creation):
    the job exists on the service, yet the script counts the unit as failed
    and its id is not among the ids to poll. *)
Theorem C9_wan_attachment_failure_drops_job :
  exists st w',
    Wan.process_images Service.client plain_job [""] ∅ (VStr "playlist-0") 1
      Wan.tally0 [sunset] (Service.boot (failing_at 3)) = (Ok st, w')
    /\ get "dream-1" (Service.dreams (remote w'))
       = Some [("uuid", VStr "dream-1"); ("name", VStr "sunset_combo-1");
               ("description",
                VStr "Batch generation. BATCH_IDENTIFIER:sunset.png:d41d8cd9");
               ("status", VStr "queue")]
    /\ In (Called (AddItemToPlaylist (VStr "playlist-0") (VStr "dream-1"))
                  (Raises (RemoteError "service unavailable")))
          (trace w')
    /\ In (Stdout "  -> Failed to start job: service unavailable") (trace w')
    /\ Wan.active_dreams st = []
    /\ Wan.failed_count st = 1%nat.
Proof.
  eexists _, _. split; [vm_compute; reflexivity |].
  split; [reflexivity |]. split; [| split; [| split; reflexivity]].
  - cbn [trace In]. repeat (first [left; reflexivity | right]).
  - cbn [trace In]. repeat (first [left; reflexivity | right]).
Qed.

(** ** Listing a playlist page by page *)

Lemma page_dreams_app (l1 l2 : list item) :
  Uprez.page_dreams (l1 ++ l2) = Uprez.page_dreams l1 ++ Uprez.page_dreams l2.
Proof. unfold Uprez.page_dreams. apply flat_map_app. Qed.

Lemma page_dreams_length (l : list item) :
  (length (Uprez.page_dreams l) <= length l)%nat.
Proof.
  induction l as [| it rest IH]; [reflexivity |].
  change (it :: rest) with ([it] ++ rest). rewrite page_dreams_app, length_app.
  assert (length (Uprez.page_dreams [it]) <= 1)%nat.
  { unfold Uprez.page_dreams. cbn [flat_map]. rewrite app_nil_r.
    repeat case_step; cbn [length]; lia. }
  cbn [length app]. lia.
Qed.

(** Without a fault to come, the service answers a listing call with the
    page asked for and the number of items it holds. *)
Lemma service_get_playlist_items (s : Service.state) (u : string)
  (members : list Service.member) (k skip : nat) :
  Service.faults s = [] ->
  get u (Service.playlists s) = Some members ->
  get_playlist_items Service.client (VStr u) k skip s
  = (Returns (mk_response
                (Some (firstn k (skipn skip (Service.items_of s members))))
                (Some (VInt (Z.of_nat (length (Service.items_of s members)))))),
     Service.latency s, s).
Proof.
  destruct s as [ds pls next fs lat up]. cbn [Service.faults Service.playlists].
  intros -> Hpl.
  unfold get_playlist_items, Service.client, Service.serve, Service.find_playlist.
  cbn [Service.faults tl Service.dreams Service.playlists Service.next_id
       Service.latency Service.upload_fields].
  rewrite Hpl. reflexivity.
Defined.

Lemma pages_concat (k : nat) (all : list item) (q : nat) :
  concat (map (page_of k all) (seq 0 q)) = firstn (q * k) all.
Proof.
  induction q as [| q IH]; [reflexivity |].
  rewrite seq_S, map_app, concat_app, IH. cbn [map concat Nat.add].
  rewrite app_nil_r. unfold page_of.
  rewrite take_take_drop. f_equal. lia.
Qed.

Section HonestListing.
Variable s : Service.state.
Variable u : string.
Variable members : list Service.member.
Variable k : nat.
Hypothesis no_fault : Service.faults s = [].
Hypothesis held : get u (Service.playlists s) = Some members.
Hypothesis k_pos : (0 < k)%nat.

Let all := Service.items_of s members.
Let N := length all.

(** The loop from page [j] on, when the pages before it were read. *)
Lemma fetch_from_page (fuel : nat) :
  forall (j : nat) (w : world Service.state),
    remote w = s ->
    (N + 2 * k <= (fuel + j) * k)%nat ->
    (j = 0%nat
     \/ ((j * k <= N)%nat
         /\ (length (Uprez.page_dreams (firstn (j * k) all)) < N)%nat)) ->
    exists q w',
      Uprez.fetch_pages Service.client fuel (VStr u) k (j * k)
        (Uprez.page_dreams (firstn (j * k) all)) w
      = (Ok (Some (Uprez.page_dreams all)), w')
      /\ remote w' = s
      /\ trace w' = trace w ++ map (listing_call u k all) (seq j q)
      /\ (1 <= q)%nat
      /\ (N <= (j + q) * k)%nat
      /\ ((((j + q - 1) * k < N)%nat
           /\ ((N < (j + q) * k)%nat \/ length (Uprez.page_dreams all) = N))
          \/ (((j + q - 1) * k = N)%nat
              /\ (N = 0%nat \/ (length (Uprez.page_dreams all) < N)%nat))).
Proof.
  induction fuel as [| fuel IH]; intros j w Hw Hfuel Hpre.
  - exfalso. cbn [Nat.add] in Hfuel. destruct Hpre as [-> | [Hj _]]; nia.
  - cbn [Uprez.fetch_pages]. unfold_monad. reduce.
    rewrite Hw, (service_get_playlist_items s u members k (j * k) no_fault held).
    fold all. fold N. reduce. cbn [items totalCount].
    assert (Hlen : length (firstn k (skipn (j * k) all)) = Nat.min k (N - j * k)).
    { rewrite length_take, length_drop. reflexivity. }
    assert (Hnext : Uprez.page_dreams (firstn (j * k) all)
                      ++ Uprez.page_dreams (firstn k (skipn (j * k) all))
                    = Uprez.page_dreams (firstn (j * k + k) all)).
    { rewrite <- page_dreams_app. now rewrite take_take_drop. }
    assert (Hcall : listing_call u k all j
                    = Called (GetPlaylistItems (VStr u) k (j * k))
                        (Returns (GotPage
                           (mk_response (Some (firstn k (skipn (j * k) all)))
                                        (Some (VInt (Z.of_nat N))))))) by reflexivity.
    remember (firstn k (skipn (j * k) all)) as page eqn:Hpage.
    destruct page as [| it rest].
    + (* an empty page: every item was read *)
      cbn [length] in Hlen. assert (Hall : (N <= j * k)%nat) by lia.
      assert (Hfull : firstn (j * k) all = all) by (apply take_ge; exact Hall).
      reduce. exists 1%nat. eexists. rewrite Hfull in *.
      split; [reflexivity |]. cbn [remote trace]. split; [reflexivity |].
      split; [cbn [seq map]; rewrite Hcall; reflexivity |].
      split; [lia |]. split; [lia |]. right.
      replace (j + 1 - 1)%nat with j by lia.
      destruct Hpre as [-> | [Hj Hd]]; [split; [lia | left; lia] |].
      split; [lia | right; exact Hd].
    + assert (Hbelow : (j * k < N)%nat) by (cbn [length] in Hlen; lia).
      reduce. rewrite Hnext.
      unfold Uprez.reached. cbn [as_int]. reduce.
      pose proof (page_dreams_length (firstn (j * k + k) all)) as Hdl.
      rewrite length_take in Hdl. fold N in Hdl.
      destruct (Z.leb_spec (Z.of_nat N)
                  (Z.of_nat (length (Uprez.page_dreams (firstn (j * k + k) all)))))
        as [Henough | Hshort]; cbn [orb negb].
      * (* the running total reached totalCount *)
        assert (HN : (N <= j * k + k)%nat) by lia.
        assert (Hfull : firstn (j * k + k) all = all) by (apply take_ge; fold N; lia).
        rewrite Hfull in *. reduce. exists 1%nat. eexists.
        split; [reflexivity |]. cbn [remote trace]. split; [reflexivity |].
        split; [cbn [seq map]; rewrite Hcall; reflexivity |].
        split; [lia |]. split; [lia |]. left.
        replace (j + 1 - 1)%nat with j by lia. split; [lia |].
        pose proof (page_dreams_length all) as Hda. fold N in Hda. lia.
      * destruct (Nat.ltb_spec (length (it :: rest)) k) as [Hpart | Hwhole]; cbn [negb].
        { (* a short page: the last one *)
          assert (Hfull : firstn (j * k + k) all = all) by (apply take_ge; fold N; lia).
          rewrite Hfull in *. reduce. exists 1%nat. eexists.
          split; [reflexivity |]. cbn [remote trace]. split; [reflexivity |].
          split; [cbn [seq map]; rewrite Hcall; reflexivity |].
          split; [lia |]. split; [lia |]. left.
          replace (j + 1 - 1)%nat with j by lia. split; [lia |]. left. lia. }
        { (* a whole page and more to read *)
          reduce. replace (j * k + k)%nat with (S j * k)%nat in * by lia.
          match goal with
          | |- context [Uprez.fetch_pages _ fuel _ k _ _ ?w0] =>
              destruct (IH (S j) w0) as (q & w' & Hrun & Hrem & Htrace & Hq & HN & Hstop)
          end.
          - reflexivity.
          - lia.
          - right. split; lia.
          - exists (S q), w'. split; [exact Hrun |]. split; [exact Hrem |].
            split.
            { rewrite Htrace. cbn [trace seq map]. rewrite <- app_assoc, Hcall.
              reflexivity. }
            split; [lia |]. split; [lia |].
            replace (j + S q - 1)%nat with (S j + q - 1)%nat by lia.
            replace (j + S q)%nat with (S j + q)%nat by lia. exact Hstop. }
Qed.

End HonestListing.

Lemma ceil_div_unique (n k q : nat) :
  (0 < k)%nat -> ((q - 1) * k < n)%nat -> (n <= q * k)%nat -> ceil_div n k = q.
Proof.
  intros Hk Hlo Hhi. unfold ceil_div. symmetry.
  apply Nat.div_unique with (r := (n + k - 1 - k * q)%nat); nia.
Qed.

Lemma listing_calls_app (evs1 evs2 : list event) :
  listing_calls (evs1 ++ evs2) = (listing_calls evs1 + listing_calls evs2)%nat.
Proof. unfold listing_calls. now rewrite List.filter_app, length_app. Qed.

Lemma listing_calls_pages (u : string) (k : nat) (all : list item) (js : list nat) :
  listing_calls (map (listing_call u k all) js) = length js.
Proof.
  induction js as [| j js IH]; [reflexivity |].
  unfold listing_calls in *. cbn [map List.filter listing_call length]. now rewrite IH.
Qed.

(** C3, as the code has it. Against a service that holds [N > 0] items in the
    playlist and answers every listing call with the page asked for and with
    totalCount = N, the listing loop with page size [k] ends (given fuel for
    N/k + 2 rounds) after [q] calls, at offsets 0, k, 2k, ...; the pages it
    was given are, one after the other, all N items, each once; and [q] is
    ceil(N/k), or one more when k divides N and some item is not a dream (the
    running total, which counts dreams only, then never reaches totalCount,
    and the loop stops at the empty page that follows). *)
Theorem C3_pages_cover_all_items (s : Service.state) (u : string)
  (members : list Service.member) (k fuel : nat) (w : world Service.state) :
  Service.faults s = [] ->
  get u (Service.playlists s) = Some members ->
  remote w = s ->
  (0 < k)%nat ->
  (0 < length members)%nat ->
  (length members + 2 * k <= fuel * k)%nat ->
  exists q w',
    Uprez.fetch_pages Service.client fuel (VStr u) k 0 [] w
    = (Ok (Some (Uprez.page_dreams (Service.items_of s members))), w')
    /\ trace w' = trace w ++ map (listing_call u k (Service.items_of s members)) (seq 0 q)
    /\ listing_calls (trace w') = (listing_calls (trace w) + q)%nat
    /\ concat (map (page_of k (Service.items_of s members)) (seq 0 q))
       = Service.items_of s members
    /\ q = (ceil_div (length members) k
            + (if (length members mod k =? 0)%nat
                  && (length (Uprez.page_dreams (Service.items_of s members))
                      <? length members)%nat
               then 1 else 0))%nat.
Proof.
  intros Hfaults Hheld Hw Hk HN Hfuel.
  assert (Hlen : length (Service.items_of s members) = length members)
    by (unfold Service.items_of; apply length_imap).
  destruct (fetch_from_page s u members k Hfaults Hheld Hk fuel 0%nat w Hw)
    as (q & w' & Hrun & _ & Htrace & Hq & Hcover & Hstop).
  { rewrite Hlen. lia. }
  { now left. }
  rewrite Hlen in *. cbn [Nat.mul Nat.add firstn Uprez.page_dreams flat_map] in Hrun.
  exists q, w'. split; [exact Hrun |]. split; [exact Htrace |].
  split; [now rewrite Htrace, listing_calls_app, listing_calls_pages, length_seq |].
  split; [rewrite pages_concat; apply take_ge; rewrite Hlen; exact Hcover |].
  cbn [Nat.add] in Hstop, Hcover.
  destruct Hstop as [[Hlo Hmore] | [Hexact Hsome]].
  - rewrite (ceil_div_unique (length members) k q Hk Hlo Hcover).
    destruct Hmore as [Hshort | Hdreams].
    + destruct (Nat.eqb_spec (length members mod k) 0) as [Hmod | _]; cbn [andb]; [| lia].
      exfalso. apply Nat.Div0.mod_divides in Hmod as [c Hc].
      destruct q as [| q']; [lia |]. replace (S q' - 1)%nat with q' in Hlo by lia.
      assert (Hc' : (c <= q' \/ S q' <= c)%nat) by lia.
      destruct Hc' as [Hc' | Hc']; nia.
    + rewrite Hdreams, Nat.ltb_irrefl, andb_false_r. lia.
  - destruct Hsome as [Hzero | Hless]; [lia |].
    destruct q as [| [| q']]; [lia | lia |].
    replace (S (S q') - 1)%nat with (S q') in * by lia.
    assert (Hceil : ceil_div (length members) k = S q').
    { apply ceil_div_unique; [exact Hk | | lia].
      replace (S q' - 1)%nat with q' by lia. nia. }
    rewrite Hceil, <- Hexact, Nat.Div0.mod_mul, Nat.eqb_refl.
    rewrite Hexact. destruct (Nat.ltb_spec (length (Uprez.page_dreams
                                              (Service.items_of s members)))
                                           (length members)); cbn [andb]; lia.
Qed.

(** Two dreams and one other item, read two at a time: two calls. *)
Lemma C3_pages_witness :
  exists q w',
    Uprez.fetch_pages Service.client 4 (VStr "playlist-0") 2 0 []
      (Service.boot (mixed_service 2))
    = (Ok (Some (Uprez.page_dreams
                   (Service.items_of (mixed_service 2)
                      [Service.DreamRef "dream-0"; Service.DreamRef "dream-1";
                       Service.Other [("id", Sc (VInt 2)); ("type", Sc (VStr "playlist"))]]))),
       w')
    /\ trace w'
       = trace (Service.boot (mixed_service 2))
         ++ map (listing_call "playlist-0" 2
                   (Service.items_of (mixed_service 2)
                      [Service.DreamRef "dream-0"; Service.DreamRef "dream-1";
                       Service.Other [("id", Sc (VInt 2)); ("type", Sc (VStr "playlist"))]]))
                (seq 0 q)
    /\ listing_calls (trace w')
       = (listing_calls (trace (Service.boot (mixed_service 2))) + q)%nat
    /\ concat (map (page_of 2
                      (Service.items_of (mixed_service 2)
                         [Service.DreamRef "dream-0"; Service.DreamRef "dream-1";
                          Service.Other [("id", Sc (VInt 2)); ("type", Sc (VStr "playlist"))]]))
                   (seq 0 q))
       = Service.items_of (mixed_service 2)
           [Service.DreamRef "dream-0"; Service.DreamRef "dream-1";
            Service.Other [("id", Sc (VInt 2)); ("type", Sc (VStr "playlist"))]]
    /\ q = (ceil_div 3 2
            + (if (3 mod 2 =? 0)%nat
                  && (length (Uprez.page_dreams
                                (Service.items_of (mixed_service 2)
                                   [Service.DreamRef "dream-0"; Service.DreamRef "dream-1";
                                    Service.Other [("id", Sc (VInt 2));
                                                   ("type", Sc (VStr "playlist"))]]))
                      <? 3)%nat
               then 1 else 0))%nat.
Proof.
  apply (C3_pages_cover_all_items (mixed_service 2) "playlist-0"
           [Service.DreamRef "dream-0"; Service.DreamRef "dream-1";
            Service.Other [("id", Sc (VInt 2)); ("type", Sc (VStr "playlist"))]]
           2 4 (Service.boot (mixed_service 2))).
  - reflexivity.
  - reflexivity.
  - reflexivity.
  - lia.
  - cbn [length]. lia.
  - cbn [length]. lia.
Defined.

(** A playlist of 199 dreams and one item that is no dream, read with the
    script's page size of 100: N = 200 and k = 100 < N, yet the listing call
    is made three times, not ceil(200/100) = 2 times. *)
Lemma C3_pages_counterexample :
  length (Service.items_of (mixed_service 199)
            (map (fun i => Service.DreamRef (queued_id i)) (seq 0 199)
               ++ [Service.Other [("id", Sc (VInt 199)); ("type", Sc (VStr "playlist"))]]))
  = 200%nat
  /\ get "playlist-0" (Service.playlists (mixed_service 199))
     = Some (map (fun i => Service.DreamRef (queued_id i)) (seq 0 199)
               ++ [Service.Other [("id", Sc (VInt 199)); ("type", Sc (VStr "playlist"))]])
  /\ listing_calls
       (trace (snd (Uprez.get_all_playlist_dreams Service.client 5 (VStr "playlist-0")
                      (Service.boot (mixed_service 199)))))
     = 3%nat
  /\ ceil_div 200 100 = 2%nat
  /\ listing_calls
       (trace (snd (Uprez.get_all_playlist_dreams Service.client 5 (VStr "playlist-0")
                      (Service.boot (mixed_service 199)))))
     <> ceil_div 200 100.
Proof.
  do 4 (split; [vm_compute; reflexivity |]). vm_compute. discriminate.
Qed.

(** ** Marking a dream as processed *)

Lemma append_empty (b : string) : "" +:+ b = b.
Proof. reflexivity. Qed.

Lemma append_String (c : ascii) (a b : string) : String c a +:+ b = String c (a +:+ b).
Proof. reflexivity. Qed.





Lemma startswith_empty (s : string) : PyStr.startswith s "" = true.
Proof. destruct s; reflexivity. Qed.

Lemma contains_app_r (m a b : string) :
  PyStr.contains m b = true -> PyStr.contains m (a +:+ b) = true.
Proof.
  intros Hb. induction a as [| c a IH]; [exact Hb |].
  rewrite append_String. cbn [PyStr.contains]. rewrite IH. apply orb_true_r.
Qed.








(** A word without a space starts at a place before a space only if it ends
    before that space. *)
Lemma startswith_before_space (m x y : string) :
  no_space m = true ->
  m <> "" ->
  PyStr.startswith (x +:+ " " +:+ y) m = PyStr.startswith x m.
Proof.
  revert m. induction x as [| c x IH]; intros m Hm Hne.
  - destruct m as [| a m]; [congruence |].
    cbn [no_space] in Hm. apply andb_true_iff in Hm as [Ha _].
    rewrite append_empty, append_String. cbn [PyStr.startswith].
    apply negb_true_iff in Ha. now rewrite Ha.
  - destruct m as [| a m]; [congruence |].
    rewrite append_String. cbn [PyStr.startswith].
    destruct (Ascii.eqb a c); [| reflexivity].
    destruct m as [| a' m'].
    + now rewrite !startswith_empty.
    + cbn [no_space] in Hm. apply andb_true_iff in Hm as [_ Hm].
      apply IH; [exact Hm | discriminate].
Qed.




Lemma or_empty_string (s : string) : Uprez.or_empty (VStr s) = VStr s.
Proof.
  unfold Uprez.or_empty. cbn [truthy].
  destruct (String.eqb_spec s ""); [subst; reflexivity | reflexivity].
Qed.



Section MarkProcessed.
Context {R : Type} (client : Client R).


End MarkProcessed.








Example mark_twice_appends_once :
  Service.dreams
    (remote (snd (Uprez.update_dream_description Service.client (VStr "dream-0") "uprez"
                    (snd (Uprez.update_dream_description Service.client
                            (VStr "dream-0") "uprez"
                            (Service.boot
                               (Service.mk_state
                                  [("dream-0", [("uuid", VStr "dream-0");
                                                ("description", VStr "A river")])]
                                  [] 1 [] 0 [])))))))
  = [("dream-0", [("uuid", VStr "dream-0"); ("description", VStr "A river uprez")])].
Proof. vm_compute. reflexivity. Qed.

(** ** Recognising the jobs of an earlier run *)

(** C2, on a file name with a space in it. The first run creates one job,
    tagged "BATCH_IDENTIFIER:my photo.png:5d1dc086", and puts it into the
    playlist. The second run, against the service as the first one left it,
    reads the tag back as "my": the identifier of the unit is not in the
    index, nothing is skipped, and the same job is created once more. *)
Theorem C2_spaced_name_is_submitted_again :
  option_map Wan.active_dreams (tally_of (fst first_run)) = Some [VStr "dream-1"]
  /\ Service.playlists (remote (snd first_run))
     = [("playlist-0", [Service.DreamRef "dream-1"])]
  /\ get "dream-1" (Service.dreams (remote (snd first_run)))
     = Some [("uuid", VStr "dream-1"); ("name", VStr "my photo_combo-1");
             ("description",
              VStr "Batch generation. BATCH_IDENTIFIER:my photo.png:5d1dc086");
             ("status", VStr "queue")]
  /\ Wan.create_job_identifier photo "zoom in" = "my photo.png:5d1dc086"
  /\ match fst (Wan.get_existing_dream_identifiers Service.client (VStr "playlist-0")
                  (Service.boot (remote (snd first_run)))) with
     | Ok index => elements index
     | _ => []
     end = ["my"]
  /\ option_map Wan.skipped_count (tally_of (fst second_run)) = Some 0%nat
  /\ option_map Wan.active_dreams (tally_of (fst second_run)) = Some [VStr "dream-3"]
  /\ creations (trace (snd second_run)) = 1%nat.
Proof.
  do 7 (split; [vm_compute; reflexivity |]). vm_compute. reflexivity.
Qed.

(** *** Tags that are read back *)

Lemma append_empty_r (s : string) : s +:+ "" = s.
Proof.
  induction s as [| c s IH]; [reflexivity |]. now rewrite append_String, IH.
Qed.

Lemma append_assoc (a b c : string) : (a +:+ b) +:+ c = a +:+ (b +:+ c).
Proof.
  induction a as [| x a IH]; [reflexivity |]. now rewrite !append_String, IH.
Qed.

Lemma string_of_list_app (l1 l2 : list ascii) :
  string_of_list_ascii (l1 ++ l2) = string_of_list_ascii l1 +:+ string_of_list_ascii l2.
Proof.
  induction l1 as [| c l1 IH]; [reflexivity |].
  cbn [app string_of_list_ascii]. now rewrite append_String, IH.
Qed.

Lemma rev_string_cons (c : ascii) (cur : list ascii) :
  PyStr.rev_string (c :: cur) = PyStr.rev_string cur +:+ String c "".
Proof. unfold PyStr.rev_string. cbn [rev]. apply string_of_list_app. Qed.

Lemma rev_string_rev (s : string) (cur : list ascii) :
  PyStr.rev_string (rev (list_ascii_of_string s) ++ cur) = PyStr.rev_string cur +:+ s.
Proof.
  unfold PyStr.rev_string. rewrite rev_app_distr, rev_involutive, string_of_list_app.
  now rewrite string_of_list_ascii_of_string.
Qed.

Lemma contains_startswith (m hay : string) :
  PyStr.contains m hay = false -> PyStr.startswith hay m = false.
Proof.
  destruct hay; cbn [PyStr.contains]; intros H; now apply orb_false_iff in H as [H _].
Qed.

Lemma contains_tail (m : string) (c : ascii) (t : string) :
  PyStr.contains m (String c t) = false -> PyStr.contains m t = false.
Proof. cbn [PyStr.contains]. intros H. now apply orb_false_iff in H as [_ H]. Qed.

Lemma startswith_app (m r : string) : PyStr.startswith (m +:+ r) m = true.
Proof.
  induction m as [| c m IH]; [apply startswith_empty |].
  rewrite append_String. cbn [PyStr.startswith]. now rewrite Ascii.eqb_refl.
Qed.

Lemma contains_of_startswith (m hay : string) :
  PyStr.startswith hay m = true -> PyStr.contains m hay = true.
Proof. intros H. destruct hay; cbn [PyStr.contains]; now rewrite H. Qed.

(** The first piece of a split starts with what was read so far. *)
Lemma split_from_first (sep s : string) :
  forall cur : list ascii,
  exists p more, PyStr.split_from sep 0 cur s = (PyStr.rev_string cur +:+ p) :: more.
Proof.
  induction s as [| c t IH]; intros cur; cbn [PyStr.split_from].
  - exists "", []. now rewrite append_empty_r.
  - destruct (PyStr.startswith (String c t) sep).
    + eexists "", _. now rewrite append_empty_r.
    + destruct (IH (c :: cur)) as (p & more & ->).
      exists (String c p), more. now rewrite rev_string_cons, append_assoc.
Qed.

(** A separator without a space does not start inside a word that does not
    hold it, nor at the space after the word. *)
Lemma split_from_word (sep word rest : string) :
  no_space sep = true ->
  sep <> "" ->
  forall cur : list ascii,
    PyStr.contains sep word = false ->
    PyStr.split_from sep 0 cur (word +:+ " " +:+ rest)
    = PyStr.split_from sep 0 (" "%char :: rev (list_ascii_of_string word) ++ cur) rest.
Proof.
  intros Hsep Hne. induction word as [| c word IH]; intros cur Hnot.
  - rewrite append_empty, append_String, append_empty. cbn [PyStr.split_from].
    destruct sep as [| a sep]; [congruence |].
    cbn [no_space] in Hsep. apply andb_true_iff in Hsep as [Ha _].
    apply negb_true_iff in Ha. cbn [PyStr.startswith]. now rewrite Ha.
  - rewrite append_String. cbn [PyStr.split_from]. rewrite <- append_String.
    rewrite (startswith_before_space sep (String c word) rest Hsep Hne).
    rewrite (contains_startswith _ _ Hnot).
    rewrite IH by (eapply contains_tail; exact Hnot).
    cbn [list_ascii_of_string rev]. now rewrite <- app_assoc.
Qed.

(** A word without white space, followed by a space, is the first token. *)
Lemma split_ws_word (word rest : string) :
  no_whitespace word = true ->
  forall cur : list ascii,
    rev (list_ascii_of_string word) ++ cur <> [] ->
    exists more,
      PyStr.split_ws_from cur (word +:+ " " +:+ rest)
      = PyStr.rev_string (rev (list_ascii_of_string word) ++ cur) :: more.
Proof.
  induction word as [| c word IH]; intros Hword cur Hne.
  - rewrite append_empty, append_String, append_empty. cbn [PyStr.split_ws_from].
    change (PyStr.isspace " ") with true. cbn [list_ascii_of_string rev app] in *.
    destruct cur; [congruence |]. eauto.
  - cbn [no_whitespace] in Hword. apply andb_true_iff in Hword as [Hc Hword].
    apply negb_true_iff in Hc.
    rewrite append_String. cbn [PyStr.split_ws_from]. rewrite Hc.
    destruct (IH Hword (c :: cur)) as (more & ->).
    { intros H. apply app_eq_nil in H as [_ H]. discriminate H. }
    exists more. cbn [list_ascii_of_string rev]. now rewrite <- app_assoc.
Qed.

(** A job tagged with an identifier that has no white space in it and does
    not hold the marker is recognised by its identifier, whatever its name. *)
Lemma tag_is_read_back (it : item) (dream_record : dict) (identifier name : string) :
  get "type" it = Some (Sc (VStr "dream")) ->
  get "dreamItem" it = Some (Obj dream_record) ->
  get_or "description" (VStr "") dream_record
  = VStr ("Batch generation. " +:+ batch_marker +:+ identifier) ->
  get_or "name" (VStr "") dream_record = VStr name ->
  identifier <> "" ->
  no_whitespace identifier = true ->
  PyStr.contains batch_marker identifier = false ->
  Wan.item_identifier it = Returns (Some identifier).
Proof.
  intros Htype Hitem Hdesc Hname Hne Hws Hnot.
  assert (Hnonempty : truthy_value (Some (Obj dream_record)) = true).
  { destruct dream_record; [discriminate Hdesc | reflexivity]. }
  unfold Wan.item_identifier. rewrite Htype, Hitem, Hnonempty, Hdesc, Hname.
  change (eq_str (VStr "dream") "dream") with true. cbn [andb str].
  fold batch_marker.
  assert (Htext : ("Batch generation. " +:+ batch_marker +:+ identifier) +:+ " " +:+ name
                  = "Batch generation. " +:+ batch_marker
                      +:+ (identifier +:+ " " +:+ name))
    by now rewrite !append_assoc.
  rewrite Htext.
  rewrite (contains_app_r batch_marker "Batch generation. " _)
    by apply contains_of_startswith, startswith_app.
  assert (Hsplit : forall rest,
             PyStr.split ("Batch generation. " +:+ batch_marker +:+ rest) batch_marker
             = "Batch generation. " :: PyStr.split_from batch_marker 0 [] rest)
    by (intros rest; reflexivity).
  rewrite Hsplit.
  rewrite (split_from_word batch_marker identifier name eq_refl) by (discriminate || exact Hnot).
  destruct (split_from_first batch_marker name
              (" "%char :: rev (list_ascii_of_string identifier) ++ []))
    as (p & more & ->).
  cbn [length Nat.ltb Nat.leb nth].
  rewrite rev_string_cons, app_nil_r.
  replace (PyStr.rev_string (rev (list_ascii_of_string identifier)))
    with identifier
    by (rewrite <- (app_nil_r (rev _)), rev_string_rev; reflexivity).
  rewrite append_assoc. unfold PyStr.split_ws.
  destruct (split_ws_word identifier (p) Hws []) as (tokens & Htok).
  { rewrite app_nil_r. destruct identifier; [congruence |].
    cbn [list_ascii_of_string rev]. intros H. apply app_eq_nil in H as [_ H].
    discriminate H. }
  change (String " " "" +:+ p) with (" " +:+ p). rewrite Htok.
  rewrite rev_string_rev. change (PyStr.rev_string []) with "". rewrite append_empty.
  destruct (String.eqb_spec identifier ""); [congruence | reflexivity].
Qed.

Example plain_name_is_read_back :
  Wan.item_identifier
    [("id", Sc (VInt 0)); ("type", Sc (VStr "dream"));
     ("dreamItem", Obj [("uuid", VStr "dream-1"); ("name", VStr "sunset_combo-1");
                        ("description",
                         VStr "Batch generation. BATCH_IDENTIFIER:sunset.png:5d1dc086")])]
  = Returns (Some "sunset.png:5d1dc086").
Proof. vm_compute. reflexivity. Qed.


(** A run of the uprez batch on two dreams, one of them marked already. *)
Example uprez_run :
  fst (Uprez.main Service.client 3
         (Uprez.mk_config (VStr "source") (Obj []) "uprez" VNone (Obj []))
         (Service.boot
            (Service.mk_state
               [("a", [("uuid", VStr "a"); ("name", VStr "River")]);
                ("b", [("uuid", VStr "b"); ("description", VStr "done: UPREZ")])]
               [("source", [Service.DreamRef "a"; Service.DreamRef "b"])]
               2 [] 0 [])))
  = Ok (Some [VStr "dream-3"])
  /\ Service.dreams
       (remote (snd (Uprez.main Service.client 3
                       (Uprez.mk_config (VStr "source") (Obj []) "uprez" VNone (Obj []))
                       (Service.boot
                          (Service.mk_state
                             [("a", [("uuid", VStr "a"); ("name", VStr "River")]);
                              ("b", [("uuid", VStr "b");
                                     ("description", VStr "done: UPREZ")])]
                             [("source", [Service.DreamRef "a"; Service.DreamRef "b"])]
                             2 [] 0 [])))))
     = [("a", [("uuid", VStr "a"); ("name", VStr "River"); ("description", VStr "uprez")]);
        ("b", [("uuid", VStr "b"); ("description", VStr "done: UPREZ")]);
        ("dream-3", [("uuid", VStr "dream-3"); ("name", VStr "River (Uprez)");
                     ("description", VStr "Uprez of a"); ("status", VStr "queue")])].
Proof. split; vm_compute; reflexivity. Qed.

(** ** Finding the images *)

Lemma string_leb_trans (a b c : string) :
  String.leb a b = true -> String.leb b c = true -> String.leb a c = true.
Proof.
  unfold String.leb. revert b c.
  induction a as [| x a IH]; intros [| y b] [| z c]; cbn [String.compare];
    try congruence.
  unfold Ascii.compare.
  destruct (N.compare_spec (N_of_ascii x) (N_of_ascii y)) as [Hxy | Hxy | Hxy];
    destruct (N.compare_spec (N_of_ascii y) (N_of_ascii z)) as [Hyz | Hyz | Hyz];
    destruct (N.compare_spec (N_of_ascii x) (N_of_ascii z)) as [Hxz | Hxz | Hxz];
    try congruence; try lia.
  apply IH.
Qed.

Lemma path_lt_false (p q : Wan.Path) : Wan.path_lt q p = false -> name_le p q.
Proof.
  unfold Wan.path_lt, name_le, String.ltb, String.leb.
  rewrite (String.compare_antisym (Wan.name q) (Wan.name p)).
  destruct (String.compare (Wan.name p) (Wan.name q)); cbn; congruence.
Qed.

Lemma path_lt_true (p q : Wan.Path) : Wan.path_lt q p = true -> name_le q p.
Proof.
  unfold Wan.path_lt, name_le, String.ltb, String.leb.
  destruct (String.compare (Wan.name q) (Wan.name p)); congruence.
Qed.

Lemma name_le_trans (p q r : Wan.Path) : name_le p q -> name_le q r -> name_le p r.
Proof.
  unfold name_le. apply string_leb_trans.
Qed.

Lemma insert_sorted_perm (p : Wan.Path) (l : list Wan.Path) :
  Permutation (Wan.insert_sorted p l) (p :: l).
Proof.
  induction l as [| q t IH]; cbn [Wan.insert_sorted]; [reflexivity |].
  destruct (Wan.path_lt q p); [| reflexivity].
  rewrite IH. apply perm_swap.
Qed.

Lemma sorted_perm (l : list Wan.Path) : Permutation (Wan.sorted l) l.
Proof.
  induction l as [| p t IH]; cbn [Wan.sorted fold_right]; [reflexivity |].
  fold (Wan.sorted t). rewrite insert_sorted_perm. now rewrite IH.
Qed.

Lemma insert_sorted_sorted (p : Wan.Path) (l : list Wan.Path) :
  StronglySorted name_le l -> StronglySorted name_le (Wan.insert_sorted p l).
Proof.
  induction 1 as [| q t Ht IH Hq]; cbn [Wan.insert_sorted].
  - repeat constructor.
  - destruct (Wan.path_lt q p) eqn:Hlt.
    + constructor; [exact IH |].
      rewrite (List.Forall_forall (name_le q)). intros r Hr.
      apply (Permutation_in _ (insert_sorted_perm p t)) in Hr as [<- | Hr].
      * now apply path_lt_true.
      * rewrite List.Forall_forall in Hq. now apply Hq.
    + apply path_lt_false in Hlt. constructor; [now constructor |].
      constructor; [exact Hlt |].
      rewrite List.Forall_forall in *. intros r Hr. eapply name_le_trans; eauto.
Qed.

Lemma sorted_sorted (l : list Wan.Path) : StronglySorted name_le (Wan.sorted l).
Proof.
  induction l as [| p t IH]; cbn [Wan.sorted fold_right]; [constructor |].
  now apply insert_sorted_sorted.
Qed.

(** Two lists in the order of the names that hold the same paths of one
    directory are one list. *)
Lemma sorted_unique (dir : string) (l1 : list Wan.Path) :
  forall l2,
    StronglySorted name_le l1 -> StronglySorted name_le l2 ->
    Permutation l1 l2 ->
    Forall (fun p => Wan.parent p = dir) l1 ->
    l1 = l2.
Proof.
  induction l1 as [| a t1 IH]; intros l2 H1 H2 Hp Hdir.
  - now apply Permutation_nil in Hp.
  - destruct l2 as [| b t2]; [now apply Permutation_sym, Permutation_nil in Hp |].
    assert (Hab : a = b).
    { apply StronglySorted_inv in H1 as [_ Ha], H2 as [_ Hb].
      rewrite List.Forall_forall in Ha, Hb.
      assert (Hdir' : forall p, In p (b :: t2) -> Wan.parent p = dir).
      { intros p Hin. rewrite List.Forall_forall in Hdir. apply Hdir.
        eapply Permutation_in; [symmetry; exact Hp | exact Hin]. }
      assert (Hina : In a (b :: t2)) by (eapply Permutation_in; [exact Hp | now left]).
      assert (Hinb : In b (a :: t1))
        by (eapply Permutation_in; [symmetry; exact Hp | now left]).
      destruct Hina as [-> | Hina]; [reflexivity |].
      destruct Hinb as [-> | Hinb]; [reflexivity |].
      assert (Hn : Wan.name a = Wan.name b).
      { apply String.leb_antisym; [apply Ha, Hinb | apply Hb, Hina]. }
      assert (Hpa : Wan.parent a = Wan.parent b).
      { rewrite (Hdir' b) by now left. rewrite List.Forall_forall in Hdir.
        apply Hdir. now left. }
      destruct a, b; cbn in *; congruence. }
    subst b. f_equal. apply IH.
    + now apply StronglySorted_inv in H1.
    + now apply StronglySorted_inv in H2.
    + now apply Permutation_cons_inv in Hp.
    + now inversion Hdir.
Qed.

Lemma in_extensions (s : string) (l : list string) :
  existsb (String.eqb s) l = true <-> In s l.
Proof.
  rewrite existsb_exists. split.
  - intros (x & Hx & Heq). apply String.eqb_eq in Heq. now subst.
  - intros H. exists s. split; [exact H | apply String.eqb_refl].
Qed.

(** *** The suffix of a name *)

Lemma lower_char_dot (c : ascii) :
  Ascii.eqb (PyStr.lower_char c) "." = Ascii.eqb c ".".
Proof. destruct c as [[] [] [] [] [] [] [] []]; reflexivity. Qed.

Lemma rfind_from_lower (s : string) :
  forall (i : nat) (last : option nat),
    Wan.rfind_from "." (PyStr.lower s) i last = Wan.rfind_from "." s i last.
Proof.
  induction s as [| c s IH]; intros i last; [reflexivity |].
  cbn [PyStr.lower Wan.rfind_from]. now rewrite lower_char_dot, IH.
Qed.

Lemma rfind_from_app (c : ascii) (a b : string) :
  forall (i : nat) (last : option nat),
    Wan.rfind_from c (a +:+ b) i last
    = Wan.rfind_from c b (i + String.length a) (Wan.rfind_from c a i last).
Proof.
  induction a as [| x a IH]; intros i last.
  - rewrite append_empty. cbn [String.length Wan.rfind_from]. now rewrite Nat.add_0_r.
  - rewrite append_String. cbn [String.length Wan.rfind_from]. rewrite IH.
    f_equal. lia.
Qed.

Lemma length_append (a b : string) :
  String.length (a +:+ b) = (String.length a + String.length b)%nat.
Proof.
  induction a as [| c a IH]; [reflexivity |].
  rewrite append_String. cbn [String.length]. now rewrite IH.
Qed.

Lemma length_lower (s : string) : String.length (PyStr.lower s) = String.length s.
Proof.
  induction s as [| c s IH]; [reflexivity |]. cbn [PyStr.lower String.length]. now rewrite IH.
Qed.

Lemma drop_append (a b : string) : PyStr.drop (String.length a) (a +:+ b) = b.
Proof.
  induction a as [| c a IH]; [now destruct b |].
  rewrite append_String. cbn [String.length PyStr.drop]. exact IH.
Qed.

Lemma take_drop (i : nat) (s : string) : PyStr.take i s +:+ PyStr.drop i s = s.
Proof.
  revert s. induction i as [| i IH]; intros [| c s]; try reflexivity.
  cbn [PyStr.take PyStr.drop]. rewrite append_String. now rewrite IH.
Qed.

(** A name has one of the four suffixes, in lower case, exactly when it
    ends in one of them, whatever the case, after some other character. *)
Lemma image_suffix (p : Wan.Path) :
  In (PyStr.lower (Wan.suffix p)) Wan.image_extensions <-> image_name (Wan.name p).
Proof.
  unfold image_name, Wan.suffix, Wan.image_extensions. split.
  - intros Hin.
    destruct (Wan.rfind_from "." (Wan.name p) 0 None) as [i |];
      [| cbn in Hin; intuition discriminate].
    destruct ((0 <? i)%nat && (i <? String.length (Wan.name p) - 1)%nat) eqn:Hi;
      [| cbn in Hin; intuition discriminate].
    apply andb_true_iff in Hi as [H0 H1].
    apply Nat.ltb_lt in H0, H1.
    exists (PyStr.take i (Wan.name p)), (PyStr.drop i (Wan.name p)).
    split; [now rewrite take_drop |]. split; [| exact Hin].
    destruct (Wan.name p) as [| c n]; [cbn in H1; lia |].
    destruct i; [lia | discriminate].
  - intros (stem & ext & Hname & Hstem & Hext).
    assert (Hfind : Wan.rfind_from "." (Wan.name p) 0 None = Some (String.length stem)
                    /\ (2 <= String.length ext)%nat).
    { rewrite Hname, rfind_from_app, <- rfind_from_lower, <- (length_lower ext).
      cbn [Nat.add].
      destruct Hext as [<- | [<- | [<- | [<- | []]]]]; cbn; split; (reflexivity || lia). }
    destruct Hfind as [-> Hlen].
    assert (Hpos : (0 < String.length stem)%nat)
      by (destruct stem; [congruence | cbn; lia]).
    rewrite Hname at 1. rewrite length_append.
    destruct (Nat.ltb_spec 0 (String.length stem)) as [_ | ?]; [| lia].
    destruct (Nat.ltb_spec (String.length stem)
                (String.length stem + String.length ext - 1)) as [_ | ?]; [| lia].
    cbn [andb]. now rewrite Hname, drop_append.
Qed.

(** The images among the entries of a directory, in the order of the entries. *)
Lemma in_directory_images (image_dir : string) (entries : list (string * bool))
  (p : Wan.Path) :
  In p (flat_map (fun e => if Wan.is_image (Wan.mk_path image_dir (fst e)) (snd e)
                           then [Wan.mk_path image_dir (fst e)] else [])
                 entries)
  <-> image_file image_dir entries p.
Proof.
  rewrite in_flat_map. unfold image_file, Wan.is_image. split.
  - intros ([n f] & Hin & Hp). cbn [fst snd] in Hp.
    destruct f; cbn [andb] in Hp; [| destruct Hp].
    destruct (existsb _ _) eqn:Hext in Hp; [| destruct Hp].
    destruct Hp as [<- | []]. cbn [Wan.parent Wan.name].
    apply in_extensions, image_suffix in Hext. auto.
  - intros (Hdir & Hin & Hext). exists (Wan.name p, true). split; [exact Hin |].
    cbn [fst snd andb].
    replace (Wan.mk_path image_dir (Wan.name p)) with p
      by (destruct p; cbn in *; congruence).
    apply image_suffix, in_extensions in Hext. rewrite Hext. now left.
Qed.

Lemma directory_images_nodup (image_dir : string) (entries : list (string * bool)) :
  List.NoDup (map fst entries) ->
  List.NoDup (flat_map (fun e => if Wan.is_image (Wan.mk_path image_dir (fst e)) (snd e)
                           then [Wan.mk_path image_dir (fst e)] else [])
                  entries).
Proof.
  induction entries as [| [n f] es IH]; cbn [map flat_map fst snd]; intros Hnd.
  - constructor.
  - apply List.NoDup_cons_iff in Hnd as [Hn Hnd].
    destruct (Wan.is_image _ f); cbn [app]; [| now apply IH].
    constructor; [| now apply IH].
    intros Hin. apply in_directory_images in Hin as (_ & Hin & _).
    cbn [Wan.name] in Hin. apply Hn. apply in_map_iff. now exists (n, true).
Qed.

Lemma lstrip_slashes_length (s : string) :
  (String.length (PyPath.lstrip_slashes s) <= String.length s)%nat.
Proof.
  induction s as [| c s IH]; [reflexivity |].
  cbn [PyPath.lstrip_slashes]. destruct (Ascii.eqb c "/"); cbn [String.length]; lia.
Qed.

(** A path that starts with a slash has a root. *)
Lemma parse_path_root (s : string) :
  PyStr.startswith s "/" = true -> PyPath.root (PyPath.parse_path s) <> "".
Proof.
  destruct s as [| c s]; [discriminate |].
  cbn [PyStr.startswith]. destruct (Ascii.eqb "/" c) eqn:Hc; [| discriminate].
  intros _. apply Ascii.eqb_eq in Hc. subst c.
  unfold PyPath.parse_path. cbv zeta. cbn [PyPath.root PyPath.lstrip_slashes].
  pose proof (lstrip_slashes_length s) as Hle.
  change (Ascii.eqb "/" "/") with true. cbv iota.
  cbn [String.length].
  destruct (S (String.length s) - String.length (PyPath.lstrip_slashes s))%nat
    as [| [| [| n]]] eqn:Hd; [lia | discriminate | discriminate | discriminate].
Qed.

(** Lines 38-41 take the path that [pathlib] makes of the directory of
    the script and "image_path": the test for an absolute path changes
    nothing, since joining an absolute path gives that path. *)
Lemma image_dir_join (image_path base_dir : string) :
  PyPath.pure_str (Wan.image_dir image_path base_dir) = image_dir_of image_path base_dir.
Proof.
  unfold image_dir_of, Wan.image_dir, PyPath.joinpath. cbv zeta.
  destruct (PyStr.startswith image_path "/") eqn:Hs; [| reflexivity].
  apply parse_path_root in Hs.
  destruct (PyPath.root (PyPath.parse_path image_path)); [contradiction | reflexivity].
Qed.

Lemma directories_looked_into :
  forallb (fun t => String.eqb (image_dir_of (fst (fst t)) (snd (fst t))) (snd t))
          directory_examples
  = true.
Proof. vm_compute. reflexivity. Qed.

(** X1. The images of a directory. When [get_images_from_path] returns, the
    path it looked up is a directory, and the list it returns is not empty,
    holds exactly the paths in that directory of the regular files whose
    name ends in .png, .jpg, .jpeg or .webp, in any letter case and after at
    least one other character, is in the order of the names, and names no
    file twice when the directory does not. When it raises, it is a
    FileNotFoundError for a path that does not exist, and a ValueError for a
    path that is a regular file or a directory without any such file. The
    directory is the one [pathlib] makes of "image_path" and the directory
    of the script: "in", "in/" and "./in" all stand for the directory "in"
    of the script, and "/abs//x/" for "/abs/x". *)
Theorem images_are_the_image_files_in_name_order (disk : Wan.files)
  (image_path base_dir : string) :
  match Wan.get_images_from_path disk (VStr image_path) base_dir with
  | Wan.Images images =>
      exists entries,
        get (image_dir_of image_path base_dir) disk = Some (Wan.Directory entries)
        /\ images <> []
        /\ (forall p,
              In p images
              <-> Wan.parent p = image_dir_of image_path base_dir
                  /\ In (Wan.name p, true) entries
                  /\ exists stem ext,
                       Wan.name p = stem +:+ ext
                       /\ stem <> ""
                       /\ In (PyStr.lower ext) [".png"; ".jpg"; ".jpeg"; ".webp"])
        /\ StronglySorted name_le images
        /\ (List.NoDup (map fst entries) -> List.NoDup images)
  | Wan.Failure exception msg =>
      (exception = "FileNotFoundError"
       /\ get (image_dir_of image_path base_dir) disk = None)
      \/ (exception = "ValueError"
          /\ get (image_dir_of image_path base_dir) disk = Some Wan.RegularFile)
      \/ (exception = "ValueError"
          /\ exists entries,
               get (image_dir_of image_path base_dir) disk
               = Some (Wan.Directory entries)
               /\ forall n stem ext,
                    In (n, true) entries -> n = stem +:+ ext -> stem <> "" ->
                    ~ In (PyStr.lower ext) [".png"; ".jpg"; ".jpeg"; ".webp"])
  end
  /\ Forall (fun t => image_dir_of (fst (fst t)) (snd (fst t)) = snd t)
            [("in", "/work", "/work/in");
             ("in/", "/work", "/work/in");
             ("./in", "/work", "/work/in");
             ("a//b/.", "/work", "/work/a/b");
             (".", "/work", "/work");
             ("a/../b", "/work", "/work/a/../b");
             ("/abs//x/", "/work", "/abs/x");
             ("//srv/in", "/work", "//srv/in");
             ("///srv", "/work", "/srv");
             ("/", "/work", "/");
             ("in", "/", "/in")].
Proof.
  split.
  2:{ apply List.Forall_forall. intros t Ht. apply String.eqb_eq.
      exact (proj1 (forallb_forall _ _) directories_looked_into t Ht). }
  unfold Wan.get_images_from_path. rewrite image_dir_join.
  destruct (get (image_dir_of image_path base_dir) disk) as [[| entries] |];
    [auto | | auto].
  cbv zeta.
  destruct (flat_map _ entries) as [| img rest] eqn:Himgs.
  - right. right. split; [reflexivity |]. exists entries. split; [reflexivity |].
    intros n stem ext Hin Hn Hstem Hext.
    assert (Hp : image_file (image_dir_of image_path base_dir) entries
                   (Wan.mk_path (image_dir_of image_path base_dir) n)).
    { split; [reflexivity |]. split; [exact Hin |]. exists stem, ext. auto. }
    apply in_directory_images in Hp. rewrite Himgs in Hp. destruct Hp.
  - exists entries. split; [reflexivity |]. rewrite <- Himgs. split; [| split; [| split]].
    + intros Hnil. pose proof (sorted_perm (flat_map
        (fun e => if Wan.is_image (Wan.mk_path (image_dir_of image_path base_dir) (fst e))
                                  (snd e)
                  then [Wan.mk_path (image_dir_of image_path base_dir) (fst e)]
                  else []) entries)) as Hp.
      rewrite Hnil, Himgs in Hp. now apply Permutation_nil in Hp.
    + intros p. change (In p (Wan.sorted (flat_map
        (fun e => if Wan.is_image (Wan.mk_path (image_dir_of image_path base_dir) (fst e))
                                  (snd e)
                  then [Wan.mk_path (image_dir_of image_path base_dir) (fst e)]
                  else []) entries))
                        <-> image_file (image_dir_of image_path base_dir) entries p).
      rewrite <- in_directory_images. split; intros Hin.
      * eapply Permutation_in; [apply sorted_perm | exact Hin].
      * eapply Permutation_in; [symmetry; apply sorted_perm | exact Hin].
    + apply sorted_sorted.
    + intros Hnd. eapply Permutation_NoDup; [symmetry; apply sorted_perm |].
      now apply directory_images_nodup.
Qed.

(** X2. The list of images does not depend on the order in which the
    directory yields its entries: two listings of the same entries give the
    same result, so the tasks of a batch are numbered alike from run to run. *)
Theorem images_do_not_depend_on_listing_order (disk disk' : Wan.files)
  (image_path base_dir : string) (entries entries' : list (string * bool)) :
  get (image_dir_of image_path base_dir) disk = Some (Wan.Directory entries) ->
  get (image_dir_of image_path base_dir) disk' = Some (Wan.Directory entries') ->
  Permutation entries entries' ->
  Wan.get_images_from_path disk (VStr image_path) base_dir
  = Wan.get_images_from_path disk' (VStr image_path) base_dir.
Proof.
  intros Hd Hd' Hperm.
  unfold Wan.get_images_from_path. rewrite image_dir_join.
  rewrite Hd, Hd'.
  cbv zeta.
  set (f := fun e : string * bool =>
              if Wan.is_image (Wan.mk_path (image_dir_of image_path base_dir) (fst e))
                              (snd e)
              then [Wan.mk_path (image_dir_of image_path base_dir) (fst e)] else []).
  assert (Hp : Permutation (flat_map f entries) (flat_map f entries'))
    by (now apply Permutation_flat_map).
  destruct (flat_map f entries) as [| a l] eqn:H1;
    destruct (flat_map f entries') as [| a' l'] eqn:H2.
  - reflexivity.
  - now apply Permutation_nil in Hp.
  - now apply Permutation_sym, Permutation_nil in Hp.
  - f_equal. apply (sorted_unique (image_dir_of image_path base_dir)).
    + apply sorted_sorted.
    + apply sorted_sorted.
    + now rewrite !sorted_perm.
    + apply List.Forall_forall. intros p Hin.
      apply (Permutation_in _ (sorted_perm _)) in Hin. rewrite <- H1 in Hin.
      now apply in_directory_images in Hin as (Hdir & _).
Qed.

Lemma images_order_witness :
  Wan.get_images_from_path
    [("/work/in", Wan.Directory [("b.png", true); ("a.JPG", true); ("notes.txt", true);
                                 ("c.webp", false)])]
    (VStr "/work/in") "/work"
  = Wan.get_images_from_path
      [("/work/in", Wan.Directory [("a.JPG", true); ("b.png", true); ("c.webp", false);
                                   ("notes.txt", true)])]
      (VStr "/work/in") "/work".
Proof.
  apply (images_do_not_depend_on_listing_order _ _ "/work/in" "/work"
           [("b.png", true); ("a.JPG", true); ("notes.txt", true); ("c.webp", false)]
           [("a.JPG", true); ("b.png", true); ("c.webp", false); ("notes.txt", true)]).
  - reflexivity.
  - reflexivity.
  - apply perm_trans
      with [("a.JPG", true); ("b.png", true); ("notes.txt", true); ("c.webp", false)];
      [apply perm_swap | do 2 apply perm_skip; apply perm_swap].
Defined.

Example images_of_a_directory :
  Wan.get_images_from_path
    [("/work/in", Wan.Directory [("b.png", true); ("a.JPG", true); ("notes.txt", true);
                                 ("c.webp", false); (".png", true); ("B.jpeg", true)])]
    (VStr "in") "/work"
  = Wan.Images [Wan.mk_path "/work/in" "B.jpeg"; Wan.mk_path "/work/in" "a.JPG";
                Wan.mk_path "/work/in" "b.png"].
Proof. vm_compute. reflexivity. Qed.

(** The same directory under another spelling of "image_path", and how the
    paths of images read, also in the root directory and in ".". *)
Example images_of_a_directory_written_otherwise :
  Wan.get_images_from_path
    [("/work/in", Wan.Directory [("b.png", true); ("a.JPG", true)])]
    (VStr "./in//") "/work"
  = Wan.Images [Wan.mk_path "/work/in" "a.JPG"; Wan.mk_path "/work/in" "b.png"]
  /\ map Wan.path_str [Wan.mk_path "/work/in" "a.JPG"; Wan.mk_path "/" "a.png";
                       Wan.mk_path "//" "a.png"; Wan.mk_path "." "a.png"]
     = ["/work/in/a.JPG"; "/a.png"; "//a.png"; "a.png"].
Proof. split; vm_compute; reflexivity. Qed.

(** ** What the submission loop of the wan-i2v batch asks of the service *)

Lemma calls_app (evs1 evs2 : list event) : calls (evs1 ++ evs2) = calls evs1 ++ calls evs2.
Proof. unfold calls. now rewrite !flat_map_app. Qed.

Lemma requests_app (evs1 evs2 : list event) :
  requests (evs1 ++ evs2) = requests evs1 ++ requests evs2.
Proof. unfold requests. now rewrite !flat_map_app. Qed.

Lemma uploads_app (evs1 evs2 : list event) :
  uploads (evs1 ++ evs2) = uploads evs1 ++ uploads evs2.
Proof. unfold uploads. now rewrite !flat_map_app. Qed.

Lemma attached_app (evs1 evs2 : list event) :
  attached (evs1 ++ evs2) = attached evs1 ++ attached evs2.
Proof. unfold attached. now rewrite !flat_map_app. Qed.

Lemma requests_of_new_combos (P : string -> request -> Prop) (new : string -> bool)
  (todo : list string) (reqs : list request) (req : request) :
  Forall2 P (List.filter new todo) reqs ->
  In req reqs ->
  exists combo, In combo todo /\ new combo = true /\ P combo req.
Proof.
  remember (List.filter new todo) as l eqn:Hl. intros H. revert todo Hl.
  induction H as [| combo r l reqs HP H IH]; intros todo Hl Hin; [destruct Hin |].
  assert (Hc : In combo (List.filter new todo)) by (rewrite <- Hl; now left).
  apply filter_In in Hc as [Hc Hnew].
  destruct Hin as [<- | Hin]; [eauto |].
  clear Hc Hnew. revert Hl. induction todo as [| c todo IHt]; [discriminate |].
  cbn [List.filter]. destruct (new c) eqn:Hn.
  - intros [= -> Hl]. destruct (IH todo Hl Hin) as (c' & Hc' & Hn' & HP').
    exists c'. split; [now right | auto].
  - intros Hl. destruct (IHt Hl) as (c' & Hc' & Hn' & HP').
    exists c'. split; [now right | auto].
Qed.

Section WanJournal.
Context {R : Type} (client : Client R).
Variable job_config : Wan.job_config.
Variable combos : list string.
Variable existing : gset string.
Variable playlist_uuid : scalar.
Variable total_jobs : nat.

Lemma resolve_attempt_journal (u : scalar) (attempt : nat) (w : world R) :
  exists r evs w',
    Wan.resolve_attempt client u attempt w = (Ok r, w')
    /\ trace w' = trace w ++ evs
    /\ requests evs = [] /\ uploads evs = [] /\ attached evs = [].
Proof.
  unfold Wan.resolve_attempt, as_dict. unfold_monad.
  run; eexists _, _, _; (split; [reflexivity |]); (split; [trace_eq |]);
    repeat split.
Qed.

Lemma resolve_url_journal (u : scalar) (attempts : list nat) :
  forall w : world R,
  exists r evs w',
    Wan.resolve_url client u attempts w = (Ok r, w')
    /\ trace w' = trace w ++ evs
    /\ requests evs = [] /\ uploads evs = [] /\ attached evs = [].
Proof.
  induction attempts as [| attempt rest IH]; intros w.
  - exists None, [], w. rewrite app_nil_r. repeat split.
  - cbn [Wan.resolve_url]. unfold bind.
    destruct (resolve_attempt_journal u attempt w)
      as (r & evs1 & w1 & -> & Ht1 & Hr1 & Hu1 & Ha1).
    destruct r as [url |].
    + exists (Some url), evs1, w1. repeat split; assumption.
    + destruct (IH w1) as (r & evs2 & w2 & -> & Ht2 & Hr2 & Hu2 & Ha2).
      exists r, (evs1 ++ evs2), w2. split; [reflexivity |].
      split; [rewrite Ht2, Ht1; now rewrite app_assoc |].
      rewrite requests_app, uploads_app, attached_app, Hr1, Hr2, Hu1, Hu2, Ha1, Ha2.
      repeat split.
Qed.

(** An upload: one file is sent, nothing is created. *)
Lemma upload_image_journal (image_path : Wan.Path) (w : world R) :
  exists res evs w',
    Wan.upload_image client image_path w = (res, w')
    /\ (forall code, res <> Exit code)
    /\ trace w' = trace w ++ evs
    /\ requests evs = [] /\ attached evs = []
    /\ uploads evs = [Wan.path_str image_path].
Proof.
  unfold Wan.upload_image, index. unfold_monad. reduce.
  destruct (upload_file client _ _) as [[[uploaded_dream | e] dt] r']; reduce.
  2:{ eexists _, _, _. split; [reflexivity |]. split; [congruence |].
      split; [reflexivity |]. repeat split. }
  destruct (get "uuid" uploaded_dream) as [dream_uuid |]; reduce.
  2:{ eexists _, _, _. split; [reflexivity |]. split; [congruence |].
      split; [reflexivity |]. repeat split. }
  match goal with
  | |- context [Wan.resolve_url client ?u ?l ?w0] =>
      destruct (resolve_url_journal u l w0)
        as ([url |] & evs & w1 & -> & Ht & Hr & Hu & Ha)
  end; reduce; cbn [trace] in Ht;
    eexists _, _, _; (split; [reflexivity |]); (split; [congruence |]);
    (split; [rewrite Ht, <- !app_assoc; reflexivity |]);
    rewrite !requests_app, !attached_app, !uploads_app, Hr, Hu, Ha;
    repeat split.
Qed.

Lemma submit_combo_journal image_path source st combo (w : world R) :
  exists st' evs w',
    Wan.submit_combo client job_config combos existing playlist_uuid total_jobs
      image_path source st combo w = (Ok st', w')
    /\ trace w' = trace w ++ evs
    /\ uploads evs = []
    /\ Wan.uploaded_image_map st' = Wan.uploaded_image_map st
    /\ Wan.active_dreams st' = Wan.active_dreams st ++ map snd (attached evs)
    /\ Forall (fun a => fst a = playlist_uuid) (attached evs)
    /\ (length (attached evs) <= length (requests evs))%nat
    /\ (if bool_decide (Wan.create_job_identifier image_path combo ∈ existing)
        then calls evs = []
             /\ Wan.skipped_count st' = S (Wan.skipped_count st)
             /\ Wan.failed_count st' = Wan.failed_count st
        else Wan.skipped_count st' = Wan.skipped_count st
             /\ exists req, requests evs = [req]
                            /\ request_for combos image_path combo req).
Proof.
  unfold Wan.submit_combo. unfold_monad.
  run; eexists _, _, _; (split; [reflexivity |]); (split; [trace_eq |]);
    cbn [Wan.uploaded_image_map Wan.active_dreams Wan.skipped_count Wan.failed_count];
    (split; [reflexivity |]); (split; [reflexivity |]);
    (split; [cbn; rewrite ?app_nil_r; reflexivity |]);
    (split; [cbn; repeat constructor |]);
    (split; [cbn; lia |]).
  all: try (split; [reflexivity |]; split; reflexivity).
  all: split; [reflexivity |]; eexists; split; [reflexivity |]; split; reflexivity.
Qed.

(** The combos of the image whose identifier the index does not hold. *)
Lemma submit_combos_journal image_path source (todo : list string) :
  forall st (w : world R),
  exists st' evs w',
    Wan.submit_combos client job_config combos existing playlist_uuid total_jobs
      image_path source st todo w = (Ok st', w')
    /\ trace w' = trace w ++ evs
    /\ uploads evs = []
    /\ Wan.uploaded_image_map st' = Wan.uploaded_image_map st
    /\ Wan.active_dreams st' = Wan.active_dreams st ++ map snd (attached evs)
    /\ Forall (fun a => fst a = playlist_uuid) (attached evs)
    /\ (length (attached evs) <= length (requests evs))%nat
    /\ Forall2 (request_for combos image_path)
         (List.filter (fun combo => negb (bool_decide
                         (Wan.create_job_identifier image_path combo ∈ existing))) todo)
         (requests evs)
    /\ (needs_upload todo existing image_path = false ->
        calls evs = []
        /\ Wan.skipped_count st' = (Wan.skipped_count st + length todo)%nat
        /\ Wan.failed_count st' = Wan.failed_count st).
Proof.
  induction todo as [| combo rest IH]; intros st w.
  - exists st, [], w. rewrite !app_nil_r. cbn [length]. repeat split; try constructor.
    all: lia.
  - cbn [Wan.submit_combos]. unfold bind.
    destruct (submit_combo_journal image_path source st combo w)
      as (st1 & evs1 & w1 & -> & Ht1 & Hu1 & Hm1 & Ha1 & Hp1 & Hl1 & Hc1).
    destruct (IH st1 w1)
      as (st2 & evs2 & w2 & -> & Ht2 & Hu2 & Hm2 & Ha2 & Hp2 & Hl2 & Hr2 & Hs2).
    exists st2, (evs1 ++ evs2), w2. split; [reflexivity |].
    split; [rewrite Ht2, Ht1; now rewrite app_assoc |].
    rewrite uploads_app, attached_app, requests_app, calls_app, Hu1, Hu2.
    split; [reflexivity |]. split; [congruence |].
    split; [rewrite Ha2, Ha1, map_app; now rewrite app_assoc |].
    split; [now apply Forall_app |].
    split; [rewrite !length_app; lia |].
    cbn [List.filter needs_upload existsb length].
    destruct (bool_decide _) eqn:Hin; cbn [negb orb].
    + destruct Hc1 as (Hc1 & Hs1 & Hf1). split.
      * assert (Hreq : requests evs1 = []).
        { clear -Hc1. induction evs1 as [| [c a | | |] evs IH]; cbn in *;
            try discriminate; auto. }
        now rewrite Hreq.
      * intros Hneeds. destruct (Hs2 Hneeds) as (Hc2 & Hsk2 & Hf2).
        rewrite Hc1, Hc2, Hsk2, Hs1, Hf2, Hf1. repeat split. lia.
    + destruct Hc1 as (Hs1 & req & Hreq & Hfor). rewrite Hreq. split.
      * now constructor.
      * discriminate.
Qed.

Lemma process_image_journal st image_path (w : world R) :
  exists st' evs w',
    Wan.process_image client job_config combos existing playlist_uuid total_jobs
      st image_path w = (Ok st', w')
    /\ trace w' = trace w ++ evs
    /\ Wan.active_dreams st' = Wan.active_dreams st ++ map snd (attached evs)
    /\ Forall (fun a => fst a = playlist_uuid) (attached evs)
    /\ (length (attached evs) <= length (requests evs))%nat
    /\ (forall req, In req (requests evs) ->
          exists combo, In combo combos
                        /\ (Wan.create_job_identifier image_path combo ∉ existing)
                        /\ request_for combos image_path combo req)
    /\ (uploads evs = []
        \/ (needs_upload combos existing image_path = true
            /\ uploads evs = [Wan.path_str image_path]))
    /\ (needs_upload combos existing image_path = false ->
        calls evs = []
        /\ Wan.active_dreams st' = Wan.active_dreams st
        /\ Wan.skipped_count st' = (Wan.skipped_count st + length combos)%nat
        /\ Wan.failed_count st' = Wan.failed_count st).
Proof.
  assert (Hnew : forall st0 src (w0 : world R),
    exists st' evs w',
      Wan.submit_combos client job_config combos existing playlist_uuid total_jobs
        image_path src st0 combos w0 = (Ok st', w')
      /\ trace w' = trace w0 ++ evs
      /\ uploads evs = []
      /\ Wan.active_dreams st' = Wan.active_dreams st0 ++ map snd (attached evs)
      /\ Forall (fun a => fst a = playlist_uuid) (attached evs)
      /\ (length (attached evs) <= length (requests evs))%nat
      /\ (forall req, In req (requests evs) ->
            exists combo, In combo combos
                          /\ (Wan.create_job_identifier image_path combo ∉ existing)
                          /\ request_for combos image_path combo req)).
  { intros st0 src w0.
    destruct (submit_combos_journal image_path src combos st0 w0)
      as (st1 & evs & w1 & Hrun & Ht & Hu & _ & Ha & Hp & Hl & Hr & _).
    exists st1, evs, w1. repeat (split; [assumption |]).
    intros req Hin.
    destruct (requests_of_new_combos _ _ _ _ _ Hr Hin) as (combo & Hc & Hn & HP).
    exists combo. repeat split; try assumption; try apply HP.
    apply negb_true_iff, bool_decide_eq_false in Hn. exact Hn. }
  unfold Wan.process_image. fold (needs_upload combos existing image_path).
  destruct (needs_upload combos existing image_path) eqn:Hneeds; cbn [negb].
  - match goal with |- context [negb (truthy ?v)] => destruct (negb (truthy v)) end.
    + unfold_monad. reduce.
      match goal with
      | |- context [Wan.upload_image client ?p ?w0] =>
          destruct (upload_image_journal p w0)
            as (res & evs1 & w1 & -> & Hne & Ht1 & Hr1 & Ha1 & Hu1)
      end.
      cbn [trace] in Ht1.
      destruct res as [source | e | code]; reduce; [| | now destruct (Hne code)].
      * match goal with
        | |- context [Wan.submit_combos _ _ _ _ _ _ _ ?src ?st0 ?todo ?w0] =>
            destruct (Hnew st0 src w0)
              as (st2 & evs2 & w2 & -> & Ht2 & Hu2 & Hact & Hp2 & Hl2 & Hq2)
        end.
        cbn [Wan.active_dreams] in Hact.
        eexists st2, _, w2. split; [reflexivity |].
        split; [rewrite Ht2, Ht1, <- !app_assoc; reflexivity |].
        rewrite !attached_app, !requests_app, !uploads_app, Hr1, Ha1, Hu1, Hu2.
        cbn [attached requests uploads flat_map app map].
        do 4 (split; [assumption |]).
        split; [right; split; reflexivity | discriminate].
      * eexists _, _, _. split; [reflexivity |].
        split; [rewrite Ht1, <- !app_assoc; reflexivity |].
        rewrite !attached_app, !requests_app, !uploads_app, Hr1, Ha1, Hu1.
        cbn [attached requests uploads flat_map app map Wan.active_dreams length].
        rewrite app_nil_r.
        split; [reflexivity |]. split; [constructor |]. split; [lia |].
        split; [intros ? [] |].
        split; [right; split; reflexivity | discriminate].
    + destruct (Hnew st (match Wan.uploaded_image_map st !! Wan.path_str image_path with
                         | Some v => v | None => VNone end) w)
        as (st2 & evs2 & w2 & Hrun & Ht2 & Hu2 & Hact & Hp2 & Hl2 & Hq2).
      exists st2, evs2, w2. repeat (split; [assumption |]).
      split; [now left | discriminate].
  - unfold_monad. reduce. eexists _, _, _. split; [reflexivity |].
    split; [reflexivity |].
    cbn [attached requests uploads calls flat_map app map Wan.active_dreams
         Wan.skipped_count Wan.failed_count length].
    rewrite app_nil_r.
    split; [reflexivity |]. split; [constructor |]. split; [lia |].
    split; [intros ? [] |]. split; [now left |]. intros _. repeat split.
Qed.

Lemma process_images_journal (images : list Wan.Path) :
  forall st (w : world R),
  exists st' evs w',
    Wan.process_images client job_config combos existing playlist_uuid total_jobs
      st images w = (Ok st', w')
    /\ trace w' = trace w ++ evs
    /\ Wan.active_dreams st' = Wan.active_dreams st ++ map snd (attached evs)
    /\ Forall (fun a => fst a = playlist_uuid) (attached evs)
    /\ (length (attached evs) <= length (requests evs))%nat
    /\ (forall req, In req (requests evs) ->
          exists image_path combo,
            In image_path images /\ In combo combos
            /\ (Wan.create_job_identifier image_path combo ∉ existing)
            /\ request_for combos image_path combo req)
    /\ sublist (uploads evs)
         (map Wan.path_str (List.filter (needs_upload combos existing) images))
    /\ (forallb (fun image_path => negb (needs_upload combos existing image_path))
                images = true ->
        calls evs = []
        /\ Wan.active_dreams st' = Wan.active_dreams st
        /\ Wan.skipped_count st'
           = (Wan.skipped_count st + length images * length combos)%nat
        /\ Wan.failed_count st' = Wan.failed_count st).
Proof.
  induction images as [| image_path rest IH]; intros st w.
  - exists st, [], w. rewrite !app_nil_r. cbn [length Nat.mul].
    split; [reflexivity |]. split; [reflexivity |]. split; [reflexivity |].
    split; [constructor |]. split; [cbn; lia |]. split; [intros ? [] |].
    split; [constructor |]. intros _. repeat split. lia.
  - cbn [Wan.process_images]. unfold bind.
    destruct (process_image_journal st image_path w)
      as (st1 & evs1 & w1 & -> & Ht1 & Ha1 & Hp1 & Hl1 & Hr1 & Hu1 & Hs1).
    destruct (IH st1 w1)
      as (st2 & evs2 & w2 & -> & Ht2 & Ha2 & Hp2 & Hl2 & Hr2 & Hu2 & Hs2).
    exists st2, (evs1 ++ evs2), w2. split; [reflexivity |].
    split; [rewrite Ht2, Ht1; now rewrite app_assoc |].
    rewrite uploads_app, attached_app, requests_app, calls_app.
    split; [rewrite Ha2, Ha1, map_app; now rewrite app_assoc |].
    split; [now apply Forall_app |].
    split; [rewrite !length_app; lia |].
    split; [| split].
    + intros req Hin. apply in_app_or in Hin as [Hin | Hin].
      * destruct (Hr1 req Hin) as (combo & Hc & Hn & HP).
        exists image_path, combo. repeat split; try assumption; try apply HP. now left.
      * destruct (Hr2 req Hin) as (image & combo & Hi & Hc & Hn & HP).
        exists image, combo. repeat split; try assumption; try apply HP. now right.
    + cbn [List.filter].
      destruct Hu1 as [-> | [Hneeds ->]].
      * cbn [app]. destruct (needs_upload combos existing image_path);
          [cbn [map]; now apply sublist_cons | exact Hu2].
      * rewrite Hneeds. cbn [map app]. now apply sublist_skip.
    + cbn [forallb]. intros Hall. apply andb_true_iff in Hall as [Hn Hall].
      apply negb_true_iff in Hn.
      destruct (Hs1 Hn) as (Hc1 & Hact1 & Hsk1 & Hf1).
      destruct (Hs2 Hall) as (Hc2 & Hact2 & Hsk2 & Hf2).
      rewrite Hc1, Hc2, Hact2, Hact1, Hsk2, Hsk1, Hf2, Hf1. cbn [length].
      repeat split. lia.
Qed.

End WanJournal.

(** X3. Whatever the service answers, every job creation that the submission
    loop asks for is the one of an (image, combo) pair of the batch whose
    identifier is not in the index of existing identifiers, named
    <stem>_combo-<k> and tagged with that identifier: no job is ever asked
    for under an identifier that the index holds. *)
Theorem wan_creates_only_jobs_missing_from_the_index {R : Type} (client : Client R)
  (job_config : Wan.job_config) (combos : list string) (existing : gset string)
  (playlist_uuid : scalar) (total_jobs : nat) (images : list Wan.Path) (w : world R) :
  exists st evs w',
    Wan.process_images client job_config combos existing playlist_uuid total_jobs
      Wan.tally0 images w = (Ok st, w')
    /\ trace w' = trace w ++ evs
    /\ forall req, In req (requests evs) ->
         exists image_path combo,
           In image_path images /\ In combo combos
           /\ (Wan.create_job_identifier image_path combo ∉ existing)
           /\ request_for combos image_path combo req.
Proof.
  destruct (process_images_journal client job_config combos existing playlist_uuid
              total_jobs images Wan.tally0 w)
    as (st & evs & w' & Hrun & Ht & _ & _ & _ & Hreq & _).
  exists st, evs, w'. auto.
Qed.

(** X4. The ids the submission loop hands to the poller ([active_dreams])
    are, in order, the items that the service accepted into the playlist, all
    of them into the playlist of the batch; there are no more of them than
    creation requests. *)
Theorem wan_polls_exactly_the_attached_jobs {R : Type} (client : Client R)
  (job_config : Wan.job_config) (combos : list string) (existing : gset string)
  (playlist_uuid : scalar) (total_jobs : nat) (images : list Wan.Path) (w : world R) :
  exists st evs w',
    Wan.process_images client job_config combos existing playlist_uuid total_jobs
      Wan.tally0 images w = (Ok st, w')
    /\ trace w' = trace w ++ evs
    /\ Wan.active_dreams st = map snd (attached evs)
    /\ Forall (fun a => fst a = playlist_uuid) (attached evs)
    /\ (length (Wan.active_dreams st) <= length (requests evs))%nat.
Proof.
  destruct (process_images_journal client job_config combos existing playlist_uuid
              total_jobs images Wan.tally0 w)
    as (st & evs & w' & Hrun & Ht & Hact & Hpl & Hlen & _).
  exists st, evs, w'. cbn [Wan.active_dreams Wan.tally0 app] in Hact.
  repeat (split; [assumption |]). now rewrite Hact, length_map.
Qed.

(** X5. The files sent for upload are, in order, files of images that
    have a combo whose identifier is not in the index, each image of the list
    at most once: an image all of whose combos exist is never uploaded. *)
Theorem wan_uploads_an_image_once_and_only_if_needed {R : Type} (client : Client R)
  (job_config : Wan.job_config) (combos : list string) (existing : gset string)
  (playlist_uuid : scalar) (total_jobs : nat) (images : list Wan.Path) (w : world R) :
  exists st evs w',
    Wan.process_images client job_config combos existing playlist_uuid total_jobs
      Wan.tally0 images w = (Ok st, w')
    /\ trace w' = trace w ++ evs
    /\ sublist (uploads evs)
         (map Wan.path_str (List.filter (needs_upload combos existing) images)).
Proof.
  destruct (process_images_journal client job_config combos existing playlist_uuid
              total_jobs images Wan.tally0 w)
    as (st & evs & w' & Hrun & Ht & _ & _ & _ & _ & Hup & _).
  exists st, evs, w'. auto.
Qed.

(** X6. When the index holds the identifier of every (image, combo) pair,
    the submission loop makes no remote call at all, starts and fails nothing,
    and counts every task as skipped. *)
Theorem wan_makes_no_call_when_every_identifier_is_indexed {R : Type}
  (client : Client R) (job_config : Wan.job_config) (combos : list string)
  (existing : gset string) (playlist_uuid : scalar) (total_jobs : nat)
  (images : list Wan.Path) (w : world R) :
  (forall image_path combo,
      In image_path images -> In combo combos ->
      Wan.create_job_identifier image_path combo ∈ existing) ->
  exists st evs w',
    Wan.process_images client job_config combos existing playlist_uuid total_jobs
      Wan.tally0 images w = (Ok st, w')
    /\ trace w' = trace w ++ evs
    /\ calls evs = []
    /\ Wan.active_dreams st = []
    /\ Wan.skipped_count st = (length images * length combos)%nat
    /\ Wan.failed_count st = 0%nat.
Proof.
  intros Hall.
  destruct (process_images_journal client job_config combos existing playlist_uuid
              total_jobs images Wan.tally0 w)
    as (st & evs & w' & Hrun & Ht & _ & _ & _ & _ & _ & Hskip).
  exists st, evs, w'. split; [exact Hrun |]. split; [exact Ht |].
  apply Hskip. apply forallb_forall. intros image_path Hi.
  apply negb_true_iff. unfold needs_upload.
  destruct (existsb _ combos) eqn:Hex; [| reflexivity].
  apply existsb_exists in Hex as (combo & Hc & Hn).
  apply negb_true_iff, bool_decide_eq_false in Hn. destruct Hn. now apply Hall.
Qed.

Lemma wan_no_call_witness :
  exists st evs w',
    Wan.process_images Service.client plain_job [""] {["sunset.png:d41d8cd9"]}
      (VStr "playlist-0") 1 Wan.tally0 [sunset] (Service.boot (Service.empty []))
    = (Ok st, w')
    /\ trace w' = trace (Service.boot (Service.empty [])) ++ evs
    /\ calls evs = []
    /\ Wan.active_dreams st = []
    /\ Wan.skipped_count st = (length [sunset] * length [""])%nat
    /\ Wan.failed_count st = 0%nat.
Proof.
  apply (wan_makes_no_call_when_every_identifier_is_indexed Service.client plain_job
           [""] {["sunset.png:d41d8cd9"]} (VStr "playlist-0") 1 [sunset]
           (Service.boot (Service.empty []))).
  intros image_path combo [<- | []] [<- | []].
  change (Wan.create_job_identifier sunset "") with "sunset.png:d41d8cd9".
  apply elem_of_singleton_2. reflexivity.
Defined.

(** X7. When the upload of an image that needs one raises, the image is
    given up: the only remote call made for it is the upload, no job is
    created, [failed_count] grows by the number of combos, the other counters
    stay, and the failure is printed. *)
Theorem wan_failed_upload_fails_every_combo_of_the_image {R : Type}
  (client : Client R) (job_config : Wan.job_config) (combos : list string)
  (existing : gset string) (playlist_uuid : scalar) (total_jobs : nat)
  (st : Wan.tally) (image_path : Wan.Path) (w : world R) (e : exn) (dt : Q) (r1 : R) :
  needs_upload combos existing image_path = true ->
  Wan.uploaded_image_map st !! Wan.path_str image_path = None ->
  upload_file client (Wan.path_str image_path) (remote w) = (Raises e, dt, r1) ->
  exists evs w',
    Wan.process_image client job_config combos existing playlist_uuid total_jobs
      st image_path w
    = (Ok (Wan.mk_tally (Wan.uploaded_image_map st) (Wan.active_dreams st)
                        (Wan.job_count st) (Wan.skipped_count st)
                        (Wan.failed_count st + length combos)), w')
    /\ trace w' = trace w ++ evs
    /\ calls evs = [UploadFile (Wan.path_str image_path)]
    /\ In (Stdout ("  Failed to upload image: " +:+ exn_str e)) evs.
Proof.
  intros Hneeds Hmap Hup.
  unfold Wan.process_image. fold (needs_upload combos existing image_path).
  rewrite Hneeds, Hmap. cbn [negb truthy].
  unfold Wan.upload_image. unfold_monad. reduce. rewrite Hup. reduce.
  eexists _, _. split; [reflexivity |]. split; [trace_eq |].
  split; [reflexivity |]. cbn. auto.
Qed.

Lemma wan_failed_upload_witness :
  exists evs w',
    Wan.process_image Service.client plain_job [""] ∅ (VStr "playlist-0") 1
      Wan.tally0 sunset (Service.boot (failing_at 0))
    = (Ok (Wan.mk_tally (Wan.uploaded_image_map Wan.tally0)
                        (Wan.active_dreams Wan.tally0) (Wan.job_count Wan.tally0)
                        (Wan.skipped_count Wan.tally0)
                        (Wan.failed_count Wan.tally0 + length [""])), w')
    /\ trace w' = trace (Service.boot (failing_at 0)) ++ evs
    /\ calls evs = [UploadFile (Wan.path_str sunset)]
    /\ In (Stdout ("  Failed to upload image: "
                     +:+ exn_str (RemoteError "service unavailable"))) evs.
Proof.
  apply (wan_failed_upload_fails_every_combo_of_the_image Service.client plain_job
           [""] ∅ (VStr "playlist-0") 1 Wan.tally0 sunset
           (Service.boot (failing_at 0)) (RemoteError "service unavailable") 0
           (Service.mk_state [] [("playlist-0", [])] 0 []
              0 [("thumbnail", VStr "https://cdn.example/thumb.png")])).
  - reflexivity.
  - reflexivity.
  - reflexivity.
Defined.

(** ** How the wan-i2v batch can stop *)

Lemma playlists_made_app (evs1 evs2 : list event) :
  playlists_made (evs1 ++ evs2) = playlists_made evs1 ++ playlists_made evs2.
Proof. unfold playlists_made. now rewrite !flat_map_app. Qed.

Section WanMain.
Context {R : Type} (client : Client R).

Lemma get_existing_journal (u : scalar) (w : world R) :
  exists ids evs w',
    Wan.get_existing_dream_identifiers client u w = (Ok ids, w')
    /\ trace w' = trace w ++ evs
    /\ uploads evs = [] /\ requests evs = [] /\ playlists_made evs = [].
Proof.
  unfold Wan.get_existing_dream_identifiers. unfold_monad.
  run; eexists _, _, _; (split; [reflexivity |]); (split; [trace_eq |]);
    repeat split.
Qed.

Lemma wan_poll_loop_returns (fuel : nat) :
  forall (start_time : Q) (pending : list scalar) (w : world R),
  exists left w', Wan.poll_loop client fuel start_time pending w = (Ok left, w').
Proof.
  induction fuel as [| fuel IH]; intros start_time pending w.
  - eexists _, _. reflexivity.
  - cbn [Wan.poll_loop]. destruct pending as [| u rest].
    + eexists _, _. reflexivity.
    + unfold_monad. reduce.
      destruct (negb (Qle_bool Wan.max_wait (clock w - start_time)));
        [| eexists _, _; reflexivity].
      destruct (wan_poll_round_spec client (u :: rest) w)
        as (completed & evs1 & w1 & -> & _).
      reduce. destruct (Wan.remove_completed (u :: rest) completed); reduce; apply IH.
Qed.

Lemma wan_poll_returns (fuel : nat) (active : list scalar) (playlist_uuid : scalar)
  (w : world R) :
  exists left w', Wan.poll client fuel active playlist_uuid w = (Ok left, w').
Proof.
  unfold Wan.poll. unfold_monad. reduce.
  match goal with
  | |- context [Wan.poll_loop client fuel ?t ?p ?w0] =>
      destruct (wan_poll_loop_returns fuel t p w0) as ([[| u rest] |] & w1 & ->)
  end; reduce; eexists _, _; reflexivity.
Qed.

Ltac wan_main_step :=
  reduce;
  first
    [ match goal with
      | |- context [Wan.get_existing_dream_identifiers client ?u ?w0] =>
          let H := fresh "Htrace" in
          let Hc := fresh "Hcalls" in
          destruct (get_existing_journal u w0) as (? & ? & ? & -> & H & Hc)
      | |- context [Wan.process_images client ?a ?b ?c ?d ?e ?st ?imgs ?w0] =>
          let H := fresh "Hacc" in
          destruct (process_images_accounted client a b c d e imgs st w0)
            as (? & ? & -> & H & _)
      | |- context [Wan.poll client ?f ?a ?p ?w0] =>
          destruct (wan_poll_returns f a p w0) as (? & ? & ->)
      end
    | case_step ].

(** X8. [main] from the reading of the combos on, for a job file whose
    combos, if it has any, are a list of strings. It ends in [sys.exit]
    exactly when the job file has no settings for a new playlist and names
    no playlist that can be used: none at all, or one whose lookup raises.
    The status is then 1, the last line printed says so, and the lookup, if
    any, is the only call that was made: nothing was uploaded and no job and
    no playlist was created. When [main] returns, the three counters add up
    to the number of tasks. *)
Theorem wan_main_exits_exactly_without_a_playlist (fuel : nat)
  (job_config : Wan.job_config) (images : list Wan.Path) (w : world R) :
  exists res w',
    Wan.main client fuel job_config images w = (res, w')
    /\ ((exists code, res = Exit code)
        <-> no_playlist_settings job_config /\ no_usable_playlist client job_config w)
    /\ (forall code,
          res = Exit code ->
          code = 1
          /\ exists evs,
               trace w' = trace w ++ evs
               /\ calls evs
                  = (if truthy (get_none "playlist_uuid" (Wan.settings job_config))
                     then [GetPlaylist (get_none "playlist_uuid" (Wan.settings job_config))
                                       None]
                     else [])
               /\ last evs
                  = Some (Stdout "Error: No playlist_uuid and no playlist config in job.json"))
    /\ (forall st pending,
          res = Ok (Some (st, pending)) ->
          (length (Wan.active_dreams st) + Wan.skipped_count st + Wan.failed_count st
           = length images * length (combos_in_use job_config))%nat).
Proof.
  unfold Wan.main, combos_in_use, no_playlist_settings, no_usable_playlist.
  unfold_monad.
  repeat wan_main_step.
  all: reduce.
  all: try match goal with
           | H : truthy ?x = _, H' : negb (truthy ?x) = _ |- _ =>
               rewrite H in H'; discriminate H'
           end.
  all: try match goal with
           | H : negb (truthy VNone) = false |- _ => discriminate H
           end.
  all: eexists _, _; (split; [reflexivity |]).
  all: split;
    [ split;
      [ intros [code Hcode]; try discriminate Hcode;
        (split;
         [ cbn [truthy_value]; first [reflexivity | assumption]
         | first [ left; reflexivity | right; eexists; reflexivity ] ])
      | intros [Hno Hun]; try (eexists; reflexivity); exfalso;
        cbn [truthy_value] in Hno;
        first [ discriminate Hno
              | congruence
              | destruct Hun as [Hun | [? Hun]]; discriminate Hun ] ]
    | ].
  all: (split;
    [ intros code Hcode; try discriminate Hcode; injection Hcode as <-;
      (split; [reflexivity |]); eexists;
      (split; [cbn [trace]; rewrite <- ?app_assoc; reflexivity |]);
      (split; [reflexivity | reflexivity])
    | intros st pending Hst; try discriminate Hst; injection Hst as <- <-;
      change (accounted Wan.tally0) with 0%nat in *; unfold accounted in *;
      cbn [length] in *; lia ]).
Qed.
End WanMain.

(** X9. Without an API key, with a job file that cannot be read, without
    "image_path" in it, or when the images cannot be listed, [main] ends in
    [sys.exit(1)] with a last message on stderr, and has made no remote call. *)
Theorem wan_script_exits_before_any_call_on_a_bad_launch {R : Type}
  (client : Client R) (fuel : nat) (l : Wan.launch) (w : world R) :
  bad_launch l ->
  exists w' msg,
    Wan.script client fuel l w = (Exit 1, w')
    /\ calls (trace w') = calls (trace w)
    /\ remote w' = remote w
    /\ last (trace w') = Some (Stderr msg).
Proof.
  intros Hbad. unfold Wan.script. unfold_monad. reduce.
  destruct (Wan.api_key l) as [[| c key] |] eqn:Hkey; reduce.
  1, 3: eexists _, _; split; [reflexivity |]; cbn [trace remote];
    rewrite !calls_app; cbn [calls flat_map]; rewrite ?app_nil_r;
    split; [reflexivity |]; split; [reflexivity | apply last_snoc].
  destruct Hbad as [Hbad | [Hbad | [(msg & Hl) | (jc & Hl & Hbad)]]];
    try (exfalso; congruence); rewrite Hl; reduce.
  - eexists _, _; split; [reflexivity |]; cbn [trace remote];
      rewrite !calls_app; cbn [calls flat_map]; rewrite ?app_nil_r;
      split; [reflexivity |]; split; [reflexivity | apply last_snoc].
  - destruct Hbad as [Hpath | (exception & msg & Himg)].
    + rewrite Hpath. reduce.
      eexists _, _; split; [reflexivity |]; cbn [trace remote];
        rewrite !calls_app; cbn [calls flat_map]; rewrite ?app_nil_r;
        split; [reflexivity |]; split; [reflexivity | apply last_snoc].
    + rewrite Himg.
      destruct (negb (truthy (get_none "image_path" (Wan.settings jc)))); reduce;
        eexists _, _; (split; [reflexivity |]); cbn [trace remote];
        rewrite !calls_app; cbn [calls flat_map]; rewrite ?app_nil_r;
        (split; [reflexivity |]); (split; [reflexivity | apply last_snoc]).
Qed.

Lemma wan_bad_launch_witness :
  exists w' msg,
    Wan.script Service.client 1
      (Wan.mk_launch "/work" "https://api.example/v1" (Some "key")
         (inl (Wan.mk_job_config [("image_path", VStr "in")] [] None))
         [("/work/in", Wan.Directory [("notes.txt", true)])])
      (Service.boot (Service.empty []))
    = (Exit 1, w')
    /\ calls (trace w') = calls (trace (Service.boot (Service.empty [])))
    /\ remote w' = remote (Service.boot (Service.empty []))
    /\ last (trace w') = Some (Stderr msg).
Proof.
  apply (wan_script_exits_before_any_call_on_a_bad_launch Service.client 1
           (Wan.mk_launch "/work" "https://api.example/v1" (Some "key")
              (inl (Wan.mk_job_config [("image_path", VStr "in")] [] None))
              [("/work/in", Wan.Directory [("notes.txt", true)])])
           (Service.boot (Service.empty []))).
  right. right. right. eexists. split; [reflexivity |]. right.
  eexists _, _. vm_compute. reflexivity.
Defined.

(** Two texts that end in pieces of one length are equal piece by piece. *)
Lemma append_inj_length (a a' b b' : string) :
  a +:+ b = a' +:+ b' -> String.length b = String.length b' -> a = a' /\ b = b'.
Proof.
  revert a'. induction a as [| c a IH]; intros [| c' a'] Heq Hlen.
  - now rewrite !append_empty in Heq.
  - apply (f_equal String.length) in Heq. rewrite append_empty, length_append in Heq.
    cbn [String.length] in Heq. lia.
  - apply (f_equal String.length) in Heq. rewrite append_empty, length_append in Heq.
    cbn [String.length] in Heq. lia.
  - rewrite !append_String in Heq. injection Heq as -> Heq.
    destruct (IH a' Heq Hlen) as [-> ->]. auto.
Qed.

(** X10. Two identifiers are equal exactly when the file names are equal
    and the fingerprints of the combos are equal: the name and the fingerprint
    are read off an identifier without ambiguity, whatever characters the name
    holds, and the directory of the image plays no part. *)
Theorem identifier_names_the_image_and_the_fingerprint (p p' : Wan.Path)
  (combo combo' : string) :
  Wan.create_job_identifier p combo = Wan.create_job_identifier p' combo'
  <-> Wan.name p = Wan.name p'
      /\ PyStr.take 8 (MD5.hexdigest (PyStr.encode combo))
         = PyStr.take 8 (MD5.hexdigest (PyStr.encode combo')).
Proof.
  unfold Wan.create_job_identifier. split.
  - intros Heq.
    destruct (fingerprint_word (PyStr.encode combo)) as [a Ha].
    destruct (fingerprint_word (PyStr.encode combo')) as [a' Ha'].
    apply append_inj_length in Heq as [Hn Hh].
    + split; [exact Hn |]. rewrite !append_String, !append_empty in Hh. congruence.
    + rewrite !length_append, Ha, Ha', !hex_length. reflexivity.
  - intros [-> ->]. reflexivity.
Qed.

(** ** The parameters of a job and the index of the jobs of earlier runs *)

Lemma get_set {A : Type} (k k' : string) (v : A) (d : list (string * A)) :
  get k (set k' v d) = if String.eqb k k' then Some v else get k d.
Proof.
  induction d as [| [k0 v0] d IH]; cbn [set get].
  - reflexivity.
  - destruct (String.eqb_spec k' k0) as [-> | Hne]; cbn [get].
    + destruct (String.eqb k k0); reflexivity.
    + rewrite IH. destruct (String.eqb_spec k k0) as [-> | Hne'].
      * destruct (String.eqb_spec k0 k'); [congruence | reflexivity].
      * reflexivity.
Qed.

(** Copying the settings named in [names] into [acc]: a name that the
    settings hold gets their value, every other key keeps its own. *)
Lemma get_copied (names : list string) (settings : dict) (k : string) :
  forall acc : dict,
    get k (fold_left (fun acc param =>
                        match get param settings with
                        | Some v => set param v acc
                        | None => acc
                        end) names acc)
    = if existsb (String.eqb k) names
      then match get k settings with Some v => Some v | None => get k acc end
      else get k acc.
Proof.
  induction names as [| n names IH]; intros acc; [reflexivity |].
  cbn [fold_left existsb]. rewrite IH.
  destruct (String.eqb_spec k n) as [-> | Hne]; cbn [orb].
  - destruct (get n settings) as [v |] eqn:Hn.
    + rewrite get_set, String.eqb_refl. now destruct (existsb _ names).
    + now destruct (existsb _ names).
  - destruct (get n settings) as [v |] eqn:Hn; [| reflexivity].
    rewrite get_set. destruct (String.eqb_spec k n); [congruence | reflexivity].
Qed.

(** X11. The parameters sent with a wan-i2v job: the algorithm name, the
    prompt and the image, which the job file cannot override; each of the nine
    optional settings "size", "duration", "num_inference_steps", "guidance",
    "seed", "negative_prompt", "flow_shift", "enable_prompt_optimization" and
    "enable_safety_checker" exactly when the job file has it, with its value
    there; and no other key of the job file. *)
Theorem wan_job_parameters_are_the_allowed_ones (job_config : Wan.job_config)
  (combined_prompt : string) (source_dream_uuid : scalar)
  (k : string) :
  get k (Wan.algo_params job_config combined_prompt source_dream_uuid)
  = if String.eqb k "infinidream_algorithm" then Some (VStr "wan-i2v")
    else if String.eqb k "prompt" then Some (VStr combined_prompt)
    else if String.eqb k "image" then Some source_dream_uuid
    else if existsb (String.eqb k)
              ["size"; "duration"; "num_inference_steps"; "guidance"; "seed";
               "negative_prompt"; "flow_shift"; "enable_prompt_optimization";
               "enable_safety_checker"]
         then get k (Wan.settings job_config)
         else None.
Proof.
  unfold Wan.algo_params. rewrite get_copied. unfold Wan.algo_param_names. cbn [get].
  destruct (String.eqb_spec k "infinidream_algorithm") as [-> | H1]; [reflexivity |].
  destruct (String.eqb_spec k "prompt") as [-> | H2]; [reflexivity |].
  destruct (String.eqb_spec k "image") as [-> | H3]; [reflexivity |].
  destruct (existsb _ _); [| reflexivity].
  now destruct (get k (Wan.settings job_config)).
Qed.

Lemma scan_items_tagged (its : list item) (ids : list string) :
  Forall2 (fun it identifier => tagged_item identifier it /\ readable identifier = true)
          its ids ->
  forall acc : gset string,
    Wan.scan_items its acc = (list_to_set ids ∪ acc, None).
Proof.
  induction 1 as [| it identifier its ids [[Htype (d & name & Hitem & Hdesc & Hname)] Hid] _ IH];
    intros acc; cbn [Wan.scan_items list_to_set].
  - now rewrite (left_id_L ∅ (∪)).
  - unfold readable in Hid. apply andb_true_iff in Hid as [Hid Hnot].
    apply andb_true_iff in Hid as [Hne Hws].
    apply negb_true_iff in Hne, Hnot. apply String.eqb_neq in Hne.
    rewrite (tag_is_read_back it d identifier name Htype Hitem Hdesc Hname Hne Hws Hnot).
    rewrite IH. f_equal.
    now rewrite (assoc_L (∪)), (comm_L (∪) (list_to_set ids)).
Qed.

(** X12. When the playlist lists jobs that were each tagged by the batch
    with an identifier that is not empty, has no white space in it and does not
    hold the marker, the index built from it is the set of these identifiers,
    whatever the names of the jobs. *)
Theorem index_holds_the_identifiers_of_the_tagged_jobs {R : Type} (client : Client R)
  (playlist_uuid : scalar) (w : world R) (fields : dict) (its : list item)
  (ids : list string) (dt : Q) (r1 : R) :
  get_playlist client playlist_uuid (Some true) (remote w)
  = (Returns (mk_playlist fields (Some its)), dt, r1) ->
  Forall2 (fun it identifier => tagged_item identifier it /\ readable identifier = true)
          its ids ->
  exists w',
    Wan.get_existing_dream_identifiers client playlist_uuid w
    = (Ok (list_to_set ids), w')
    /\ forall identifier, identifier ∈ (list_to_set ids : gset string) <-> In identifier ids.
Proof.
  intros Hget Htags.
  unfold Wan.get_existing_dream_identifiers. unfold_monad. reduce.
  rewrite Hget. reduce. cbn [pl_items].
  rewrite (scan_items_tagged its ids Htags ∅). reduce.
  eexists. split.
  - now rewrite (right_id_L ∅ (∪)).
  - intros identifier. rewrite elem_of_list_to_set. apply list_elem_of_In.
Qed.

Lemma index_round_trip_witness :
  exists w',
    Wan.get_existing_dream_identifiers Service.client (VStr "playlist-0")
      (Service.boot
         (Service.mk_state
            [("dream-1", [("uuid", VStr "dream-1"); ("name", VStr "sunset_combo-1");
                          ("description",
                           VStr "Batch generation. BATCH_IDENTIFIER:sunset.png:d41d8cd9");
                          ("status", VStr "queue")])]
            [("playlist-0", [Service.DreamRef "dream-1"])] 2 [] 0 []))
    = (Ok (list_to_set ["sunset.png:d41d8cd9"]), w')
    /\ forall identifier,
         identifier ∈ (list_to_set ["sunset.png:d41d8cd9"] : gset string)
         <-> In identifier ["sunset.png:d41d8cd9"].
Proof.
  eapply (index_holds_the_identifiers_of_the_tagged_jobs Service.client
            (VStr "playlist-0") _ _ _ ["sunset.png:d41d8cd9"]).
  - reflexivity.
  - constructor; [| constructor]. split; [| reflexivity].
    split; [reflexivity |]. eexists _, _. repeat split.
Defined.

(** ** The submission loop of the uprez batch *)

Lemma created_ids_app (evs1 evs2 : list event) :
  created_ids (evs1 ++ evs2) = created_ids evs1 ++ created_ids evs2.
Proof. unfold created_ids. now rewrite !flat_map_app. Qed.

Lemma updates_app (evs1 evs2 : list event) :
  updates (evs1 ++ evs2) = updates evs1 ++ updates evs2.
Proof. unfold updates. now rewrite !flat_map_app. Qed.

Lemma job_created_for_app (evs1 evs2 : list event) (u : scalar) :
  job_created_for evs1 u \/ job_created_for evs2 u -> job_created_for (evs1 ++ evs2) u.
Proof.
  intros [(req & d & n & Hin & H) | (req & d & n & Hin & H)];
    exists req, d, n; (split; [apply in_or_app; auto | exact H]).
Qed.

Lemma marks_have_jobs_app (evs1 evs2 : list event) :
  marks_have_jobs evs1 -> marks_have_jobs evs2 -> marks_have_jobs (evs1 ++ evs2).
Proof.
  intros H1 H2 u data Hin. rewrite updates_app in Hin.
  apply job_created_for_app. apply in_app_or in Hin as [Hin | Hin]; eauto.
Qed.

Section UprezSubmission.
Context {R : Type} (client : Client R).

Lemma update_dream_description_journal (u : scalar) (marker : string) (w : world R) :
  exists b evs w',
    Uprez.update_dream_description client u marker w = (Ok b, w')
    /\ trace w' = trace w ++ evs
    /\ created_ids evs = []
    /\ requests evs = []
    /\ forall u' data, In (u', data) (updates evs) -> u' = u.
Proof.
  unfold Uprez.update_dream_description, Uprez.lower_of. unfold_monad.
  run; eexists _, _, _; (split; [reflexivity |]); (split; [trace_eq |]);
    (split; [reflexivity |]); (split; [reflexivity |]);
    cbn; intros u' data Hin; intuition congruence.
Qed.

Lemma submit_one_journal (cfg : Uprez.config) (output_playlist_uuid : scalar)
  (total idx : nat) (active_jobs : list scalar) (dream_data : Uprez.entry)
  (w : world R) :
  exists res evs w',
    Uprez.submit_one client cfg output_playlist_uuid total idx active_jobs dream_data w
    = (res, w')
    /\ trace w' = trace w ++ evs
    /\ marks_have_jobs evs
    /\ match res with
       | Ok active_jobs' => active_jobs' = active_jobs ++ created_ids evs
       | Raise _ =>
           (exists v, Uprez.dream dream_data = Sc v)
           \/ (exists v, Uprez.uprez_config cfg = Sc v)
       | Exit _ => False
       end.
Proof.
  unfold Uprez.submit_one, Uprez.entry_get, index. unfold_monad. reduce.
  destruct (Uprez.dream dream_data) as [v | fields] eqn:Hd; reduce.
  { eexists _, [], _. rewrite app_nil_r. split; [reflexivity |].
    split; [reflexivity |]. split; [intros ? ? [] |]. eauto. }
  destruct (Uprez.uprez_config cfg) as [v | settings] eqn:Hcfg;
    cbn [Uprez.algo_params]; reduce.
  { eexists _, _, _. split; [reflexivity |]. split; [trace_eq |].
    split; [intros ? ? [] |]. eauto. }
  destruct (create_dream_from_prompt client _ _) as [[[new_dream | e] dt] r1] eqn:Hc;
    reduce.
  2:{ eexists _, _, _. split; [reflexivity |]. split; [trace_eq |].
      split; [intros ? ? [] |]. cbn. now rewrite app_nil_r. }
  destruct (get "uuid" new_dream) as [uuid |] eqn:Hu; reduce.
  2:{ eexists _, _, _. split; [reflexivity |]. split; [trace_eq |].
      split; [intros ? ? [] |]. cbn. rewrite Hu. now rewrite app_nil_r. }
  assert (Hfinish : forall pre evs : list event,
    created_ids evs = [] ->
    (forall u' data, In (u', data) (updates evs) -> u' = get_none "uuid" fields) ->
    updates pre = [] ->
    created_ids pre = [uuid] ->
    job_created_for pre (get_none "uuid" fields) ->
    marks_have_jobs (pre ++ evs)
    /\ active_jobs ++ [uuid] = active_jobs ++ created_ids (pre ++ evs)).
  { intros pre evs Hci Hup Hpre Hcre Hjob. split.
    - intros u data Hin. rewrite updates_app, Hpre in Hin. cbn [app] in Hin.
      apply Hup in Hin. subst u. apply job_created_for_app. now left.
    - now rewrite created_ids_app, Hci, Hcre. }
  assert (Hjob : forall (l1 l2 : list event) (req : request),
    get "video_uuid" (req_prompt req) = Some (get_none "uuid" fields) ->
    job_created_for
      (l1 ++ [Called (CreateDream req) (seen GotObject (Returns new_dream))] ++ l2)
      (get_none "uuid" fields)).
  { intros l1 l2 req Hreq. exists req, new_dream, uuid. split.
    - apply in_or_app. right. left. reflexivity.
    - split; [exact Hreq | exact Hu]. }
  destruct (add_item_to_playlist client _ _ _) as [[[[] | e] dt'] r2] eqn:Ha; reduce.
  - match goal with
    | |- context [Uprez.update_dream_description client ?u ?m ?w0] =>
        destruct (update_dream_description_journal u m w0)
          as (b & evs & w1 & -> & Ht & Hci & Hrq & Hup)
    end.
    reduce. cbn [trace] in Ht.
    eexists _, _, _. split; [reflexivity |].
    split; [rewrite Ht, <- !app_assoc; reflexivity |].
    rewrite !app_assoc. apply (Hfinish _ evs Hci Hup).
    + reflexivity.
    + cbn. now rewrite Hu.
    + rewrite <- !app_assoc. apply Hjob. reflexivity.
  - match goal with
    | |- context [Uprez.update_dream_description client ?u ?m ?w0] =>
        destruct (update_dream_description_journal u m w0)
          as (b & evs & w1 & -> & Ht & Hci & Hrq & Hup)
    end.
    reduce. cbn [trace] in Ht.
    eexists _, _, _. split; [reflexivity |].
    split; [rewrite Ht, <- !app_assoc; reflexivity |].
    rewrite !app_assoc. apply (Hfinish _ evs Hci Hup).
    + reflexivity.
    + cbn. now rewrite Hu.
    + rewrite <- !app_assoc. apply Hjob. reflexivity.
Qed.

Lemma submit_from_journal (cfg : Uprez.config) (output_playlist_uuid : scalar)
  (total : nat) (todo : list Uprez.entry) :
  forall (idx : nat) (active_jobs : list scalar) (w : world R),
  exists res evs w',
    Uprez.submit_from client cfg output_playlist_uuid total idx active_jobs todo w
    = (res, w')
    /\ trace w' = trace w ++ evs
    /\ marks_have_jobs evs
    /\ match res with
       | Ok active_jobs' => active_jobs' = active_jobs ++ created_ids evs
       | Raise _ =>
           (exists dream_data v, In dream_data todo /\ Uprez.dream dream_data = Sc v)
           \/ (exists v, Uprez.uprez_config cfg = Sc v)
       | Exit _ => False
       end.
Proof.
  induction todo as [| dream_data rest IH]; intros idx active_jobs w.
  - exists (Ok active_jobs), [], w. rewrite !app_nil_r.
    split; [reflexivity |]. split; [reflexivity |]. split; [intros ? ? [] | reflexivity].
  - cbn [Uprez.submit_from]. unfold bind.
    destruct (submit_one_journal cfg output_playlist_uuid total idx active_jobs
                dream_data w) as (res1 & evs1 & w1 & -> & Ht1 & Hm1 & Hres1).
    destruct res1 as [active1 | e | code]; [| | destruct Hres1].
    + destruct (IH (S idx) active1 w1) as (res2 & evs2 & w2 & -> & Ht2 & Hm2 & Hres2).
      exists res2, (evs1 ++ evs2), w2. split; [reflexivity |].
      split; [rewrite Ht2, Ht1; now rewrite app_assoc |].
      split; [now apply marks_have_jobs_app |].
      destruct res2 as [active2 | e | code]; [| | exact Hres2].
      * rewrite Hres2, Hres1, created_ids_app. now rewrite app_assoc.
      * destruct Hres2 as [(d & v & Hin & Hd) | Hcfg]; [left | now right].
        exists d, v. split; [now right | exact Hd].
    + exists (Raise e), evs1, w1.
      split; [reflexivity |]. split; [exact Ht1 |]. split; [exact Hm1 |].
      destruct Hres1 as [(v & Hd) | Hcfg]; [left | now right].
      exists dream_data, v. split; [now left | exact Hd].
Qed.

End UprezSubmission.

(** X13. Whatever the service answers, the submission loop of the uprez
    batch updates the description of a dream only when, among its calls, the
    service created an uprez job for that dream and reported its id: a dream
    whose job could not be created is not marked, and will be tried again by
    the next run. *)
Theorem uprez_marks_a_dream_only_after_its_job_was_created {R : Type}
  (client : Client R) (cfg : Uprez.config) (output_playlist_uuid : scalar)
  (total idx : nat) (active_jobs : list scalar) (todo : list Uprez.entry)
  (w : world R) :
  exists res evs w',
    Uprez.submit_from client cfg output_playlist_uuid total idx active_jobs todo w
    = (res, w')
    /\ trace w' = trace w ++ evs
    /\ forall u data,
         In (u, data) (updates evs) ->
         exists req d new_uuid,
           In (Called (CreateDream req) (Returns (GotObject d))) evs
           /\ get "video_uuid" (req_prompt req) = Some u
           /\ get "uuid" d = Some new_uuid.
Proof.
  destruct (submit_from_journal client cfg output_playlist_uuid total todo idx
              active_jobs w) as (res & evs & w' & Hrun & Ht & Hm & _).
  exists res, evs, w'. split; [exact Hrun |]. split; [exact Ht |]. exact Hm.
Qed.

(** X14. When the submission loop of the uprez batch returns,
    [active_jobs] is what it was with, after it and in order, the ids of all
    the jobs that the service created and reported, whatever became of the
    calls that attach them to the playlist and mark their sources. The loop
    raises only on an entry whose dream is no object or when "uprez_config"
    is no object, and never exits. *)
Theorem uprez_polls_every_job_the_service_created {R : Type}
  (client : Client R) (cfg : Uprez.config) (output_playlist_uuid : scalar)
  (total idx : nat) (active_jobs : list scalar) (todo : list Uprez.entry)
  (w : world R) :
  exists res evs w',
    Uprez.submit_from client cfg output_playlist_uuid total idx active_jobs todo w
    = (res, w')
    /\ trace w' = trace w ++ evs
    /\ match res with
       | Ok active_jobs' => active_jobs' = active_jobs ++ created_ids evs
       | Raise _ =>
           (exists dream_data v, In dream_data todo /\ Uprez.dream dream_data = Sc v)
           \/ (exists v, Uprez.uprez_config cfg = Sc v)
       | Exit _ => False
       end.
Proof.
  destruct (submit_from_journal client cfg output_playlist_uuid total todo idx
              active_jobs w) as (res & evs & w' & Hrun & Ht & _ & Hres).
  exists res, evs, w'. auto.
Qed.

(** A configuration whose "uprez_config" is [null]: the loop raises at the
    first entry, before any call. *)
Example uprez_config_that_is_no_object :
  Uprez.submit_from Service.client
    (Uprez.mk_config (VStr "source") (Sc VNone) "uprez" VNone (Obj []))
    (VStr "out") 1 1 []
    [Uprez.mk_entry (Obj [("uuid", VStr "a"); ("name", VStr "River")]) None]
    (Service.boot (Service.empty []))
  = (Raise (AttributeError "'NoneType' object has no attribute 'get'"),
     mk_world (Service.empty []) 0 [Stdout "[1/1] Processing: River (a)"]).
Proof. vm_compute. reflexivity. Qed.

(** ** The scan for dreams that were processed already *)

Lemma marker_seen_app (marker : string) (evs1 evs2 : list event) (u : scalar) :
  marker_seen marker evs1 u \/ marker_seen marker evs2 u ->
  marker_seen marker (evs1 ++ evs2) u.
Proof.
  intros [(d & s & Hin & H) | (d & s & Hin & H)]; exists d, s;
    (split; [apply in_or_app; auto | exact H]).
Qed.

Section UprezScan.
Context {R : Type} (client : Client R).

Lemma is_dream_already_uprezed_journal (u : scalar) (marker : string) (w : world R) :
  exists already evs w',
    Uprez.is_dream_already_uprezed client u marker w = (Ok already, w')
    /\ trace w' = trace w ++ evs
    /\ queried evs = [u]
    /\ (already = true -> marker_seen marker evs u).
Proof.
  unfold Uprez.is_dream_already_uprezed, Uprez.lower_of. unfold_monad.
  run; eexists _, _, _; (split; [reflexivity |]); (split; [trace_eq |]);
    (split; [reflexivity |]); intros Hal; try discriminate Hal.
  eexists _, _. split; [left; reflexivity |]. split; [eassumption |].
  congruence.
Qed.

Lemma scan_journal (marker : string) (all_dreams : list Uprez.entry) :
  forall w : world R,
  exists res evs w',
    Uprez.scan client marker all_dreams w = (res, w')
    /\ trace w' = trace w ++ evs
    /\ match res with
       | Ok dreams_to_process =>
           sublist dreams_to_process all_dreams
           /\ (exists ids,
                 Forall2 (fun dream_data u => Uprez.entry_get "uuid" (Uprez.dream dream_data)
                                              = Returns u) all_dreams ids
                 /\ queried evs = ids)
           /\ (forall dream_data,
                 In dream_data all_dreams -> ~ In dream_data dreams_to_process ->
                 exists u, Uprez.entry_get "uuid" (Uprez.dream dream_data) = Returns u
                           /\ marker_seen marker evs u)
       | Raise _ =>
           exists dream_data v, In dream_data all_dreams /\ Uprez.dream dream_data = Sc v
       | Exit _ => False
       end.
Proof.
  induction all_dreams as [| dream_data rest IH]; intros w.
  - exists (Ok []), [], w. rewrite app_nil_r. split; [reflexivity |].
    split; [reflexivity |]. split; [constructor |].
    split; [exists []; split; [constructor | reflexivity] | intros ? []].
  - cbn [Uprez.scan]. unfold bind at 1. unfold lift, Uprez.entry_get.
    destruct (Uprez.dream dream_data) as [v | fields] eqn:Hd.
    { exists (Raise (no_attribute (type_name v) "get")), [], w. rewrite app_nil_r.
      split; [reflexivity |]. split; [reflexivity |].
      exists dream_data, v. split; [now left | exact Hd]. }
    unfold ret at 1. unfold bind at 1.
    destruct (is_dream_already_uprezed_journal (get_none "uuid" fields) marker w)
      as (already & evs1 & w1 & -> & Ht1 & Hq1 & Hseen).
    unfold bind at 1.
    destruct (IH w1) as (res2 & evs2 & w2 & -> & Ht2 & Hres2).
    destruct res2 as [kept | e | code]; [| | destruct Hres2].
    + destruct Hres2 as (Hsub & (ids & Hids & Hq2) & Hdrop).
      eexists _, (evs1 ++ evs2), _. split; [reflexivity |].
      split; [rewrite Ht2, Ht1; now rewrite app_assoc |].
      split; [| split].
      * destruct already; [now apply sublist_cons | now apply sublist_skip].
      * exists (get_none "uuid" fields :: ids). split.
        -- constructor; [now rewrite Hd | exact Hids].
        -- now rewrite queried_app, Hq1, Hq2.
      * intros d [<- | Hin] Hnot.
        -- exists (get_none "uuid" fields). rewrite Hd. split; [reflexivity |].
           apply marker_seen_app. left. apply Hseen.
           destruct already; [reflexivity |]. destruct Hnot. now left.
        -- destruct (Hdrop d Hin) as (u & Hu & Hs).
           { intros Hk. apply Hnot. destruct already; [exact Hk | now right]. }
           exists u. split; [exact Hu |]. apply marker_seen_app. now right.
    + destruct Hres2 as (d & v & Hin & Hv).
      eexists _, (evs1 ++ evs2), _. split; [reflexivity |].
      split; [rewrite Ht2, Ht1; now rewrite app_assoc |].
      exists d, v. split; [now right | exact Hv].
Qed.

End UprezScan.

(** X15. The scan for processed dreams looks every listed dream up once,
    in order, and keeps the dreams to process in the order of the listing. A
    dream is left out only when a lookup of this scan was answered with a
    record whose description holds the marker, whatever the case of the
    letters. The scan raises only on an entry whose dream is no object. *)
Theorem uprez_scan_drops_a_dream_only_when_it_saw_the_marker {R : Type}
  (client : Client R) (marker : string) (all_dreams : list Uprez.entry) (w : world R) :
  exists res evs w',
    Uprez.scan client marker all_dreams w = (res, w')
    /\ trace w' = trace w ++ evs
    /\ match res with
       | Ok dreams_to_process =>
           sublist dreams_to_process all_dreams
           /\ (exists ids,
                 Forall2 (fun dream_data u => Uprez.entry_get "uuid" (Uprez.dream dream_data)
                                              = Returns u) all_dreams ids
                 /\ queried evs = ids)
           /\ (forall dream_data,
                 In dream_data all_dreams -> ~ In dream_data dreams_to_process ->
                 exists u, Uprez.entry_get "uuid" (Uprez.dream dream_data) = Returns u
                           /\ marker_seen marker evs u)
       | Raise _ =>
           exists dream_data v, In dream_data all_dreams /\ Uprez.dream dream_data = Sc v
       | Exit _ => False
       end.
Proof. apply scan_journal. Qed.

(** ** Polling jobs that are all done *)

Lemma eq_same (u : scalar) : eq u u = true.
Proof.
  destruct u as [| b | z | s]; cbn.
  - reflexivity.
  - destruct b; reflexivity.
  - apply Z.eqb_refl.
  - apply String.eqb_refl.
Qed.

Lemma mem_in (u : scalar) (l : list scalar) : In u l -> mem u l = true.
Proof.
  intros Hin. unfold mem. apply existsb_exists. exists u. split; [exact Hin | apply eq_same].
Qed.

Lemma remove_all_completed (pending : list scalar) :
  Wan.remove_completed pending pending = [].
Proof.
  unfold Wan.remove_completed.
  assert (H : forall l, (forall u, In u l -> In u pending) ->
                        List.filter (fun u => negb (mem u pending)) l = []).
  { induction l as [| u l IH]; intros Hl; [reflexivity |].
    cbn [List.filter]. rewrite (mem_in u pending) by (apply Hl; now left).
    cbn [negb]. apply IH. intros u' Hu'. apply Hl. now right. }
  now apply H.
Qed.

Lemma to_set_in (u : scalar) (l : list scalar) : In u (to_set l) -> In u l.
Proof.
  induction l as [| x l IH]; cbn [to_set]; [auto |].
  intros [<- | Hin]; [now left |]. right. apply IH.
  now apply filter_In in Hin as [Hin _].
Qed.

Lemma not_yet_late (x : Q) (limit : Q) :
  (0 < limit)%Q -> negb (Qle_bool limit (x - x)) = true.
Proof.
  intros Hpos. apply negb_true_iff. destruct (Qle_bool limit (x - x)) eqn:Hle; [| reflexivity].
  apply Qle_bool_iff in Hle. lra.
Qed.

Section AllDone.
Context {R : Type} (client : Client R).
(** [Inv] holds of the states the service goes through; in them, every
    one of the [ids] is reported with a terminal status. *)
Variable Inv : R -> Prop.
Variable ids : list scalar.
Hypothesis all_terminal :
  forall (u : scalar) (r : R),
    In u ids -> Inv r ->
    exists d dt r',
      get_dream client u r = (Returns (Some d), dt, r')
      /\ Inv r' /\ is_terminal d = true.

Lemma wan_check_status_done (u : scalar) (w : world R) :
  In u ids -> Inv (remote w) ->
  exists evs w',
    Wan.check_status client u w = (Ok true, w')
    /\ Inv (remote w')
    /\ trace w' = trace w ++ evs
    /\ schedule evs = [inl u].
Proof.
  intros Hu Hinv.
  destruct (all_terminal u (remote w) Hu Hinv) as (d & dt & r' & Hget & Hinv' & Hterm).
  unfold Wan.check_status, as_dict. unfold_monad. reduce. rewrite Hget. reduce.
  unfold is_terminal in Hterm.
  destruct (eq_str (get_none "status" d) "processed"); reduce.
  - eexists _, _. split; [reflexivity |]. split; [exact Hinv' |].
    split; [trace_eq | reflexivity].
  - cbn [orb] in Hterm. rewrite Hterm. reduce.
    eexists _, _. split; [reflexivity |]. split; [exact Hinv' |].
    split; [trace_eq | reflexivity].
Qed.

Lemma uprez_check_status_done (u : scalar) (w : world R) :
  In u ids -> Inv (remote w) ->
  exists evs w',
    Uprez.check_status client u w = (Ok true, w')
    /\ Inv (remote w')
    /\ trace w' = trace w ++ evs
    /\ schedule evs = [inl u].
Proof.
  intros Hu Hinv.
  destruct (all_terminal u (remote w) Hu Hinv) as (d & dt & r' & Hget & Hinv' & Hterm).
  unfold Uprez.check_status, as_dict. unfold_monad. reduce. rewrite Hget. reduce.
  unfold is_terminal in Hterm.
  destruct (eq_str (get_none "status" d) "processed"); reduce.
  - eexists _, _. split; [reflexivity |]. split; [exact Hinv' |].
    split; [trace_eq | reflexivity].
  - cbn [orb] in Hterm. rewrite Hterm. reduce.
    eexists _, _. split; [reflexivity |]. split; [exact Hinv' |].
    split; [trace_eq | reflexivity].
Qed.

Lemma wan_poll_round_done (pending : list scalar) :
  forall w : world R,
    (forall u, In u pending -> In u ids) -> Inv (remote w) ->
    exists evs w',
      Wan.poll_round client pending w = (Ok pending, w')
      /\ Inv (remote w')
      /\ trace w' = trace w ++ evs
      /\ schedule evs = map inl pending.
Proof.
  induction pending as [| u rest IH]; intros w Hsub Hinv.
  - exists [], w. rewrite app_nil_r. auto.
  - cbn [Wan.poll_round]. unfold bind.
    destruct (wan_check_status_done u w (Hsub u (or_introl eq_refl)) Hinv)
      as (evs1 & w1 & -> & Hinv1 & Ht1 & Hs1).
    destruct (IH w1 (fun u' H => Hsub u' (or_intror H)) Hinv1)
      as (evs2 & w2 & -> & Hinv2 & Ht2 & Hs2).
    exists (evs1 ++ evs2), w2. split; [reflexivity |]. split; [exact Hinv2 |].
    split; [rewrite Ht2, Ht1; now rewrite app_assoc |].
    now rewrite schedule_app, Hs1, Hs2.
Qed.

Lemma uprez_poll_round_done (pending : list scalar) :
  forall w : world R,
    (forall u, In u pending -> In u ids) -> Inv (remote w) ->
    exists evs w',
      Uprez.poll_round client pending w = (Ok pending, w')
      /\ Inv (remote w')
      /\ trace w' = trace w ++ evs
      /\ schedule evs = map inl pending.
Proof.
  induction pending as [| u rest IH]; intros w Hsub Hinv.
  - exists [], w. rewrite app_nil_r. auto.
  - cbn [Uprez.poll_round]. unfold bind.
    destruct (uprez_check_status_done u w (Hsub u (or_introl eq_refl)) Hinv)
      as (evs1 & w1 & -> & Hinv1 & Ht1 & Hs1).
    destruct (IH w1 (fun u' H => Hsub u' (or_intror H)) Hinv1)
      as (evs2 & w2 & -> & Hinv2 & Ht2 & Hs2).
    exists (evs1 ++ evs2), w2. split; [reflexivity |]. split; [exact Hinv2 |].
    split; [rewrite Ht2, Ht1; now rewrite app_assoc |].
    now rewrite schedule_app, Hs1, Hs2.
Qed.

Lemma wan_poll_done (fuel : nat) (active : list scalar) (playlist_uuid : scalar)
  (w : world R) :
  (forall u, In u active -> In u ids) -> Inv (remote w) -> (2 <= fuel)%nat ->
  exists evs w',
    Wan.poll client fuel active playlist_uuid w = (Ok (Some []), w')
    /\ trace w' = trace w ++ evs
    /\ schedule evs = map inl (to_set active)
    /\ exists evs',
         evs = evs' ++ [Stdout (nl +:+ "All jobs accounted for.");
                        Stdout (nl +:+ "Batch process finished. Playlist: "
                                  +:+ str playlist_uuid)].
Proof.
  intros Hsub Hinv Hfuel. destruct fuel as [| [| fuel]]; [lia | lia |].
  unfold Wan.poll. unfold_monad. reduce. cbn [Wan.poll_loop].
  destruct (to_set active) as [| u rest] eqn:Hset.
  - unfold_monad. reduce. eexists _, _. split; [reflexivity |].
    split; [trace_eq |]. split; [reflexivity |]. eexists [_]. reflexivity.
  - unfold_monad. reduce. rewrite not_yet_late by reflexivity.
    match goal with
    | |- context [Wan.poll_round client ?p ?w0] =>
        destruct (wan_poll_round_done p w0) as (evs & w1 & -> & Hinv1 & Ht & Hs)
    end.
    { intros u' Hu'. apply Hsub, to_set_in. now rewrite Hset. }
    { exact Hinv. }
    reduce. rewrite remove_all_completed. reduce. cbn [trace] in Ht.
    eexists _, _. split; [reflexivity |].
    split; [rewrite Ht, <- !app_assoc; reflexivity |].
    rewrite !schedule_app, Hs. split; [cbn; now rewrite app_nil_r |].
    eexists (_ :: _). reflexivity.
Qed.

Lemma uprez_poll_done (fuel : nat) (active : list scalar) (w : world R) :
  (forall u, In u active -> In u ids) -> Inv (remote w) -> (2 <= fuel)%nat ->
  exists evs w',
    Uprez.poll client fuel active w = (Ok (Some []), w')
    /\ trace w' = trace w ++ evs
    /\ schedule evs = map inl (to_set active)
    /\ last evs = Some (Stdout "All jobs finished.").
Proof.
  intros Hsub Hinv Hfuel. destruct fuel as [| [| fuel]]; [lia | lia |].
  unfold Uprez.poll. unfold_monad. reduce. cbn [Uprez.poll_loop].
  destruct (to_set active) as [| u rest] eqn:Hset.
  - unfold_monad. reduce. eexists _, _. split; [reflexivity |].
    split; [trace_eq |]. split; reflexivity.
  - unfold_monad. reduce. rewrite not_yet_late by reflexivity.
    match goal with
    | |- context [Uprez.poll_round client ?p ?w0] =>
        destruct (uprez_poll_round_done p w0) as (evs & w1 & -> & Hinv1 & Ht & Hs)
    end.
    { intros u' Hu'. apply Hsub, to_set_in. now rewrite Hset. }
    { exact Hinv. }
    reduce. rewrite remove_all_completed. reduce. cbn [trace] in Ht.
    eexists _, _. split; [reflexivity |].
    split; [rewrite Ht, <- !app_assoc; reflexivity |].
    rewrite !schedule_app, Hs. split; [cbn; now rewrite app_nil_r |].
    rewrite !app_assoc. apply last_snoc.
Qed.

End AllDone.

(** X16. When every submitted job is reported with a terminal status, the
    poller of the wan-i2v batch asks for each distinct id once, does not sleep,
    hands back an empty pending set, and ends with "All jobs accounted for."
    and the closing line. *)
Theorem wan_poll_ends_at_once_when_every_job_is_done {R : Type} (client : Client R)
  (Inv : R -> Prop) (fuel : nat) (active : list scalar) (playlist_uuid : scalar)
  (w : world R) :
  (forall (u : scalar) (r : R),
      In u active -> Inv r ->
      exists d dt r',
        get_dream client u r = (Returns (Some d), dt, r')
        /\ Inv r' /\ is_terminal d = true) ->
  Inv (remote w) ->
  (2 <= fuel)%nat ->
  exists evs w',
    Wan.poll client fuel active playlist_uuid w = (Ok (Some []), w')
    /\ trace w' = trace w ++ evs
    /\ schedule evs = map inl (to_set active)
    /\ exists evs',
         evs = evs' ++ [Stdout (nl +:+ "All jobs accounted for.");
                        Stdout (nl +:+ "Batch process finished. Playlist: "
                                  +:+ str playlist_uuid)].
Proof.
  intros Hall Hinv Hfuel.
  apply (wan_poll_done client Inv active Hall fuel active playlist_uuid w); auto.
Qed.

Lemma processed_jobs_stay (u : scalar) (r : Service.state) :
  In u (queued_ids 2) -> r = mixed_service 2 ->
  exists d dt r',
    get_dream Service.client u r = (Returns (Some d), dt, r')
    /\ r' = mixed_service 2 /\ is_terminal d = true.
Proof.
  intros [<- | [<- | []]] ->; eexists _, _, _; (split; [reflexivity |]);
    split; reflexivity.
Qed.

Lemma wan_poll_done_witness :
  exists evs w',
    Wan.poll Service.client 2 (queued_ids 2) (VStr "playlist-0")
      (Service.boot (mixed_service 2)) = (Ok (Some []), w')
    /\ trace w' = trace (Service.boot (mixed_service 2)) ++ evs
    /\ schedule evs = map inl (to_set (queued_ids 2))
    /\ exists evs',
         evs = evs' ++ [Stdout (nl +:+ "All jobs accounted for.");
                        Stdout (nl +:+ "Batch process finished. Playlist: "
                                  +:+ str (VStr "playlist-0"))].
Proof.
  apply (wan_poll_ends_at_once_when_every_job_is_done Service.client
           (fun r => r = mixed_service 2) 2 (queued_ids 2) (VStr "playlist-0")
           (Service.boot (mixed_service 2))).
  - exact processed_jobs_stay.
  - reflexivity.
  - lia.
Defined.

(** X17. When every job is reported with a terminal status, the poller of
    the uprez batch asks for each distinct id once, does not sleep, hands back
    an empty pending set, and ends with "All jobs finished."; with no job at
    all it ends so without any status query. *)
Theorem uprez_poll_ends_at_once_when_every_job_is_done {R : Type} (client : Client R)
  (Inv : R -> Prop) (fuel : nat) (active_jobs : list scalar) (w : world R) :
  (forall (u : scalar) (r : R),
      In u active_jobs -> Inv r ->
      exists d dt r',
        get_dream client u r = (Returns (Some d), dt, r')
        /\ Inv r' /\ is_terminal d = true) ->
  Inv (remote w) ->
  (2 <= fuel)%nat ->
  exists evs w',
    Uprez.poll client fuel active_jobs w = (Ok (Some []), w')
    /\ trace w' = trace w ++ evs
    /\ schedule evs = map inl (to_set active_jobs)
    /\ last evs = Some (Stdout "All jobs finished.").
Proof.
  intros Hall Hinv Hfuel.
  apply (uprez_poll_done client Inv active_jobs Hall fuel active_jobs w); auto.
Qed.

Lemma uprez_poll_done_witness :
  exists evs w',
    Uprez.poll Service.client 2 (queued_ids 2) (Service.boot (mixed_service 2))
    = (Ok (Some []), w')
    /\ trace w' = trace (Service.boot (mixed_service 2)) ++ evs
    /\ schedule evs = map inl (to_set (queued_ids 2))
    /\ last evs = Some (Stdout "All jobs finished.").
Proof.
  apply (uprez_poll_ends_at_once_when_every_job_is_done Service.client
           (fun r => r = mixed_service 2) 2 (queued_ids 2)
           (Service.boot (mixed_service 2))).
  - exact processed_jobs_stay.
  - reflexivity.
  - lia.
Defined.

(** ** The qwen-image batch: what it asks for *)

(** X18. The parameters sent with a qwen-image job: the algorithm name and
    the prompt; "seed" exactly when the configuration has a seed that is
    neither [None] nor -1, and then that seed, the same for every generation;
    "size", "negative_prompt" and "enable_safety_checker" exactly when the
    configuration has them; and no other key. *)
Theorem qwen_job_parameters_are_the_allowed_ones (settings : dict) (prompt : scalar)
  (idx : nat) (k : string) :
  get k (Qwen.algo_params settings prompt (Qwen.seed_of settings idx))
  = if String.eqb k "infinidream_algorithm" then Some (VStr "qwen-image")
    else if String.eqb k "prompt" then Some prompt
    else if String.eqb k "seed" then fixed_seed settings
    else if existsb (String.eqb k) ["size"; "negative_prompt"; "enable_safety_checker"]
         then get k settings
    else None.
Proof.
  unfold Qwen.algo_params. rewrite get_copied. unfold Qwen.copied_params.
  assert (Hseed :
    (if negb (Qwen.is_none (Qwen.seed_of settings idx))
        && negb (eq (Qwen.seed_of settings idx) (VInt (-1)))
     then set "seed" (Qwen.seed_of settings idx)
            [("infinidream_algorithm", VStr "qwen-image"); ("prompt", prompt)]
     else [("infinidream_algorithm", VStr "qwen-image"); ("prompt", prompt)])
    = match fixed_seed settings with
      | Some seed => [("infinidream_algorithm", VStr "qwen-image"); ("prompt", prompt);
                      ("seed", seed)]
      | None => [("infinidream_algorithm", VStr "qwen-image"); ("prompt", prompt)]
      end).
  { unfold Qwen.seed_of, fixed_seed, get_none, get_or. cbv zeta.
    destruct (get "seed" settings) as [[| b | z | t] |]; cbn [Qwen.is_none orb];
      try (now destruct (idx =? 1)%nat).
    all: match goal with
         | |- context [eq ?a ?b] => destruct (eq a b) eqn:Hs
         end; cbn [negb andb orb Qwen.is_none]; rewrite ?Hs;
      try reflexivity; now destruct (idx =? 1)%nat. }
  rewrite Hseed. clear Hseed.
  destruct (String.eqb_spec k "infinidream_algorithm") as [-> | H1].
  { now destruct (fixed_seed settings). }
  destruct (String.eqb_spec k "prompt") as [-> | H2].
  { now destruct (fixed_seed settings). }
  destruct (String.eqb_spec k "seed") as [-> | H3].
  { now destruct (fixed_seed settings). }
  apply String.eqb_neq in H1, H2, H3.
  destruct (fixed_seed settings); cbn [get]; rewrite H1, H2, ?H3;
    destruct (existsb _ _); try reflexivity; now destruct (get k settings).
Qed.

Example qwen_seed_is_sent_as_configured :
  get "seed" (Qwen.algo_params [("prompt", VStr "a fox"); ("seed", VInt 7)]
                (VStr "a fox") (Qwen.seed_of [("prompt", VStr "a fox"); ("seed", VInt 7)] 3))
  = Some (VInt 7)
  /\ get "seed" (Qwen.algo_params [("prompt", VStr "a fox"); ("seed", VInt (-1))]
                   (VStr "a fox")
                   (Qwen.seed_of [("prompt", VStr "a fox"); ("seed", VInt (-1))] 1))
     = None.
Proof. split; reflexivity. Qed.

(** The requests of [evs1] are counted before those of [evs2]. *)
Lemma started_jobs_app (evs1 evs2 : list event) :
  forall idx : nat,
    started_jobs idx (evs1 ++ evs2)
    = started_jobs idx evs1 ++ started_jobs (idx + length (requests evs1)) evs2.
Proof.
  induction evs1 as [| e evs1 IH]; intros idx.
  - cbn. now rewrite Nat.add_0_r.
  - destruct e as [c a | | |]; cbn [app started_jobs requests flat_map];
      fold (requests evs1); try apply IH.
    destruct c; cbn [app length]; rewrite ?IH, ?Nat.add_0_r; try reflexivity.
    rewrite <- app_assoc. f_equal. f_equal. f_equal. lia.
Qed.

Section QwenSubmission.
Context {R : Type} (client : Client R).

Lemma qwen_submit_one_journal (settings : dict) (prompt num_generations : scalar)
  (active_jobs : list (scalar * nat)) (idx : nat) (w : world R) :
  exists started evs w',
    Qwen.submit_one client settings prompt num_generations active_jobs idx w
    = (Ok (active_jobs ++ started), w')
    /\ trace w' = trace w ++ evs
    /\ (exists c, calls evs = [c] /\ generation_request idx c)
    /\ (started = [] \/ exists uuid, started = [(uuid, idx)])
    /\ map fst started = created_ids evs
    /\ (forall k, started_jobs k evs = map (fun job => (fst job, k)) started)
    /\ length (requests evs) = 1%nat
    /\ forall uuid k,
         In (uuid, k) started ->
         exists req d,
           In (Called (CreateDream req) (Returns (GotObject d))) evs
           /\ get "uuid" d = Some uuid
           /\ req_name req = "Qwen Image " +:+ PyStr.of_nat k
           /\ req_description req = "Generated image " +:+ PyStr.of_nat k.
Proof.
  unfold Qwen.submit_one, index. unfold_monad.
  run;
    [ eexists [(_, idx)] | exists []; rewrite app_nil_r | exists []; rewrite app_nil_r ];
    eexists _, _; (split; [reflexivity |]); (split; [trace_eq |]);
    (split; [eexists; split; [reflexivity |]; eexists; repeat split |]);
    (split; [first [now left | right; eauto] |]); cbn;
    repeat match goal with H : get "uuid" _ = _ |- _ => rewrite H end;
    (split; [reflexivity |]); (split; [intros k; reflexivity |]);
    (split; [reflexivity |]); intros uuid k Hin; try (now destruct Hin).
  destruct Hin as [[= <- <-] | []].
  eexists _, _. split; [cbn [In]; repeat (first [left; reflexivity | right]) |].
  split; [eassumption |]. split; reflexivity.
Qed.

Lemma qwen_submit_from_journal (settings : dict) (prompt num_generations : scalar)
  (todo : list nat) :
  forall (active_jobs : list (scalar * nat)) (w : world R),
  exists started evs w',
    Qwen.submit_from client settings prompt num_generations active_jobs todo w
    = (Ok (active_jobs ++ started), w')
    /\ trace w' = trace w ++ evs
    /\ Forall2 generation_request todo (calls evs)
    /\ sublist (map snd started) todo
    /\ map fst started = created_ids evs
    /\ (forall first, todo = seq first (length todo) -> started = started_jobs first evs)
    /\ length (requests evs) = length todo
    /\ forall uuid k,
         In (uuid, k) started ->
         exists req d,
           In (Called (CreateDream req) (Returns (GotObject d))) evs
           /\ get "uuid" d = Some uuid
           /\ req_name req = "Qwen Image " +:+ PyStr.of_nat k
           /\ req_description req = "Generated image " +:+ PyStr.of_nat k.
Proof.
  induction todo as [| idx rest IH]; intros active_jobs w.
  - exists [], [], w. rewrite !app_nil_r.
    split; [reflexivity |]. split; [reflexivity |]. split; [constructor |].
    split; [constructor |]. split; [reflexivity |]. split; [reflexivity |].
    split; [reflexivity |]. intros uuid k [].
  - cbn [Qwen.submit_from]. unfold bind.
    destruct (qwen_submit_one_journal settings prompt num_generations active_jobs idx w)
      as (s1 & evs1 & w1 & -> & Ht1 & (c & Hc & Hg) & Hs1 & Hi1 & Hj1 & Hr1 & Hn1).
    destruct (IH (active_jobs ++ s1) w1)
      as (s2 & evs2 & w2 & -> & Ht2 & Hf2 & Hsub2 & Hi2 & Hj2 & Hr2 & Hn2).
    exists (s1 ++ s2), (evs1 ++ evs2), w2. split; [now rewrite app_assoc |].
    split; [rewrite Ht2, Ht1; now rewrite app_assoc |].
    rewrite calls_app, Hc, created_ids_app, !map_app, Hi1, Hi2.
    split; [now constructor |]. split; [| split; [reflexivity |]].
    + destruct Hs1 as [-> | [uuid ->]]; cbn [map app];
        [now apply sublist_cons | now apply sublist_skip].
    + split; [| split].
      * intros first Hseq. cbn [length seq] in Hseq. injection Hseq as <- Hrest.
        rewrite started_jobs_app, Hr1, Hj1, Nat.add_1_r, <- (Hj2 _ Hrest).
        f_equal. destruct Hs1 as [-> | [uuid ->]]; reflexivity.
      * rewrite requests_app, length_app, Hr1, Hr2. reflexivity.
      * intros uuid k Hin. apply in_app_or in Hin as [Hin | Hin].
        { destruct (Hn1 uuid k Hin) as (req & d & Hev & H). exists req, d.
          split; [apply in_or_app; now left | exact H]. }
        { destruct (Hn2 uuid k Hin) as (req & d & Hev & H). exists req, d.
          split; [apply in_or_app; now right | exact H]. }
Qed.

End QwenSubmission.

(** X19. Whatever the service answers, the submission loop of the
    qwen-image batch runs to its end and asks for one job per generation 1..n,
    in order, named "Qwen Image <idx>"; a failed request is not repeated. The
    jobs it keeps are those the service created and reported, in the order
    of their requests, each with the number of the request that created it:
    the answer to the request for generation [idx] is kept under [idx]. *)
Theorem qwen_asks_once_for_every_generation {R : Type} (client : Client R)
  (settings : dict) (prompt num_generations : scalar) (n : nat) (w : world R) :
  exists active_jobs evs w',
    Qwen.submit_from client settings prompt num_generations [] (seq 1 n) w
    = (Ok active_jobs, w')
    /\ trace w' = trace w ++ evs
    /\ Forall2 generation_request (seq 1 n) (calls evs)
    /\ active_jobs = started_jobs 1 evs
    /\ forall uuid idx,
         In (uuid, idx) active_jobs ->
         exists req d,
           In (Called (CreateDream req) (Returns (GotObject d))) evs
           /\ get "uuid" d = Some uuid
           /\ req_name req = "Qwen Image " +:+ PyStr.of_nat idx
           /\ req_description req = "Generated image " +:+ PyStr.of_nat idx.
Proof.
  destruct (qwen_submit_from_journal client settings prompt num_generations (seq 1 n) [] w)
    as (started & evs & w' & Hrun & Ht & Hreqs & _ & _ & Hjobs & _ & Hnamed).
  exists started, evs, w'. split; [exact Hrun |]. split; [exact Ht |].
  split; [exact Hreqs |]. split; [| exact Hnamed].
  apply Hjobs. now rewrite length_seq.
Qed.

(** A service that fails the first request: the job of the second request
    is kept under the number 2. *)
Example qwen_job_after_a_failed_request :
  fst (Qwen.submit_from Service.client [] (VStr "a fox") (VInt 2) [] (seq 1 2)
         (Service.boot (Service.mk_state [] [] 0 [true] 0 [])))
  = Ok [(VStr "dream-0", 2%nat)].
Proof. vm_compute. reflexivity. Qed.

(** ** The qwen-image batch: what it downloads *)

(** X20. Without a prompt, [main] prints that the prompt was not found and
    ends in [sys.exit(1)]. With a prompt and a number of generations below
    1 it prints that the number must be at least 1 and ends in
    [sys.exit(1)]. With a prompt and a number of generations that is no
    number it raises the TypeError of the comparison with 1. In each case it
    has printed nothing else and made no call. *)
Theorem qwen_main_stops_before_any_call_on_a_bad_configuration {R : Type}
  (client : Client R) (fuel : nat) (settings : dict) (output_dir : string)
  (w : world R) :
  (truthy (get_none "prompt" settings) = false ->
   Qwen.main client fuel settings output_dir w
   = (Exit 1,
      mk_world (remote w) (clock w)
        (trace w ++ [Stderr "'prompt' not found in qwen-image-config.json"])))
  /\ (truthy (get_none "prompt" settings) = true ->
      forall n : Z,
        as_int (get_or "num_generations" (VInt 1) settings) = Some n ->
        n < 1 ->
        Qwen.main client fuel settings output_dir w
        = (Exit 1,
           mk_world (remote w) (clock w)
             (trace w ++ [Stderr "'num_generations' must be at least 1"])))
  /\ (truthy (get_none "prompt" settings) = true ->
      as_int (get_or "num_generations" (VInt 1) settings) = None ->
      Qwen.main client fuel settings output_dir w
      = (Raise (TypeError ("'<' not supported between instances of '"
                             +:+ type_name (get_or "num_generations" (VInt 1) settings)
                             +:+ "' and 'int'")),
         w)).
Proof.
  unfold Qwen.main. unfold_monad. split; [| split].
  - intros ->. reflexivity.
  - intros -> n -> Hn. apply Z.ltb_lt in Hn. cbn [negb]. rewrite Hn. reflexivity.
  - intros -> ->. reflexivity.
Qed.

(** Three configurations: no prompt, zero generations, and a number of
    generations that is a string. *)
Lemma qwen_bad_configuration_witness :
  Qwen.main Service.client 1 [("num_generations", VInt 2)] "/work/out"
    (Service.boot (Service.empty []))
  = (Exit 1,
     mk_world (Service.empty []) 0 [Stderr "'prompt' not found in qwen-image-config.json"])
  /\ Qwen.main Service.client 1 [("prompt", VStr "a fox"); ("num_generations", VInt 0)]
       "/work/out" (Service.boot (Service.empty []))
     = (Exit 1,
        mk_world (Service.empty []) 0 [Stderr "'num_generations' must be at least 1"])
  /\ Qwen.main Service.client 1 [("prompt", VStr "a fox"); ("num_generations", VStr "3")]
       "/work/out" (Service.boot (Service.empty []))
     = (Raise (TypeError "'<' not supported between instances of 'str' and 'int'"),
        Service.boot (Service.empty [])).
Proof.
  split; [| split].
  - apply (proj1 (qwen_main_stops_before_any_call_on_a_bad_configuration
                    Service.client 1 [("num_generations", VInt 2)] "/work/out"
                    (Service.boot (Service.empty [])))).
    reflexivity.
  - apply (proj1 (proj2 (qwen_main_stops_before_any_call_on_a_bad_configuration
                           Service.client 1
                           [("prompt", VStr "a fox"); ("num_generations", VInt 0)]
                           "/work/out" (Service.boot (Service.empty [])))) eq_refl 0).
    + reflexivity.
    + lia.
  - apply (proj2 (proj2 (qwen_main_stops_before_any_call_on_a_bad_configuration
                           Service.client 1
                           [("prompt", VStr "a fox"); ("num_generations", VStr "3")]
                           "/work/out" (Service.boot (Service.empty [])))) eq_refl).
    reflexivity.
Defined.

Lemma downloads_app (evs1 evs2 : list event) :
  downloads (evs1 ++ evs2) = downloads evs1 ++ downloads evs2.
Proof. unfold downloads. now rewrite !flat_map_app. Qed.

Lemma downloaded_app (evs1 evs2 : list event) :
  downloaded (evs1 ++ evs2) = (downloaded evs1 + downloaded evs2)%nat.
Proof. unfold downloaded. now rewrite List.filter_app, length_app. Qed.

Section QwenDownloads.
Context {R : Type} (client : Client R).

Lemma qwen_check_job_journal (cfg : Qwen.config) (job : scalar * nat) (n : nat)
  (w : world R) :
  exists keep n' evs w',
    Qwen.check_job client cfg job n w = (Ok (keep, n'), w')
    /\ trace w' = trace w ++ evs
    /\ n' = (n + downloaded evs)%nat
    /\ (length (downloads evs) + (if keep then 1 else 0) <= 1)%nat
    /\ (forall url path,
          In (url, path) (downloads evs) ->
          path = output_path cfg (snd job)
          /\ truthy url = true
          /\ exists d,
               In (Called (GetDream (fst job)) (Returns (GotDream (Some d)))) evs
               /\ eq_str (get_none "status" d) "processed" = true
               /\ url = image_url d).
Proof.
  destruct job as [uuid idx].
  unfold Qwen.check_job, Qwen.download_image, as_dict. unfold_monad.
  run; eexists _, _, _, _; (split; [reflexivity |]); (split; [trace_eq |]);
    (split; [cbn; lia |]); (split; [cbn; lia |]);
    intros url path Hin; cbn in Hin; try contradiction.
  all: destruct Hin as [Hin | []]; injection Hin as <- <-.
  all: unfold output_path, output_name, image_url; cbn [snd fst].
  all: repeat match goal with H : (_ <? _)%nat = _ |- _ => rewrite H; clear H end.
  all: (split; [reflexivity |]); (split; [assumption |]).
  all: eexists; (split; [left; reflexivity |]); (split; [assumption |]).
  all: repeat match goal with
         | H : truthy (get_none "thumbnail" _) = _ |- _ => rewrite H; clear H
         end; reflexivity.
Qed.

End QwenDownloads.

Section QwenRounds.
Context {R : Type} (client : Client R).

Lemma qwen_poll_round_journal (cfg : Qwen.config) (pending : list (scalar * nat)) :
  forall (n : nat) (w : world R),
  exists remaining n' evs w',
    Qwen.poll_round client cfg pending n w = (Ok (remaining, n'), w')
    /\ trace w' = trace w ++ evs
    /\ n' = (n + downloaded evs)%nat
    /\ (length (downloads evs) + length remaining <= length pending)%nat
    /\ (forall url path,
          In (url, path) (downloads evs) ->
          exists job, In job pending /\ path = output_path cfg (snd job)).
Proof.
  induction pending as [| job rest IH]; intros n w.
  - exists [], n, [], w. rewrite app_nil_r. cbn.
    split; [reflexivity |]. split; [reflexivity |]. split; [lia |]. split; [lia |].
    intros ? ? [].
  - cbn [Qwen.poll_round]. unfold bind.
    destruct (qwen_check_job_journal client cfg job n w)
      as (keep & n1 & evs1 & w1 & -> & Ht1 & Hn1 & Hl1 & Hp1).
    cbn [snd fst].
    destruct (IH n1 w1) as (remaining & n2 & evs2 & w2 & -> & Ht2 & Hn2 & Hl2 & Hp2).
    unfold ret. cbn [fst snd].
    eexists _, _, (evs1 ++ evs2), _. split; [reflexivity |].
    split; [rewrite Ht2, Ht1; now rewrite app_assoc |].
    rewrite downloaded_app, downloads_app, length_app.
    split; [lia |]. split.
    + destruct keep; cbn [length]; lia.
    + intros url path Hin. apply in_app_or in Hin as [Hin | Hin].
      * destruct (Hp1 url path Hin) as (Hpath & _). exists job. split; [now left | exact Hpath].
      * destruct (Hp2 url path Hin) as (job' & Hj & Hpath). exists job'.
        split; [now right | exact Hpath].
Qed.

Lemma qwen_poll_loop_journal (cfg : Qwen.config) (fuel : nat) :
  forall (start_time : Q) (pending : list (scalar * nat)) (n : nat) (w : world R),
  exists left evs w',
    Qwen.poll_loop client fuel cfg start_time pending n w = (Ok left, w')
    /\ trace w' = trace w ++ evs
    /\ match left with
       | Some (remaining, n') =>
           n' = (n + downloaded evs)%nat
           /\ (length (downloads evs) + length remaining <= length pending)%nat
       | None => True
       end.
Proof.
  induction fuel as [| fuel IH]; intros start_time pending n w.
  - exists None, [], w. rewrite app_nil_r. auto.
  - cbn [Qwen.poll_loop]. destruct pending as [| job rest].
    + exists (Some ([], n)), [], w. rewrite app_nil_r. cbn.
      split; [reflexivity |]. split; [reflexivity |]. split; lia.
    + unfold_monad. reduce.
      destruct (negb (Qle_bool Qwen.max_wait (clock w - start_time))).
      2:{ eexists _, [], _. rewrite app_nil_r.
          split; [reflexivity |]. split; [reflexivity |]. cbn. split; lia. }
      destruct (qwen_poll_round_journal cfg (job :: rest) n w)
        as (remaining & n1 & evs1 & w1 & -> & Ht1 & Hn1 & Hl1 & _).
      reduce.
      assert (Hnext : forall w0 pre,
                trace w0 = trace w ++ evs1 ++ pre ->
                downloaded pre = 0%nat -> downloads pre = [] ->
                exists left evs w',
                  Qwen.poll_loop client fuel cfg start_time remaining n1 w0 = (Ok left, w')
                  /\ trace w' = trace w ++ evs
                  /\ match left with
                     | Some (remaining', n') =>
                         n' = (n + downloaded evs)%nat
                         /\ (length (downloads evs) + length remaining'
                             <= length (job :: rest))%nat
                     | None => True
                     end).
      { intros w0 pre Hw0 Hd0 Hdl0.
        destruct (IH start_time remaining n1 w0) as (left & evs2 & w2 & -> & Ht2 & Hleft).
        exists left, (evs1 ++ pre ++ evs2), w2. split; [reflexivity |].
        split; [rewrite Ht2, Hw0, <- !app_assoc; reflexivity |].
        destruct left as [[remaining' n'] |]; [| exact I].
        rewrite !downloaded_app, !downloads_app, !length_app, Hd0, Hdl0.
        cbn [length app] in *. destruct Hleft. split; lia. }
      destruct remaining as [| job' rest']; reduce.
      * apply (Hnext w1 []); [now rewrite app_nil_r | reflexivity | reflexivity].
      * apply (Hnext _ [Slept Qwen.poll_interval]);
          [cbn [trace]; now rewrite Ht1, <- app_assoc | reflexivity | reflexivity].
Qed.

End QwenRounds.

(** X21. When the polling loop of the qwen-image batch ends,
    [downloaded_count] is the number of downloads that succeeded, and the
    downloads tried and the jobs still pending are together no more than the
    jobs there were: the image of a job is asked for at most once. *)
Theorem qwen_counts_the_downloads_that_succeeded {R : Type} (client : Client R)
  (cfg : Qwen.config) (fuel : nat) (start_time : Q) (pending : list (scalar * nat))
  (w : world R) :
  exists left evs w',
    Qwen.poll_loop client fuel cfg start_time pending 0 w = (Ok left, w')
    /\ trace w' = trace w ++ evs
    /\ match left with
       | Some (remaining, downloaded_count) =>
           downloaded_count = downloaded evs
           /\ (length (downloads evs) + length remaining <= length pending)%nat
       | None => True
       end.
Proof.
  destruct (qwen_poll_loop_journal client cfg fuel start_time pending 0 w)
    as (left & evs & w' & Hrun & Ht & Hleft).
  exists left, evs, w'. split; [exact Hrun |]. split; [exact Ht |].
  destruct left as [[remaining n'] |]; [| exact I]. destruct Hleft. split; [lia | assumption].
Qed.

(** X22. Checking a job downloads at most one file, and then the job
    leaves the pending list whether or not the download succeeds. A download
    is made only after the job was reported as "processed", from its
    thumbnail URL when it has one and from its video URL otherwise, and to the
    file of the job's generation. *)
Theorem qwen_downloads_the_image_of_a_processed_job_once {R : Type}
  (client : Client R) (cfg : Qwen.config) (job : scalar * nat) (n : nat) (w : world R) :
  exists keep n' evs w',
    Qwen.check_job client cfg job n w = (Ok (keep, n'), w')
    /\ trace w' = trace w ++ evs
    /\ (length (downloads evs) + (if keep then 1 else 0) <= 1)%nat
    /\ (forall url path,
          In (url, path) (downloads evs) ->
          path = output_path cfg (snd job)
          /\ truthy url = true
          /\ exists d,
               In (Called (GetDream (fst job)) (Returns (GotDream (Some d)))) evs
               /\ eq_str (get_none "status" d) "processed" = true
               /\ url = image_url d).
Proof.
  destruct (qwen_check_job_journal client cfg job n w)
    as (keep & n' & evs & w' & Hrun & Ht & _ & Hl & Hp).
  exists keep, n', evs, w'. auto.
Qed.

Lemma digit_value (n : nat) :
  (Z.to_nat (PyStr.ord (PyStr.digit n)) - 48 = n mod 10)%nat.
Proof.
  unfold PyStr.digit, PyStr.ord, PyStr.chr.
  assert (Hlt : (n mod 10 < 10)%nat) by (apply Nat.mod_upper_bound; lia).
  rewrite N_ascii_embedding by lia. lia.
Qed.

Lemma digits_from_value (fuel : nat) :
  forall (n : nat) (acc : string),
    (n < fuel)%nat ->
    decimal_from 0 (PyStr.digits_from fuel n acc) = decimal_from n acc.
Proof.
  induction fuel as [| fuel IH]; intros n acc Hlt; [lia |].
  cbn [PyStr.digits_from].
  pose proof (Nat.div_mod_eq n 10) as Hdm.
  destruct (n / 10)%nat as [| q] eqn:Hq.
  - cbn [decimal_from]. rewrite digit_value. f_equal. lia.
  - rewrite IH by lia. cbn [decimal_from]. rewrite digit_value. f_equal. lia.
Qed.

Lemma of_nat_value (n : nat) : decimal_from 0 (PyStr.of_nat n) = n.
Proof. unfold PyStr.of_nat. now rewrite digits_from_value by lia. Qed.

Lemma decimal_from_app (s1 s2 : string) :
  forall a, decimal_from a (s1 +:+ s2) = decimal_from (decimal_from a s1) s2.
Proof.
  induction s1 as [| c s1 IH]; intros a; [reflexivity |].
  rewrite append_String. cbn [decimal_from]. apply IH.
Qed.

Lemma zeros_value (k : nat) : decimal_from 0 (string_of_list_ascii (repeat "0"%char k)) = 0%nat.
Proof. induction k as [| k IH]; [reflexivity |]. cbn. exact IH. Qed.

(** The index is read back from its padded spelling. *)
Lemma pad4_value (idx : nat) : decimal_from 0 (Qwen.pad4 idx) = idx.
Proof.
  unfold Qwen.pad4. cbv zeta. now rewrite decimal_from_app, zeros_value, of_nat_value.
Qed.

Lemma append_inj_l (a b c : string) : a +:+ b = a +:+ c -> b = c.
Proof.
  induction a as [| x a IH]; [now rewrite !append_empty |].
  rewrite !append_String. intros [= H]. now apply IH.
Qed.

Lemma contains_slash_cons (c : ascii) (t : string) :
  PyStr.contains "/" (String c t) = Ascii.eqb "/" c || PyStr.contains "/" t.
Proof.
  cbn [PyStr.contains PyStr.startswith]. rewrite ?startswith_empty.
  now destruct (Ascii.eqb "/" c).
Qed.

Lemma contains_slash_app (a b : string) :
  PyStr.contains "/" (a +:+ b) = PyStr.contains "/" a || PyStr.contains "/" b.
Proof.
  induction a as [| c a IH]; [reflexivity |].
  now rewrite append_String, !contains_slash_cons, IH, orb_assoc.
Qed.

Lemma digit_no_slash (n : nat) : Ascii.eqb "/" (PyStr.digit n) = false.
Proof.
  unfold PyStr.digit.
  assert (Hlt : (n mod 10 < 10)%nat) by (apply Nat.mod_upper_bound; lia).
  destruct (n mod 10)%nat as [| k]; [reflexivity |].
  do 9 (destruct k as [| k]; [reflexivity |]). lia.
Qed.

Lemma digits_from_no_slash (fuel : nat) :
  forall (n : nat) (acc : string),
    PyStr.contains "/" acc = false ->
    PyStr.contains "/" (PyStr.digits_from fuel n acc) = false.
Proof.
  induction fuel as [| fuel IH]; intros n acc Hacc; [exact Hacc |].
  cbn [PyStr.digits_from].
  assert (Hd : PyStr.contains "/" (String (PyStr.digit n) acc) = false)
    by now rewrite contains_slash_cons, digit_no_slash, Hacc.
  destruct (n / 10)%nat; [exact Hd | now apply IH].
Qed.

Lemma pad4_no_slash (idx : nat) : PyStr.contains "/" (Qwen.pad4 idx) = false.
Proof.
  unfold Qwen.pad4. cbv zeta. rewrite contains_slash_app.
  apply orb_false_iff. split.
  - induction (4 - String.length (PyStr.of_nat idx))%nat as [| k IH]; [reflexivity |].
    cbn [repeat string_of_list_ascii]. now rewrite contains_slash_cons, IH.
  - now apply digits_from_no_slash.
Qed.

(** A piece without a slash stays in one piece. *)
Lemma split_from_plain (t : string) :
  forall cur,
    PyStr.contains "/" t = false ->
    PyStr.split_from "/" 0 cur t = [PyStr.rev_string cur +:+ t].
Proof.
  induction t as [| c t IH]; intros cur Ht.
  - cbn [PyStr.split_from]. now rewrite append_empty_r.
  - rewrite contains_slash_cons in Ht. apply orb_false_iff in Ht as [Hc Ht].
    cbn [PyStr.split_from PyStr.startswith]. rewrite Hc.
    rewrite IH by exact Ht. now rewrite rev_string_cons, append_assoc.
Qed.

(** What is appended without a slash goes to the last piece. *)
Lemma split_from_slash_app (s : string) :
  forall cur,
    exists init x,
      PyStr.split_from "/" 0 cur s = init ++ [x]
      /\ forall t,
           PyStr.contains "/" t = false ->
           PyStr.split_from "/" 0 cur (s +:+ t) = init ++ [x +:+ t].
Proof.
  induction s as [| c s IH]; intros cur.
  - exists [], (PyStr.rev_string cur). split; [reflexivity |].
    intros t Ht. rewrite append_empty. now apply split_from_plain.
  - cbn [PyStr.split_from PyStr.startswith]. rewrite ?startswith_empty.
    destruct (Ascii.eqb "/" c) eqn:Hc.
    + destruct (IH []) as (init & x & Hs & Happ).
      exists (PyStr.rev_string cur :: init), x. cbn [String.length Nat.sub].
      split; [now rewrite Hs |].
      intros t Ht. rewrite append_String. cbn [PyStr.split_from PyStr.startswith].
      rewrite ?startswith_empty, Hc. cbn [String.length Nat.sub].
      now rewrite Happ.
    + destruct (IH (c :: cur)) as (init & x & Hs & Happ).
      exists init, x. split; [exact Hs |].
      intros t Ht. rewrite append_String. cbn [PyStr.split_from PyStr.startswith].
      rewrite ?startswith_empty, Hc. now apply Happ.
Qed.

Lemma lstrip_slashes_app (s t : string) :
  PyStr.startswith t "/" = false ->
  PyPath.lstrip_slashes (s +:+ t) = PyPath.lstrip_slashes s +:+ t.
Proof.
  intros Ht. induction s as [| c s IH].
  - rewrite !append_empty. destruct t as [| c t]; [reflexivity |].
    cbn [PyStr.startswith] in Ht. rewrite ?startswith_empty in Ht.
    cbn [PyPath.lstrip_slashes]. rewrite Ascii.eqb_sym.
    now destruct (Ascii.eqb "/" c).
  - rewrite append_String. cbn [PyPath.lstrip_slashes].
    destruct (Ascii.eqb c "/"); [exact IH | now rewrite append_String].
Qed.

(** The path of a name that ends in [t], which has no slash in it: [t]
    ends the last component, and nothing else of the path depends on it. *)
Lemma parse_path_app (s : string) :
  exists ps x,
    forall t,
      PyStr.contains "/" t = false ->
      (2 <= String.length t)%nat ->
      PyPath.parse_path (s +:+ t)
      = PyPath.mk_pure_path (PyPath.root (PyPath.parse_path s)) (ps ++ [x +:+ t]).
Proof.
  destruct (split_from_slash_app (PyPath.lstrip_slashes s) []) as (init & x & _ & Happ).
  exists (List.filter (fun x => negb (String.eqb x "") && negb (String.eqb x ".")) init), x.
  intros t Ht Hlen.
  assert (Hst : PyStr.startswith t "/" = false).
  { destruct t as [| c t]; [reflexivity |].
    rewrite contains_slash_cons in Ht. apply orb_false_iff in Ht as [Hc _].
    cbn [PyStr.startswith]. now rewrite Hc. }
  unfold PyPath.parse_path. cbv zeta. cbn [PyPath.root].
  rewrite lstrip_slashes_app by exact Hst. rewrite !length_append.
  replace (String.length s + String.length t
           - (String.length (PyPath.lstrip_slashes s) + String.length t))%nat
    with (String.length s - String.length (PyPath.lstrip_slashes s))%nat by lia.
  f_equal. unfold PyStr.split. rewrite Happ by exact Ht.
  rewrite List.filter_app. f_equal. cbn [List.filter].
  assert (Hne : String.eqb (x +:+ t) "" = false).
  { apply String.eqb_neq. intros Heq. apply (f_equal String.length) in Heq.
    rewrite length_append in Heq. cbn in Heq. lia. }
  assert (Hdot : String.eqb (x +:+ t) "." = false).
  { apply String.eqb_neq. intros Heq. apply (f_equal String.length) in Heq.
    rewrite length_append in Heq. cbn in Heq. lia. }
  now rewrite Hne, Hdot.
Qed.

Lemma join_slash_last (qs : list string) :
  exists pre, forall y, PyPath.join_slash (qs ++ [y]) = pre +:+ y.
Proof.
  induction qs as [| q qs [pre IH]].
  - now exists "".
  - exists (q +:+ "/" +:+ pre). intros y.
    specialize (IH y). cbn [app PyPath.join_slash].
    destruct (qs ++ [y]) as [| z l] eqn:Hl; [now destruct qs |].
    now rewrite IH, !append_assoc.
Qed.

Lemma pure_str_last (r : string) (l : list string) (y : string) :
  PyPath.pure_str (PyPath.mk_pure_path r (l ++ [y])) = r +:+ PyPath.join_slash (l ++ [y]).
Proof.
  unfold PyPath.pure_str. cbn [PyPath.root PyPath.parts].
  destruct r; [| reflexivity].
  destruct (l ++ [y]) eqn:Hl; [now destruct l | reflexivity].
Qed.

(** With more than one generation, the file of a generation is spelled
    with the index at its end, after a text that is the same for all. *)
Lemma output_path_form (cfg : Qwen.config) :
  (1 < Qwen.num_generations cfg)%nat ->
  exists pre,
    forall idx, output_path cfg idx = pre +:+ "_" +:+ Qwen.pad4 idx +:+ ".png".
Proof.
  intros Hn. apply Nat.ltb_lt in Hn.
  destruct (parse_path_app (str (Qwen.output_filename cfg))) as (ps & x & Hparse).
  set (base := PyPath.parse_path (Qwen.output_dir cfg)).
  set (named := PyPath.parse_path (str (Qwen.output_filename cfg))).
  destruct (join_slash_last
              (match PyPath.root named with
               | EmptyString => PyPath.parts base ++ ps
               | String _ _ => ps
               end)) as [pre Hpre].
  exists ((match PyPath.root named with
           | EmptyString => PyPath.root base
           | String _ _ => PyPath.root named
           end) +:+ pre +:+ x).
  intros idx. unfold output_path, output_name. rewrite Hn.
  assert (Ht : PyStr.contains "/" ("_" +:+ Qwen.pad4 idx +:+ ".png") = false).
  { rewrite !contains_slash_app, pad4_no_slash. reflexivity. }
  assert (Hlen : (2 <= String.length ("_" +:+ Qwen.pad4 idx +:+ ".png"))%nat).
  { rewrite !length_append. cbn [String.length]. lia. }
  unfold PyPath.joinpath. cbv zeta. rewrite (Hparse _ Ht Hlen).
  cbn [PyPath.root PyPath.parts]. fold named base.
  destruct (PyPath.root named) as [| c r].
  - rewrite app_assoc, pure_str_last, Hpre. now rewrite !append_assoc.
  - rewrite pure_str_last, Hpre. now rewrite !append_assoc.
Qed.

(** X23. With more than one generation, the files of two different
    generations are different, whatever the number of digits of the indices:
    no image of a run overwrites another. *)
Theorem qwen_saves_each_generation_to_a_file_of_its_own (cfg : Qwen.config)
  (idx idx' : nat) :
  (1 < Qwen.num_generations cfg)%nat ->
  idx <> idx' ->
  output_path cfg idx <> output_path cfg idx'.
Proof.
  intros Hn Hne Heq. apply Hne.
  destruct (output_path_form cfg Hn) as [pre Hform].
  rewrite !Hform in Heq.
  do 2 apply append_inj_l in Heq.
  apply append_inj_length in Heq as [Hpad _]; [| reflexivity].
  rewrite <- (pad4_value idx), <- (pad4_value idx'). now rewrite Hpad.
Qed.

Lemma qwen_files_witness :
  output_path (Qwen.mk_config (VStr "qwen-image") 3 "/work/out") 2
  <> output_path (Qwen.mk_config (VStr "qwen-image") 3 "/work/out") 12.
Proof.
  apply (qwen_saves_each_generation_to_a_file_of_its_own
           (Qwen.mk_config (VStr "qwen-image") 3 "/work/out") 2 12).
  - cbn. lia.
  - lia.
Defined.

(** The files of a run, as [pathlib] spells them: in the output directory
    under the base name; in a directory of it when the base name has one;
    and outside it when the base name is an absolute path. *)
Example qwen_file_names :
  output_path (Qwen.mk_config (VStr "qwen-image") 3 "/work/out") 2
  = "/work/out/qwen-image_0002.png"
  /\ output_path (Qwen.mk_config (VStr "qwen-image") 1 "/work/out") 1
     = "/work/out/qwen-image.png"
  /\ output_path (Qwen.mk_config (VStr "night/./sky") 3 "/work/out") 2
     = "/work/out/night/sky_0002.png"
  /\ output_path (Qwen.mk_config (VStr "/tmp//sky") 3 "/work/out") 2
     = "/tmp/sky_0002.png"
  /\ output_path (Qwen.mk_config (VInt 7) 1 ".") 1 = "7.png".
Proof. repeat split. Qed.

(** ** The polling round and the listing of the uprez batch *)

Lemma printed_app (evs1 evs2 : list event) :
  printed (evs1 ++ evs2) = printed evs1 ++ printed evs2.
Proof. unfold printed. now rewrite !flat_map_app. Qed.

Section UprezRound.
Context {R : Type} (client : Client R).

Lemma uprez_check_status_spec (u : scalar) (w : world R) :
  exists done evs w',
    Uprez.check_status client u w = (Ok done, w')
    /\ trace w' = trace w ++ evs
    /\ queried evs = [u]
    /\ (done = true -> observed_terminal evs u)
    /\ (done = false -> ~ observed_terminal evs u)
    /\ length (printed evs) = (if done then 1 else 0)%nat.
Proof.
  unfold Uprez.check_status, as_dict. unfold_monad. run;
    eexists _, _, _; (split; [reflexivity |]); (split; [trace_eq |]);
    (split; [reflexivity |]);
    (split; [intros Hd; try discriminate Hd
            | split; [intros Hd; try discriminate Hd | reflexivity]]).
  all: try not_observed.
  all: unfold seen; eexists; (split; [left; reflexivity |]);
    unfold is_terminal; rewrite orb_true_iff; auto.
Qed.

Lemma uprez_poll_round_spec (pending : list scalar) :
  forall w : world R,
  exists completed evs w',
    Uprez.poll_round client pending w = (Ok completed, w')
    /\ trace w' = trace w ++ evs
    /\ queried evs = pending
    /\ (forall u, In u completed -> In u pending /\ observed_terminal evs u)
    /\ length (printed evs) = length completed.
Proof.
  induction pending as [| u rest IH]; intros w.
  - exists [], [], w. rewrite app_nil_r. repeat split; contradiction.
  - cbn [Uprez.poll_round]. unfold bind.
    destruct (uprez_check_status_spec u w)
      as (done & evs1 & w1 & -> & Ht1 & Hq1 & Hyes & _ & Hp1).
    destruct (IH w1) as (completed & evs2 & w2 & -> & Ht2 & Hq2 & Hin & Hp2).
    exists (if done then u :: completed else completed), (evs1 ++ evs2), w2.
    split; [reflexivity |]. split; [now rewrite Ht2, Ht1, app_assoc |].
    split; [now rewrite queried_app, Hq1, Hq2 |].
    split.
    + intros u' Hu'. rewrite observed_terminal_app.
      destruct done.
      * destruct Hu' as [<- | Hu']; [split; [now left | left; now apply Hyes] |].
        destruct (Hin u' Hu'). split; [now right | now right].
      * destruct (Hin u' Hu'). split; [now right | now right].
    + rewrite printed_app, length_app, Hp1, Hp2. now destruct done.
Qed.

End UprezRound.

(** X24. In a round of the polling loop of the uprez batch every pending
    id is asked for once; an id leaves the pending set only when a status
    query of the round was answered with a terminal status, and stays when no
    query for an equal id was; and the round prints one line per job it found
    finished and nothing else: a query that fails leaves no message. *)
Theorem uprez_round_removes_only_finished_jobs {R : Type} (client : Client R)
  (pending : list scalar) (w : world R) :
  exists completed evs w',
    Uprez.poll_round client pending w = (Ok completed, w')
    /\ trace w' = trace w ++ evs
    /\ queried evs = pending
    /\ length (printed evs) = length completed
    /\ (forall u, In u pending ->
                  ~ In u (Wan.remove_completed pending completed) ->
                  exists u', In u' pending /\ eq u u' = true
                             /\ observed_terminal evs u')
    /\ (forall u, In u pending ->
                  (forall u', eq u u' = true -> ~ observed_terminal evs u') ->
                  In u (Wan.remove_completed pending completed)).
Proof.
  destruct (uprez_poll_round_spec client pending w)
    as (completed & evs & w' & Hrun & Htrace & Hq & Hin & Hp).
  exists completed, evs, w'.
  split; [exact Hrun |]. split; [exact Htrace |]. split; [exact Hq |].
  split; [exact Hp |].
  assert (Hmem : forall u, mem u completed = true ->
                   exists u', In u' pending /\ eq u u' = true
                              /\ observed_terminal evs u').
  { intros u Hu. unfold mem in Hu. apply existsb_exists in Hu as (u' & Hu' & He).
    destruct (Hin u' Hu'). exists u'. auto. }
  split.
  - intros u Hu Hgone. apply Hmem.
    destruct (mem u completed) eqn:Hm; [reflexivity |].
    exfalso. apply Hgone. apply remove_completed_spec. auto.
  - intros u Hu Hnone. apply remove_completed_spec. split; [exact Hu |].
    destruct (mem u completed) eqn:Hm; [| reflexivity].
    destruct (Hmem u Hm) as (u' & _ & He & Hobs). exfalso. exact (Hnone u' He Hobs).
Qed.

Section UprezListing.
Context {R : Type} (client : Client R).

Lemma fetch_pages_journal (fuel : nat) (playlist_uuid : scalar) (take : nat) :
  forall (skip : nat) (all_dreams : list Uprez.entry) (w : world R),
  exists left evs w',
    Uprez.fetch_pages client fuel playlist_uuid take skip all_dreams w = (Ok left, w')
    /\ trace w' = trace w ++ evs
    /\ (forall l, left = Some l -> exists more, l = all_dreams ++ more)
    /\ (forall c, In c (calls evs) -> exists k s, c = GetPlaylistItems k take s)
    /\ (forall e dt r1,
          get_playlist_items client playlist_uuid take skip (remote w)
          = (Raises e, dt, r1) ->
          fuel <> O ->
          left = Some all_dreams
          /\ evs = [Called (GetPlaylistItems playlist_uuid take skip) (Raises e);
                    Stderr ("Error fetching playlist items: " +:+ exn_str e)]).
Proof.
  induction fuel as [| fuel IH]; intros skip all_dreams w.
  - exists None, [], w. rewrite app_nil_r. split; [reflexivity |].
    split; [reflexivity |]. split; [discriminate |]. split; [intros ? [] |].
    intros e dt r1 _ Hf. congruence.
  - cbn [Uprez.fetch_pages]. unfold Uprez.reached. unfold_monad. reduce.
    destruct (get_playlist_items client playlist_uuid take skip (remote w))
      as [[[response | e] dt] r1] eqn:Hget; reduce.
    2:{ eexists _, _, _. split; [reflexivity |]. split; [trace_eq |].
        split; [intros l [= <-]; exists []; now rewrite app_nil_r |].
        split; [intros c [<- | []]; eauto |].
        intros e' dt' r1' [= <- <- <-] _. auto. }
    assert (Hstop : forall (l : list Uprez.entry) (pre : list event) (w0 : world R),
              (exists more, l = all_dreams ++ more) ->
              (forall c, In c (calls pre) -> exists k s, c = GetPlaylistItems k take s) ->
              trace w0 = trace w ++ pre ->
              exists left evs w',
                (Ok (Some l), w0) = (Ok left, w')
                /\ trace w' = trace w ++ evs
                /\ (forall l', left = Some l' -> exists more, l' = all_dreams ++ more)
                /\ (forall c, In c (calls evs) -> exists k s, c = GetPlaylistItems k take s)
                /\ (forall e dt0 r0,
                      (Returns response, dt, r1) = (Raises e, dt0, r0) ->
                      S fuel <> O ->
                      left = Some all_dreams
                      /\ evs = [Called (GetPlaylistItems playlist_uuid take skip) (Raises e);
                                Stderr ("Error fetching playlist items: " +:+ exn_str e)])).
    { intros l pre w0 Hl Hc Hw0. exists (Some l), pre, w0.
      split; [reflexivity |]. split; [exact Hw0 |].
      split; [intros l' [= <-]; exact Hl |]. split; [exact Hc | discriminate]. }
    assert (Hone : forall a c, In c (calls [Called (GetPlaylistItems playlist_uuid take skip) a])
                               -> exists k s, c = GetPlaylistItems k take s).
    { intros a c [<- | []]. eauto. }
    destruct (match items response with Some l => l | None => [] end)
      as [| it its] eqn:Hits; reduce.
    { eapply Hstop; [exists []; now rewrite app_nil_r | apply Hone | reflexivity]. }
    destruct (as_int (match totalCount response with Some v => v | None => VInt 0 end))
      as [z |] eqn:Hz; reduce.
    2:{ eapply (Hstop _ [_; _]); [eauto | | cbn [trace]; trace_eq].
        intros c [<- | []]. eauto. }
    destruct (negb _) eqn:Hmore; reduce.
    2:{ eapply Hstop; [eauto | apply Hone | reflexivity]. }
    match goal with
    | |- context [Uprez.fetch_pages client fuel playlist_uuid take ?s ?l ?w0] =>
        destruct (IH s l w0) as (left & evs2 & w2 & -> & Ht2 & Hpre & Hc2 & _)
    end.
    cbn [trace] in Ht2.
    eexists left, (_ :: evs2), w2. split; [reflexivity |].
    split; [rewrite Ht2, <- app_assoc; reflexivity |].
    split; [| split; [| discriminate]].
    + intros l Hl. destruct (Hpre l Hl) as (more & ->). rewrite <- app_assoc. eauto.
    + intros c [<- | Hin]; [eauto | now apply Hc2].
Qed.

End UprezListing.

(** X25. The listing loop never raises and never loses a dream it has
    gathered: what it returns starts with what it had. When a listing call
    raises, the loop stops there with what it had, after one message on
    stderr. *)
Theorem uprez_listing_keeps_what_it_gathered_when_a_call_fails {R : Type}
  (client : Client R) (fuel : nat) (playlist_uuid : scalar) (take skip : nat)
  (all_dreams : list Uprez.entry) (w : world R) :
  exists left evs w',
    Uprez.fetch_pages client (S fuel) playlist_uuid take skip all_dreams w = (Ok left, w')
    /\ trace w' = trace w ++ evs
    /\ (forall l, left = Some l -> exists more, l = all_dreams ++ more)
    /\ (forall e dt r1,
          get_playlist_items client playlist_uuid take skip (remote w)
          = (Raises e, dt, r1) ->
          left = Some all_dreams
          /\ evs = [Called (GetPlaylistItems playlist_uuid take skip) (Raises e);
                    Stderr ("Error fetching playlist items: " +:+ exn_str e)]).
Proof.
  destruct (fetch_pages_journal client (S fuel) playlist_uuid take skip all_dreams w)
    as (left & evs & w' & Hrun & Ht & Hpre & _ & Hfail).
  exists left, evs, w'. split; [exact Hrun |]. split; [exact Ht |].
  split; [exact Hpre |]. intros e dt r1 Hget. now apply (Hfail e dt r1).
Qed.

(** ** The batches as a whole *)

Section UprezMain.
Context {R : Type} (client : Client R).

Ltac uprez_main_step :=
  reduce;
  first
    [ match goal with
      | |- context [Uprez.get_all_playlist_dreams client ?f ?u ?w0] =>
          unfold Uprez.get_all_playlist_dreams;
          destruct (fetch_pages_journal client f u 100 0 [] w0) as (? & ? & ? & -> & _)
      | |- context [Uprez.scan client ?m ?l ?w0] =>
          let H := fresh "Hscan" in
          destruct (scan_journal client m l w0) as ([? | ? | ?] & ? & ? & -> & _ & H);
          [| | destruct H]
      | |- context [Uprez.submit_from client ?c ?o ?t ?i ?a ?l ?w0] =>
          let H := fresh "Hsub" in
          destruct (submit_from_journal client c o t l i a w0)
            as ([? | ? | ?] & ? & ? & -> & _ & _ & H);
          [| | destruct H]
      end
    | case_step ].

(** X26. [main] of the uprez batch, from the choice of the output playlist
    to the end of the submission loop, never ends in [sys.exit], whatever the
    service answers: a listing that fails is no reason to stop, and the
    "Error fetching dreams" exit is never taken. *)
Theorem uprez_main_never_exits (fuel : nat) (cfg : Uprez.config) (w : world R)
  (code : Z) :
  fst (Uprez.main client fuel cfg w) <> Exit code.
Proof.
  unfold Uprez.main, index. unfold_monad.
  repeat uprez_main_step.
  all: cbn [fst]; discriminate.
Qed.

End UprezMain.

Lemma downloaded_le_downloads (evs : list event) :
  (downloaded evs <= length (downloads evs))%nat.
Proof.
  unfold downloaded, downloads.
  induction evs as [| [[] [] | | |] evs IH]; cbn [List.filter flat_map length app]; lia.
Qed.

Section QwenMain.
Context {R : Type} (client : Client R).

(** X27. When [main] of the qwen-image batch returns, the images it
    downloaded and the jobs it still waits for are together no more than the
    number of generations asked for. *)
Theorem qwen_downloads_no_more_than_it_was_asked_to_generate (fuel : nat)
  (settings : dict) (output_dir : string) (w : world R) :
  match fst (Qwen.main client fuel settings output_dir w) with
  | Ok (Some (pending, downloaded_count)) =>
      exists n, as_int (get_or "num_generations" (VInt 1) settings) = Some n
                /\ (downloaded_count + length pending <= Z.to_nat n)%nat
  | _ => True
  end.
Proof.
  unfold Qwen.main. unfold_monad.
  destruct (negb (truthy (get_none "prompt" settings))); reduce; [exact I |].
  destruct (as_int (get_or "num_generations" (VInt 1) settings)) as [n |]; reduce;
    [| exact I].
  destruct (n <? 1); reduce; [exact I |].
  match goal with
  | |- context [Qwen.submit_from client ?s ?p ?g ?a ?l ?w0] =>
      destruct (qwen_submit_from_journal client s p g l a w0)
        as (started & evs1 & w1 & -> & _ & _ & Hsub & _)
  end.
  reduce. cbn [app].
  apply sublist_length in Hsub. rewrite length_map, length_seq in Hsub.
  destruct started as [| job rest]; reduce.
  { exists n. split; [reflexivity |]. cbn. lia. }
  match goal with
  | |- context [Qwen.poll_loop client fuel ?c ?t ?p ?d ?w0] =>
      destruct (qwen_poll_loop_journal client c fuel t p d w0)
        as ([[remaining count] |] & evs2 & w2 & -> & _ & Hleft)
  end; reduce; [| exact I].
  destruct Hleft as [-> Hlen].
  pose proof (downloaded_le_downloads evs2) as Hle.
  destruct remaining; reduce; cbn [fst]; exists n; (split; [reflexivity |]);
    cbn [length] in *; lia.
Qed.

End QwenMain.

(** X28. The number a combo gets in the name of its job is the place of its
    first occurrence in the list of combos: a combo that is listed twice gets
    the same number both times. *)
Theorem combo_number_is_the_place_of_its_first_occurrence (combos : list string)
  (combo : string) :
  In combo combos ->
  (Wan.index_of combo combos < length combos)%nat
  /\ nth (Wan.index_of combo combos) combos "" = combo
  /\ forall j, (j < Wan.index_of combo combos)%nat -> nth j combos "" <> combo.
Proof.
  induction combos as [| c rest IH]; intros Hin; [destruct Hin |].
  cbn [Wan.index_of]. destruct (String.eqb_spec combo c) as [-> | Hne].
  - cbn. repeat split; [lia | intros j Hj; lia].
  - destruct Hin as [-> | Hin]; [congruence |].
    destruct (IH Hin) as (Hlt & Hnth & Hfirst). cbn [length nth].
    split; [lia |]. split; [exact Hnth |].
    intros [| j] Hj; [congruence |]. apply Hfirst. lia.
Qed.

Lemma combo_number_witness :
  (Wan.index_of "zoom in" ["pan left"; "zoom in"; "zoom in"]
   < length ["pan left"; "zoom in"; "zoom in"])%nat
  /\ nth (Wan.index_of "zoom in" ["pan left"; "zoom in"; "zoom in"])
         ["pan left"; "zoom in"; "zoom in"] "" = "zoom in"
  /\ forall j, (j < Wan.index_of "zoom in" ["pan left"; "zoom in"; "zoom in"])%nat ->
               nth j ["pan left"; "zoom in"; "zoom in"] "" <> "zoom in".
Proof.
  apply (combo_number_is_the_place_of_its_first_occurrence
           ["pan left"; "zoom in"; "zoom in"] "zoom in").
  right. left. reflexivity.
Defined.

Example main_without_a_playlist_exits :
  fst (Wan.main Service.client 1 plain_job [sunset] (Service.boot (Service.empty [])))
  = Exit 1.
Proof. vm_compute. reflexivity. Qed.

Example main_with_a_failing_playlist_creation_raises :
  fst (Wan.main Service.client 1
         (Wan.mk_job_config [] [] (Some (Obj [("name", VStr "Batch")]))) [sunset]
         (Service.boot (failing_at 0)))
  = Raise (RemoteError "service unavailable").
Proof. vm_compute. reflexivity. Qed.

Lemma queries_add_nothing (evs : list event) :
  Forall query_call (calls evs) ->
  playlists_made evs = []
  /\ forall p i, ~ In (AddItemToPlaylist p i) (calls evs).
Proof.
  induction evs as [| e evs IH]; [intros _; split; [reflexivity | intros ? ? []] |].
  destruct e as [c a | | |]; cbn [calls flat_map app playlists_made]; try exact IH.
  intros H. apply List.Forall_cons_iff in H as [Hc H]. destruct (IH H) as [Hp Ha].
  destruct c; cbn [query_call] in Hc; try destruct Hc; cbn [app]; (split; [exact Hp |]);
    intros p' i' [Heq | Hin]; try discriminate Heq; now apply (Ha p' i').
Qed.

Lemma later_calls_make_no_playlist (out : scalar) (evs : list event) :
  Forall (later_call out) (calls evs) ->
  playlists_made evs = []
  /\ forall p i, In (AddItemToPlaylist p i) (calls evs) -> p = out.
Proof.
  induction evs as [| e evs IH]; [intros _; split; [reflexivity | intros ? ? []] |].
  destruct e as [c a | | |]; cbn [calls flat_map app playlists_made]; try exact IH.
  intros H. apply List.Forall_cons_iff in H as [Hc H]. destruct (IH H) as [Hp Ha].
  destruct c; cbn [later_call] in Hc; try destruct Hc; cbn [app]; (split; [exact Hp |]);
    intros p' i' [Heq | Hin]; try discriminate Heq; try (now apply (Ha p' i')).
  now injection Heq as <- <-.
Qed.

Section UprezCalls.
Context {R : Type} (client : Client R).
Variable out : scalar.

Lemma fetch_pages_queries (fuel : nat) (playlist_uuid : scalar) (take skip : nat)
  (all_dreams : list Uprez.entry) (w : world R) :
  exists left evs w',
    Uprez.fetch_pages client fuel playlist_uuid take skip all_dreams w = (Ok left, w')
    /\ trace w' = trace w ++ evs
    /\ Forall query_call (calls evs).
Proof.
  destruct (fetch_pages_journal client fuel playlist_uuid take skip all_dreams w)
    as (left & evs & w' & Hrun & Ht & _ & Hc & _).
  exists left, evs, w'. split; [exact Hrun |]. split; [exact Ht |].
  apply List.Forall_forall. intros c Hin. destruct (Hc c Hin) as (k & s & ->). exact I.
Qed.

Lemma is_dream_already_uprezed_queries (u : scalar) (marker : string) (w : world R) :
  exists already evs w',
    Uprez.is_dream_already_uprezed client u marker w = (Ok already, w')
    /\ trace w' = trace w ++ evs
    /\ Forall query_call (calls evs).
Proof.
  unfold Uprez.is_dream_already_uprezed, Uprez.lower_of. unfold_monad.
  run; eexists _, _, _; (split; [reflexivity |]); (split; [trace_eq |]);
    repeat constructor.
Qed.

Lemma scan_queries (marker : string) (all_dreams : list Uprez.entry) :
  forall w : world R,
  exists res evs w',
    Uprez.scan client marker all_dreams w = (res, w')
    /\ (forall code, res <> Exit code)
    /\ trace w' = trace w ++ evs
    /\ Forall query_call (calls evs).
Proof.
  induction all_dreams as [| dream_data rest IH]; intros w.
  - exists (Ok []), [], w. rewrite app_nil_r. repeat split; [discriminate | constructor].
  - cbn [Uprez.scan]. unfold bind at 1. unfold lift, Uprez.entry_get.
    destruct (Uprez.dream dream_data) as [v | fields].
    { eexists _, [], w. rewrite app_nil_r. repeat split; [discriminate | constructor]. }
    unfold ret at 1. unfold bind at 1.
    destruct (is_dream_already_uprezed_queries (get_none "uuid" fields) marker w)
      as (already & evs1 & w1 & -> & Ht1 & Hc1).
    unfold bind at 1.
    destruct (IH w1) as (res2 & evs2 & w2 & -> & Hne & Ht2 & Hc2).
    assert (Hcalls : Forall query_call (calls (evs1 ++ evs2)))
      by (rewrite calls_app; now apply Forall_app).
    destruct res2 as [kept | e | code]; [| | now destruct (Hne code)];
      eexists _, (evs1 ++ evs2), _; (split; [reflexivity |]);
      (split; [discriminate |]);
      (split; [rewrite Ht2, Ht1; now rewrite app_assoc | exact Hcalls]).
Qed.

Lemma update_dream_description_later (u : scalar) (marker : string) (w : world R) :
  exists b evs w',
    Uprez.update_dream_description client u marker w = (Ok b, w')
    /\ trace w' = trace w ++ evs
    /\ Forall (later_call out) (calls evs).
Proof.
  unfold Uprez.update_dream_description, Uprez.lower_of. unfold_monad.
  run; eexists _, _, _; (split; [reflexivity |]); (split; [trace_eq |]);
    repeat constructor.
Qed.

Lemma submit_one_later (cfg : Uprez.config) (total idx : nat)
  (active_jobs : list scalar) (dream_data : Uprez.entry) (w : world R) :
  exists res evs w',
    Uprez.submit_one client cfg out total idx active_jobs dream_data w = (res, w')
    /\ (forall code, res <> Exit code)
    /\ trace w' = trace w ++ evs
    /\ Forall (later_call out) (calls evs).
Proof.
  unfold Uprez.submit_one, Uprez.entry_get, index. unfold_monad. reduce.
  destruct (Uprez.dream dream_data) as [v | fields]; reduce.
  { eexists _, [], _. rewrite app_nil_r. repeat split; [discriminate | constructor]. }
  destruct (Uprez.uprez_config cfg) as [v | settings]; cbn [Uprez.algo_params]; reduce.
  { eexists _, _, _. split; [reflexivity |]. split; [discriminate |].
    split; [trace_eq |]. repeat constructor. }
  destruct (create_dream_from_prompt client _ _) as [[[new_dream | e] dt] r1]; reduce.
  2:{ eexists _, _, _. split; [reflexivity |]. split; [discriminate |].
      split; [trace_eq |]. repeat constructor. }
  destruct (get "uuid" new_dream) as [uuid |]; reduce.
  2:{ eexists _, _, _. split; [reflexivity |]. split; [discriminate |].
      split; [trace_eq |]. repeat constructor. }
  destruct (add_item_to_playlist client _ _ _) as [[[[] | e] dt'] r2]; reduce;
    match goal with
    | |- context [Uprez.update_dream_description client ?u ?m ?w0] =>
        destruct (update_dream_description_later u m w0) as (b & evs & w1 & -> & Ht & Hc)
    end;
    reduce; cbn [trace] in Ht;
    eexists _, _, _; (split; [reflexivity |]); (split; [discriminate |]);
    (split; [rewrite Ht, <- !app_assoc; reflexivity |]);
    rewrite !calls_app; cbn [calls flat_map app];
    repeat (first [apply Forall_cons; split; [first [exact I | reflexivity] |] | exact Hc]).
Qed.

Lemma submit_from_later (cfg : Uprez.config) (total : nat) (todo : list Uprez.entry) :
  forall (idx : nat) (active_jobs : list scalar) (w : world R),
  exists res evs w',
    Uprez.submit_from client cfg out total idx active_jobs todo w = (res, w')
    /\ (forall code, res <> Exit code)
    /\ trace w' = trace w ++ evs
    /\ Forall (later_call out) (calls evs).
Proof.
  induction todo as [| dream_data rest IH]; intros idx active_jobs w.
  - eexists _, [], w. rewrite app_nil_r. repeat split; [discriminate | constructor].
  - cbn [Uprez.submit_from]. unfold bind.
    destruct (submit_one_later cfg total idx active_jobs dream_data w)
      as (res1 & evs1 & w1 & -> & Hne1 & Ht1 & Hc1).
    destruct res1 as [active1 | e | code]; [| | now destruct (Hne1 code)].
    + destruct (IH (S idx) active1 w1) as (res2 & evs2 & w2 & -> & Hne2 & Ht2 & Hc2).
      exists res2, (evs1 ++ evs2), w2. split; [reflexivity |]. split; [exact Hne2 |].
      split; [rewrite Ht2, Ht1; now rewrite app_assoc |].
      rewrite calls_app. now apply Forall_app.
    + eexists _, evs1, _. split; [reflexivity |]. split; [discriminate |]. auto.
Qed.

End UprezCalls.

Section UprezPlaylist.
Context {R : Type} (client : Client R).

Ltac later_facts H :=
  let Hp := fresh "Hmade" in
  let Ha := fresh "Hadded" in
  apply later_calls_make_no_playlist in H as [Hp Ha].

Ltac query_facts H :=
  let Hp := fresh "Hmade" in
  let Ha := fresh "Hnone" in
  apply queries_add_nothing in H as [Hp Ha].

Ltac uprez_playlist_step :=
  reduce;
  first
    [ match goal with
      | |- context [Uprez.get_all_playlist_dreams client ?f ?u ?w0] =>
          unfold Uprez.get_all_playlist_dreams
      | |- context [Uprez.fetch_pages client ?f ?u ?t ?s ?l ?w0] =>
          let H := fresh "Hlater" in
          let Ht := fresh "Htrace" in
          destruct (fetch_pages_queries client f u t s l w0) as (? & ? & ? & -> & Ht & H);
          query_facts H
      | |- context [Uprez.scan client ?m ?l ?w0] =>
          let H := fresh "Hlater" in
          let Ht := fresh "Htrace" in
          let Hne := fresh "Hne" in
          destruct (scan_queries client m l w0) as ([? | ? | ?] & ? & ? & -> & Hne & Ht & H);
          [| | exfalso; exact (Hne _ eq_refl)]; query_facts H
      | |- context [Uprez.submit_from client ?c ?o ?t ?i ?a ?l ?w0] =>
          let H := fresh "Hlater" in
          let Ht := fresh "Htrace" in
          let Hne := fresh "Hne" in
          destruct (submit_from_later client o c t l i a w0)
            as ([? | ? | ?] & ? & ? & -> & Hne & Ht & H);
          [| | exfalso; exact (Hne _ eq_refl)]; later_facts H
      end
    | case_step ].

(** X29. The uprez batch adds jobs to one playlist only, the output playlist
    it chose at the start: the existing playlist it looked up, under the
    identifier the service answered, or else the playlist it created. It
    creates at most one playlist, and none when it adds to the existing
    one. *)
Theorem uprez_adds_every_job_to_the_playlist_it_chose (fuel : nat) (cfg : Uprez.config)
  (w : world R) :
  exists res evs w',
    Uprez.main client fuel cfg w = (res, w')
    /\ trace w' = trace w ++ evs
    /\ (length (playlists_made evs) <= 1)%nat
    /\ forall p i,
         In (AddItemToPlaylist p i) (calls evs) ->
         (playlists_made evs = []
          /\ exists pl,
               In (Called (GetPlaylist (Uprez.existing_playlist_uuid cfg) None)
                          (Returns (GotPlaylist pl))) evs
               /\ get "uuid" (pl_fields pl) = Some p)
         \/ (exists data d,
               In (Called (CreatePlaylist data) (Returns (GotObject d))) evs
               /\ get "uuid" d = Some p).
Proof.
  unfold Uprez.main, index. unfold_monad.
  repeat uprez_playlist_step.
  all: reduce.
  all: eexists _, _, _; (split; [reflexivity |]).
  all: repeat match goal with
         | H : trace _ = _ |- _ => cbn [trace] in H; rewrite H; clear H
         end.
  all: (split; [first [rewrite <- ?app_assoc; reflexivity | symmetry; apply app_nil_r] |]).
  all: split;
    [ rewrite ?playlists_made_app;
      repeat match goal with H : playlists_made _ = [] |- _ => rewrite H; clear H end;
      cbn [playlists_made flat_map app length seen]; lia |].
  all: intros out item Hin; rewrite ?calls_app in Hin;
    repeat (apply in_app_or in Hin as [Hin | Hin]);
    try (cbn [calls flat_map app seen In] in Hin;
         first [ exact (False_ind _ Hin)
               | destruct Hin as [Hin | Hin]; [discriminate Hin | exact (False_ind _ Hin)] ]);
    try (exfalso; match goal with H : forall p i, ~ In _ (calls _) |- _ =>
                    eapply H; exact Hin end).
  all: match goal with
       | H : forall p i, In _ (calls _) -> p = _ |- _ => apply H in Hin; subst out
       end.
  all: first
    [ left; split;
      [ rewrite ?playlists_made_app;
        repeat match goal with H : playlists_made _ = [] |- _ => rewrite H; clear H end;
        reflexivity
      | eexists; split;
        [ cbn [app In seen]; left; reflexivity | cbn [pl_fields]; eassumption ] ]
    | right; eexists _, _; split;
      [ cbn [app In seen]; repeat first [left; reflexivity | right]
      | eassumption ] ].
Qed.

End UprezPlaylist.
